(** * Absenteeism at work: the cleaning pipeline, the training loop and the
      prediction service, embedded from the Python sources

    Definitions, one module per source file and one per library:
    - [Py]        the Python and NumPy built-ins the sources call
                  ([float], [round], [max], [np.maximum], [str.strip]);
    - [Pd]        the pandas operations the sources call on a [DataFrame]
                  (column access, [drop], [quantile], [clip], [median],
                  [mode], [fillna], [drop_duplicates], [concat]);
    - [Features]  [absenteeism_at_work/features.py];
    - [Train]     [absenteeism_at_work/modeling/train.py];
    - [Api]       [absenteeism_at_work/api.py], the two prediction endpoints;
    - [Os]        files and paths ([os.path.dirname], [os.makedirs]);
    - [Config]    [absenteeism_at_work/config.py];
    - [Dataset]   [absenteeism_at_work/dataset.py];
    - [ApiStartup] [absenteeism_at_work/api.py], the loading of the model
                  and the health endpoint;
    - [Predict]   [absenteeism_at_work/modeling/predict.py], [predict];
    - [Plots]     [absenteeism_at_work/plots.py], the preparation of the
                  data.

    Facts, in the same order: the frames ([PdFacts]), the columns of the
    pipeline ([FeaturesFacts]), rounding, sorting, quantiles, clipping and
    medians ([PyFacts], [NumFacts]), loops of column updates and the mode
    ([UpdateFacts], [ModeFacts]), the range of the numbers ([RangeFacts]),
    the stages of the pipeline
    ([CleaningFacts], [CleaningExamples]), rows and duplicates ([RowFacts],
    [DedupFacts]), the training loop ([TrainFacts], [SelectionFacts],
    [TrainExamples]) and the service ([FloatFacts], [ConcatFacts],
    [ApiFacts], [ApiExamples]). Then the pipeline as a whole and stage by
    stage ([ShapeFacts], [FailureFacts], [IntegerFacts], [WinsorizeFacts],
    [FixpointFacts], [DomainFacts], [RepairFacts], [StripFacts]), the
    training run and its files ([FeatureColumnFacts], [TrainingRunFacts]),
    the endpoints and the request ([EndpointFacts], [RequestFacts]), what
    one program hands to the next ([HandoverFacts], [DatasetFacts],
    [StartupFacts], [DeploymentFacts], [PredictFacts], [PlotsFacts]), and
    these facts on the samples ([PipelineExamples], [RunExamples]).

    Exceptions are values: a computation that may raise returns a
    [result], and a [try ... except] is a match on it. *)

From Stdlib Require Import ZArith QArith Qround Qabs List String Ascii Bool Lia Lqa.
From Stdlib Require Import Sorted.
Import ListNotations.

Set Implicit Arguments.

(* ===================================================================== *)
(** * Exceptions as values *)
(* ===================================================================== *)

Inductive exn : Type :=
| KeyError (label : string)
| ValueError
| OverflowError
| IndexError
| TypeError
| HTTPException (status : Z).

Inductive result (A : Type) : Type :=
| Ok (a : A)
| Raise (e : exn).

Arguments Ok {A} a.
Arguments Raise {A} e.

Definition bind {A B : Type} (c : result A) (k : A -> result B) : result B :=
  match c with
  | Ok a => k a
  | Raise e => Raise e
  end.

Declare Scope py_scope.
Delimit Scope py_scope with py.
Notation "x <- c ;; k" := (bind c (fun x => k))
  (at level 61, c at next level, right associativity) : py_scope.
Notation "' pat <- c ;; k" := (bind c (fun x => match x with pat => k end))
  (at level 61, pat pattern, c at next level, right associativity) : py_scope.

Local Open Scope py_scope.

(** [mapM f xs]: apply [f] to the elements from left to right, stop at the
    first exception. *)
Fixpoint mapM {A B : Type} (f : A -> result B) (xs : list A) : result (list B) :=
  match xs with
  | [] => Ok []
  | x :: xs' => y <- f x ;; ys <- mapM f xs' ;; Ok (y :: ys)
  end.

(** [foldM]: a [for] loop that threads a state and may raise. *)
Fixpoint foldM {A S : Type} (body : S -> A -> result S) (xs : list A) (s : S)
  : result S :=
  match xs with
  | [] => Ok s
  | x :: xs' => s' <- body s x ;; foldM body xs' s'
  end.

(** [for_in]: a [for] loop whose turns may raise, with the state it ends
    in and the exception that ended it, if one did; a turn that raises
    leaves the state as it found it. *)
Fixpoint for_in {A S : Type} (body : S -> A -> result S) (xs : list A) (s : S)
  : S * option exn :=
  match xs with
  | [] => (s, None)
  | x :: xs' =>
      match body s x with
      | Ok s' => for_in body xs' s'
      | Raise e => (s, Some e)
      end
  end.

(* ===================================================================== *)
(** * Python built-ins *)
(* ===================================================================== *)

Module Py.

Local Open Scope Z_scope.

(** A Python [float] is a binary64 value: not-a-number, an infinity, or a
    finite dyadic rational (held as an exact [Q]; the sign of zero is not
    tracked, [-0.0 == 0.0] in Python). *)
Inductive pyfloat : Type :=
| FNan
| FInf (neg : bool)
| FFin (q : Q).

(** The values a cell can hold when a function is applied to it. *)
Inductive pyval : Type :=
| VInt (z : Z)
| VFloat (f : pyfloat)
| VStr (s : string).

(** Nearest integer of an exact rational, ties to the even integer: what
    [round(x)] and [np.round] compute on a finite binary64 value. *)
Definition round_half_even (q : Q) : Z :=
  let n := Qnum q in
  let d := Zpos (Qden q) in
  let f := n / d in
  let r := n mod d in
  match 2 * r ?= d with
  | Lt => f
  | Gt => f + 1
  | Eq => if Z.even f then f else f + 1
  end.

(** [m * 2^e] as a rational. *)
Definition dyadic (m e : Z) : Q :=
  if 0 <=? e then inject_Z (m * 2 ^ e) else m # Z.to_pos (2 ^ (- e)).

(** [a / (d * 2^e)] as a rational, for [0 < d]. *)
Definition scaled (a d e : Z) : Q :=
  if 0 <=? e then a # Z.to_pos (d * 2 ^ e) else (a * 2 ^ (- e)) # Z.to_pos d.

(** The binary64 value nearest to a rational (round to nearest, ties to
    even; gradual underflow below [2^-1022]; overflow to an infinity from
    [2^1024 - 2^970] on): the rounding of IEEE 754 that [float(str)],
    [float(int)] and [round(x, ndigits)] end with. *)
Definition b64_of_Q (q : Q) : pyfloat :=
  let n := Qnum q in
  let d := Zpos (Qden q) in
  if n =? 0 then FFin 0
  else
    let a := Z.abs n in
    let e0 := Z.log2 a - Z.log2 d - 52 in
    let e1 := if Qle_bool (inject_Z (2 ^ 52)) (scaled a d e0) then e0 else e0 - 1 in
    let e := Z.max e1 (-1074) in
    let m := round_half_even (scaled a d e) in
    if Qle_bool (inject_Z (2 ^ 1024)) (dyadic m e) then FInf (n <? 0)
    else FFin (Qred (dyadic (if n <? 0 then - m else m) e)).

(** ** Text

    A [str] is embedded as a [string] of ASCII characters. [float] and
    [str.strip] are embedded for such text: on text with other characters
    Python also strips the white space of Unicode and reads its decimal
    digits, which is not represented, and the facts about the values of
    text cells are stated for ASCII text ([ascii_text]). *)
Definition is_ascii (c : ascii) : bool := (nat_of_ascii c <? 128)%nat.

Definition ascii_text (s : string) : bool :=
  forallb is_ascii (list_ascii_of_string s).

(** ** [float(val)] *)

Definition is_digit (c : ascii) : bool :=
  let n := Z.of_nat (nat_of_ascii c) in (48 <=? n) && (n <=? 57).

Definition digit_value (c : ascii) : Z := Z.of_nat (nat_of_ascii c) - 48.

(** C's [isspace] in the C locale, which [float] strips: space, \t \n \v \f \r. *)
Definition is_cspace (c : ascii) : bool :=
  let n := Z.of_nat (nat_of_ascii c) in ((9 <=? n) && (n <=? 13)) || (n =? 32).

(** [str.isspace] on an ASCII character, which [str.strip] removes: the C
    ones and the separators 0x1c-0x1f. *)
Definition is_pyspace (c : ascii) : bool :=
  let n := Z.of_nat (nat_of_ascii c) in
  ((9 <=? n) && (n <=? 13)) || ((28 <=? n) && (n <=? 32)).

Fixpoint lstrip (sp : ascii -> bool) (s : list ascii) : list ascii :=
  match s with
  | c :: s' => if sp c then lstrip sp s' else s
  | [] => []
  end.

Definition strip_with (sp : ascii -> bool) (s : list ascii) : list ascii :=
  rev (lstrip sp (rev (lstrip sp s))).

(** [s.strip()] on ASCII text *)
Definition str_strip (s : string) : string :=
  string_of_list_ascii (strip_with is_pyspace (list_ascii_of_string s)).

Definition to_lower (c : ascii) : ascii :=
  let n := nat_of_ascii c in
  if ((65 <=? n) && (n <=? 90))%nat then ascii_of_nat (n + 32) else c.

Fixpoint span_digits (s : list ascii) : list ascii * list ascii :=
  match s with
  | c :: s' =>
      if is_digit c then let '(ds, r) := span_digits s' in (c :: ds, r)
      else ([], s)
  | [] => ([], [])
  end.

Definition digits_value (ds : list ascii) : Z :=
  fold_left (fun acc c => 10 * acc + digit_value c) ds 0.

(** Digit-group underscores: each one stands between two digits; they are
    removed before the number is read. [prev] is the previous character. *)
Fixpoint drop_underscores (prev : option ascii) (s : list ascii)
  : option (list ascii) :=
  match s with
  | [] =>
      match prev with
      | Some "_"%char => None
      | _ => Some []
      end
  | "_"%char :: s' =>
      match prev with
      | Some p => if is_digit p then drop_underscores (Some "_"%char) s' else None
      | None => None
      end
  | c :: s' =>
      match prev with
      | Some "_"%char =>
          if is_digit c
          then option_map (cons c) (drop_underscores (Some c) s')
          else None
      | _ => option_map (cons c) (drop_underscores (Some c) s')
      end
  end.

Definition read_sign (s : list ascii) : bool * list ascii :=
  match s with
  | "-"%char :: r => (true, r)
  | "+"%char :: r => (false, r)
  | _ => (false, s)
  end.

(** An optional exponent part [e[+-]digits]; anything else is left unread. *)
Definition read_exponent (s : list ascii) : Z * list ascii :=
  match s with
  | c :: r =>
      if Ascii.eqb (to_lower c) "e"%char then
        let '(neg, r1) := read_sign r in
        let '(ds, r2) := span_digits r1 in
        match ds with
        | [] => (0, s)
        | _ => ((if neg then - digits_value ds else digits_value ds), r2)
        end
      else (0, s)
  | [] => (0, [])
  end.

(** The decimal value [mant * 10^ex]. *)
Definition decimal (neg : bool) (mant ex : Z) : Q :=
  let m := if neg then - mant else mant in
  if 0 <=? ex then inject_Z (m * 10 ^ ex) else m # Z.to_pos (10 ^ (- ex)).

(** [float(s)] on an ASCII string: surrounding white space stripped, then a
    signed [inf], [infinity] or [nan] in any letter case, or a decimal
    numeral with an optional fraction and exponent. *)
Definition float_of_string (s : string) : result pyfloat :=
  let body := strip_with is_cspace (list_ascii_of_string s) in
  match drop_underscores None body with
  | None => Raise ValueError
  | Some t =>
      let '(neg, r) := read_sign t in
      let word := string_of_list_ascii (map to_lower r) in
      if String.eqb word "inf" || String.eqb word "infinity" then Ok (FInf neg)
      else if String.eqb word "nan" then Ok FNan
      else
        let '(ip, r1) := span_digits r in
        let '(fp, r2) :=
          match r1 with
          | "."%char :: r1' => span_digits r1'
          | _ => ([], r1)
          end in
        match ip ++ fp with
        | [] => Raise ValueError
        | ds =>
            let '(ex, r3) := read_exponent r2 in
            match r3 with
            | [] => Ok (b64_of_Q (decimal neg (digits_value ds)
                                          (ex - Z.of_nat (List.length fp))))
            | _ => Raise ValueError
            end
        end
  end.

Definition py_float (val : pyval) : result pyfloat :=
  match val with
  | VFloat f => Ok f
  | VInt z =>
      match b64_of_Q (inject_Z z) with
      | FInf _ => Raise OverflowError
      | f => Ok f
      end
  | VStr s => float_of_string s
  end.

(** ** [round(x)] on a float: the nearest [int], ties to even;
    [OverflowError] on an infinity, [ValueError] on a NaN. *)
Definition py_round (f : pyfloat) : result Z :=
  match f with
  | FFin q => Ok (round_half_even q)
  | FInf _ => Raise OverflowError
  | FNan => Raise ValueError
  end.

(** ** Comparisons of floats: every comparison with a NaN is false. *)

Definition float_ltb (x y : pyfloat) : bool :=
  match x with
  | FNan => false
  | FInf true => match y with FNan => false | FInf true => false | _ => true end
  | FInf false => false
  | FFin a =>
      match y with
      | FNan => false
      | FInf neg => negb neg
      | FFin b => negb (Qle_bool b a)
      end
  end.

Definition float_leb (x y : pyfloat) : bool :=
  match x with
  | FNan => false
  | FInf true => match y with FNan => false | _ => true end
  | FInf false => match y with FInf false => true | _ => false end
  | FFin a =>
      match y with
      | FNan => false
      | FInf neg => negb neg
      | FFin b => Qle_bool a b
      end
  end.

Definition is_finite (x : pyfloat) : bool :=
  match x with
  | FFin _ => true
  | _ => false
  end.

(** [max(0, x)]: [max] keeps its first argument unless a later one is
    greater, so a NaN gives 0. *)
Definition max0 (x : pyfloat) : pyfloat :=
  if float_ltb (FFin 0) x then x else FFin 0.

(** [np.maximum(x, 0)] on one element: a NaN is propagated. *)
Definition np_maximum0 (x : pyfloat) : pyfloat :=
  match x with
  | FNan => FNan
  | _ => if float_ltb x (FFin 0) then FFin 0 else x
  end.

(** [round(x, ndigits)] on a float with [0 <= ndigits]: infinities and NaN
    are returned as they are; a finite value is rounded, on its exact
    binary value and with ties to even, to [ndigits] decimal places, and
    the decimal is read back as the nearest binary64. Beyond 323 places
    nothing is rounded. *)
Definition round_ndigits (x : pyfloat) (ndigits : nat) : pyfloat :=
  match x with
  | FFin q =>
      if (323 <? ndigits)%nat then x
      else
        let p := 10 ^ Z.of_nat ndigits in
        b64_of_Q (round_half_even (q * inject_Z p) # Z.to_pos p)
  | _ => x
  end.

End Py.

(* ===================================================================== *)
(** * pandas operations *)
(* ===================================================================== *)

Module Pd.

(** A [DataFrame]: its columns in order, each under its label. [C] is what
    a column holds. *)
Definition frame (C : Type) : Type := list (string * C).

Section Frames.
Variable C : Type.

(** [df.columns] *)
Definition columns (df : frame C) : list string := map fst df.

(** [label in df.columns] *)
Definition has_col (label : string) (df : frame C) : bool :=
  existsb (String.eqb label) (columns df).

(** [df[label]], a [KeyError] when there is no such column. *)
Fixpoint get_col (label : string) (df : frame C) : result C :=
  match df with
  | [] => Raise (KeyError label)
  | (l, c) :: df' => if String.eqb label l then Ok c else get_col label df'
  end.

(** [df[label] = c]: the column is replaced where it stands, a new label
    is appended. *)
Fixpoint set_col (label : string) (c : C) (df : frame C) : frame C :=
  match df with
  | [] => [(label, c)]
  | (l, c0) :: df' =>
      if String.eqb label l then (l, c) :: df'
      else (l, c0) :: set_col label c df'
  end.

(** [df.drop(labels, axis=1)] (and [df.drop(columns=labels)]), with the
    default [errors='raise']: every label must be a column. *)
Definition drop (labels : list string) (df : frame C) : result (frame C) :=
  match filter (fun l => negb (has_col l df)) labels with
  | [] => Ok (filter (fun lc => negb (existsb (String.eqb (fst lc)) labels)) df)
  | l :: _ => Raise (KeyError l)
  end.
End Frames.

(** The same operation on every column. *)
Definition map_columns {C D : Type} (f : C -> D) (df : frame C) : frame D :=
  map (fun lc => (fst lc, f (snd lc))) df.

(** The same operation on every column, stopping at the first exception. *)
Definition mapM_columns {C D : Type} (f : C -> result D) (df : frame C)
  : result (frame D) :=
  mapM (fun lc => c <- f (snd lc) ;; Ok (fst lc, c)) df.

(** [df[label] = g(df[label])], where [g] may read [df] as it is before the
    assignment; a [KeyError] when there is no such column. *)
Definition update_col {C : Type} (label : string)
           (g : frame C -> C -> result C) (df : frame C) : result (frame C) :=
  col <- get_col label df ;;
  col' <- g df col ;;
  Ok (set_col label col' df).

(** ** Numeric columns

    A numeric column holds numbers or NaN ([None]), and is computed in
    exact rationals. pandas computes in binary64 and casts to [int64].
    From the third stage of the cleaning pipeline on, every number in a
    column is an integer, a quartile of integers (a multiple of 1/4), a
    fence (a multiple of 1/8) or a median of these (a multiple of 1/16);
    as long as the integers are at most 2^48 in magnitude, every one of
    these numbers and every intermediate result is a dyadic rational of
    at most 53 bits, so that binary64 rounds nothing and the cast wraps
    nothing. The facts about the numbers of a column are stated for such
    columns ([small]); beyond, pandas rounds, wraps ([astype(int)] of
    2^63 is -2^63) or raises [OverflowError], none of which is
    represented. *)
Definition numcol : Type := list (option Q).

(** A cell is small when it is missing or holds an integer of magnitude
    at most 2^48. *)
Definition small (c : option Q) : bool :=
  match c with
  | Some x =>
      Qeq_bool x (inject_Z (Qfloor x)) && Qle_bool (Qabs x) (inject_Z (2 ^ 48))
  | None => true
  end.

Definition small_frame (df : frame numcol) : bool :=
  forallb (fun lc => forallb small (snd lc)) df.

Definition dropna (col : numcol) : list Q :=
  flat_map (fun c => match c with Some x => [x] | None => [] end) col.

Fixpoint insert_sorted (x : Q) (l : list Q) : list Q :=
  match l with
  | [] => [x]
  | y :: l' => if Qle_bool x y then x :: l else y :: insert_sorted x l'
  end.

Definition sort_values (l : list Q) : list Q := fold_right insert_sorted [] l.

(** [col.quantile(q)], linear interpolation between the two order
    statistics around position [(n - 1) * q] of the non-missing values; NaN
    when there is none. *)
Definition quantile (col : numcol) (q : Q) : option Q :=
  let xs := sort_values (dropna col) in
  match xs with
  | [] => None
  | x0 :: _ =>
      let n := Z.of_nat (List.length xs) in
      let h := inject_Z (n - 1) * q in
      let lo := Qfloor h in
      let g := h - inject_Z lo in
      let a := nth (Z.to_nat lo) xs x0 in
      let b := nth (Z.to_nat (Z.min (lo + 1) (n - 1))) xs x0 in
      Some (a + (b - a) * g)
  end.

(** [col.median()]: the middle non-missing value, or the mean of the two
    middle ones; NaN when there is none. *)
Definition median (col : numcol) : option Q :=
  let xs := sort_values (dropna col) in
  match xs with
  | [] => None
  | x0 :: _ =>
      let n := List.length xs in
      if Nat.even n
      then Some ((nth (n / 2 - 1) xs x0 + nth (n / 2) xs x0) / 2)
      else Some (nth (n / 2) xs x0)
  end.

Definition Qlt_bool (x y : Q) : bool := negb (Qle_bool y x).

(** [col.clip(lower=.., upper=..)] with scalar bounds: a NaN bound does not
    clip; two bounds given in the wrong order are swapped; a cell below the
    lower bound takes it, a cell above the upper bound takes it; NaN cells
    stay. *)
Definition clip_lower (lower : option Q) (x : Q) : Q :=
  match lower with
  | Some l => if Qlt_bool x l then l else x
  | None => x
  end.

Definition clip_upper (upper : option Q) (x : Q) : Q :=
  match upper with
  | Some u => if Qlt_bool u x then u else x
  | None => x
  end.

Definition clip (lower upper : option Q) (col : numcol) : numcol :=
  let '(lower, upper) :=
    match lower, upper with
    | Some l, Some u =>
        if Qle_bool l u then (Some l, Some u) else (Some u, Some l)
    | _, _ => (lower, upper)
    end in
  map (option_map (fun x => clip_upper upper (clip_lower lower x))) col.

(** A cell is within two bounds when it is missing or a number between
    them. *)
Definition within (lo hi : Q) (c : option Q) : Prop :=
  match c with
  | Some x => (lo <= x /\ x <= hi)%Q
  | None => True
  end.

(** A cell is integral when it is missing or holds an integer. *)
Definition integral (c : option Q) : Prop :=
  match c with
  | Some x => exists z, x = inject_Z z
  | None => True
  end.

(** Number of cells equal to [v]. *)
Definition count_eq (v : Q) (xs : list Q) : nat :=
  List.length (filter (Qeq_bool v) xs).

(** [a] comes before [b] in [col.mode()]'s choice: it occurs more often,
    or as often and is smaller. *)
Definition mode_before (xs : list Q) (a b : Q) : bool :=
  (count_eq b xs <? count_eq a xs)%nat
  || ((count_eq a xs =? count_eq b xs)%nat && Qlt_bool a b).

(** [col.mode()[0]]: [mode()] lists the most frequent non-missing values in
    increasing order; on a column without any, it is empty and [[0]] raises
    [KeyError]. *)
Definition mode_first (col : numcol) : result Q :=
  match dropna col with
  | [] => Raise (KeyError "0")
  | x :: xs =>
      Ok (fold_left (fun best v => if mode_before (x :: xs) v best then v else best)
                    xs x)
  end.

(** What makes [m] the first mode of a column: it occurs in it, no value
    occurs more often, and no value that occurs as often is smaller. *)
Definition is_mode (m : Q) (col : numcol) : Prop :=
  In m (dropna col)
  /\ forall v, In v (dropna col) ->
       (count_eq v (dropna col) <= count_eq m (dropna col))%nat
       /\ (count_eq v (dropna col) = count_eq m (dropna col) -> (m <= v)%Q).

(** [col.fillna(v)]; filling with NaN changes nothing. *)
Definition fillna (v : option Q) (col : numcol) : numcol :=
  map (fun c => match c with None => v | Some x => Some x end) col.

(** [col.round(0).astype(int)] on a column of numbers below 2^63 in
    magnitude: a NaN cell cannot be cast. *)
Definition round_astype_int (col : numcol) : result (list Z) :=
  mapM (fun c => match c with
                 | Some x => Ok (Py.round_half_even x)
                 | None => Raise ValueError
                 end) col.

(** ** Rows *)

Section Rows.
Variable A : Type.
Variable d : A.

Definition nrows (df : frame (list A)) : nat :=
  match df with
  | [] => 0
  | (_, c) :: _ => List.length c
  end.

(** [df.iloc[i]] as the list of the cells of row [i]. *)
Definition row (df : frame (list A)) (i : nat) : list A :=
  map (fun lc => nth i (snd lc) d) df.

Definition rows (df : frame (list A)) : list (list A) :=
  map (row df) (seq 0 (nrows df)).

(** [col[mask]] *)
Fixpoint select (mask : list bool) (col : list A) : list A :=
  match mask, col with
  | b :: mask', x :: col' => if b then x :: select mask' col' else select mask' col'
  | _, _ => []
  end.

Variable eqb : A -> A -> bool.

Fixpoint row_eqb (r s : list A) : bool :=
  match r, s with
  | [], [] => true
  | x :: r', y :: s' => eqb x y && row_eqb r' s'
  | _, _ => false
  end.

(** [df.duplicated()]: a row is marked when an earlier row equals it. *)
Definition duplicated (df : frame (list A)) : list bool :=
  map (fun i => existsb (fun j => row_eqb (row df j) (row df i)) (seq 0 i))
      (seq 0 (nrows df)).

(** [df.drop_duplicates()]: the first occurrence of every row is kept. *)
Definition drop_duplicates (df : frame (list A)) : frame (list A) :=
  let keep := map negb (duplicated df) in
  map_columns (select keep) df.

(** What [drop_duplicates] is to achieve, read on the list of rows: a row
    is kept when none of the rows [seen] before it equals it. *)
Fixpoint first_rows (seen L : list (list A)) : list (list A) :=
  match L with
  | [] => []
  | r :: L' =>
      if existsb (fun s => row_eqb s r) seen
      then first_rows (seen ++ [r]) L'
      else r :: first_rows (seen ++ [r]) L'
  end.

(** A frame is well formed when its columns have the same length. *)
Definition wf_frame (df : frame (list A)) : Prop :=
  Forall (fun lc => List.length (snd lc) = nrows df) df.

(** [pd.concat(dfs, ignore_index=True)] of frames that have the same
    columns in the same order; [ValueError] when there is nothing to
    concatenate. *)
Definition append_rows (df1 df2 : frame (list A)) : frame (list A) :=
  map (fun '((l, c1), (_, c2)) => (l, c1 ++ c2)) (combine df1 df2).

Definition concat (dfs : list (frame (list A))) : result (frame (list A)) :=
  match dfs with
  | [] => Raise ValueError
  | df :: dfs' => Ok (fold_left append_rows dfs' df)
  end.
End Rows.

(** Two frames have the same shape when they have the same labels in the
    same order and, label by label, columns of the same length. *)
Definition same_shape {A B : Type} (df : frame (list A)) (df' : frame (list B))
  : Prop :=
  Forall2 (fun c c' => fst c = fst c'
                       /\ List.length (snd c) = List.length (snd c')) df df'.

End Pd.

(* ===================================================================== *)
(** * absenteeism_at_work/features.py *)
(* ===================================================================== *)

Module Features.
Import Py Pd.
Local Open Scope string_scope.

(** A column as [pd.read_csv] delivers it: [int64], [float64] (NaN for a
    blank cell), or [object] (text, NaN for a blank cell). *)
Inductive series : Type :=
| SInt (xs : list Z)
| SFloat (xs : list pyfloat)
| SObject (xs : list (option string)).

(** The cells of a column as Python values. *)
Definition values (col : series) : list pyval :=
  match col with
  | SInt xs => map VInt xs
  | SFloat xs => map VFloat xs
  | SObject xs =>
      map (fun c => match c with Some s => VStr s | None => VFloat FNan end) xs
  end.

Module DropColumns.
Definition transform {C : Type} (X : frame C) : result (frame C) :=
  drop ["ID"; "mixed_type_col"] X.
End DropColumns.

Module StripObjectColumns.
(** [astype(str)] then [.str.strip()] on one cell of an object column:
    [str(nan)] is ['nan']. *)
Definition astype_str_strip (c : option string) : option string :=
  match c with
  | Some s => Some (str_strip s)
  | None => Some (str_strip "nan")
  end.

Definition transform (X : frame series) : result (frame series) :=
  let df := X in
  Ok (map_columns (fun col =>
                     match col with
                     | SObject xs => SObject (map astype_str_strip xs)
                     | _ => col
                     end) df).
End StripObjectColumns.

Module SafeRoundToInt.
(** [pd.isnull(val)] on a scalar *)
Definition isnull (val : pyval) : bool :=
  match val with
  | VFloat FNan => true
  | _ => false
  end.

(** The body of the [try]. *)
Definition safe_convert_try (val : pyval) : result (option Q) :=
  if negb (isnull val)
  then f <- py_float val ;; z <- py_round f ;; Ok (Some (inject_Z z))
  else Ok None.

(** The bare [except] turns every exception into NaN. *)
Definition safe_convert (val : pyval) : option Q :=
  match safe_convert_try val with
  | Ok v => v
  | Raise _ => None
  end.

Definition transform (X : frame series) : result (frame numcol) :=
  let df := X in
  Ok (map_columns (fun col => map safe_convert (values col)) df).
End SafeRoundToInt.

Module FixInvalidValues.
(** [range(lo, hi)] *)
Definition range (lo hi : Z) : list Z :=
  map (fun i => (lo + Z.of_nat i)%Z) (seq 0 (Z.to_nat (hi - lo))).

(** [x in l] for a cell [x]: equal to one of the integers; NaN is equal
    to none. *)
Definition py_in (x : option Q) (l : list Z) : bool :=
  match x with
  | Some q => existsb (fun k => Qeq_bool q (inject_Z k)) l
  | None => false
  end.

(** [df[label] = df[label].apply(f)], where [f] may read [df] as it is
    before the assignment. *)
Definition assign_apply (label : string)
           (f : frame numcol -> option Q -> result (option Q))
           (df : frame numcol) : result (frame numcol) :=
  update_col label (fun df col => mapM (f df) col) df.

(** [df[label].mode()[0]] *)
Definition mode0 (label : string) (df : frame numcol) : result (option Q) :=
  col <- get_col label df ;;
  m <- mode_first col ;;
  Ok (Some m).

Definition transform (X : frame numcol) : result (frame numcol) :=
  let df := X in
  df <- assign_apply "Reason for absence"
          (fun _ x => Ok (if py_in x (range 0 29) then x else Some 0)) df ;;
  df <- assign_apply "Month of absence"
          (fun _ x => Ok (if py_in x (range 0 13) then x else Some 0)) df ;;
  df <- assign_apply "Day of the week"
          (fun df x => if py_in x (range 2 7) then Ok x
                       else mode0 "Day of the week" df) df ;;
  df <- assign_apply "Seasons"
          (fun df x => if py_in x (range 1 5) then Ok x
                       else mode0 "Seasons" df) df ;;
  df <- assign_apply "Education"
          (fun df x => if py_in x (range 1 5) then Ok x
                       else mode0 "Education" df) df ;;
  foldM (fun df col =>
           assign_apply col
             (fun df x => if py_in x [0; 1]%Z then Ok x else mode0 col df) df)
        ["Disciplinary failure"; "Social drinker"; "Social smoker"] df.

(** The same stage read as a table: the columns repaired with the constant
    0 and the columns repaired with their mode, each with its domain, in
    the order in which [transform] assigns them. *)
Definition zero_repaired : list (string * list Z) :=
  [ ("Reason for absence", range 0 29); ("Month of absence", range 0 13) ].

Definition mode_repaired : list (string * list Z) :=
  [ ("Day of the week", range 2 7); ("Seasons", range 1 5);
    ("Education", range 1 5); ("Disciplinary failure", [0; 1]%Z);
    ("Social drinker", [0; 1]%Z); ("Social smoker", [0; 1]%Z) ].

Definition rules : list (string * (frame numcol -> numcol -> result numcol)) :=
  (map (fun ld =>
         (fst ld,
          fun (_ : frame numcol) col =>
            mapM (fun x => Ok (if py_in x (snd ld) then x else Some 0)) col))
      zero_repaired
   ++
   map (fun ld =>
         (fst ld,
          fun (df : frame numcol) col =>
            mapM (fun x => if py_in x (snd ld) then Ok x else mode0 (fst ld) df) col))
      mode_repaired)%list.
End FixInvalidValues.

Module WinsorizeIQR.
Definition columns : list string :=
  [ "Transportation expense"; "Distance from Residence to Work"; "Service time";
    "Age"; "Work load Average/day"; "Hit target"; "Son"; "Pet"; "Weight";
    "Height"; "Body mass index"; "Absenteeism time in hours" ].

(** Float arithmetic with NaN ([None]) absorbing. *)
Definition fsub (a b : option Q) : option Q :=
  match a, b with Some x, Some y => Some (x - y) | _, _ => None end.
Definition fadd (a b : option Q) : option Q :=
  match a, b with Some x, Some y => Some (x + y) | _, _ => None end.
Definition fmul (k : Q) (a : option Q) : option Q :=
  match a with Some x => Some (k * x) | None => None end.

Definition winsorize (col : numcol) : numcol :=
  let Q1 := quantile col (1 # 4) in
  let Q3 := quantile col (3 # 4) in
  let IQR := fsub Q3 Q1 in
  clip (fsub Q1 (fmul (3 # 2) IQR)) (fadd Q3 (fmul (3 # 2) IQR)) col.

Definition transform (X : frame numcol) : result (frame numcol) :=
  let df := X in
  foldM (fun df col => update_col col (fun _ c => Ok (winsorize c)) df)
        columns df.
End WinsorizeIQR.

Module FillNaWithMedian.
(** [X.fillna(X.median(numeric_only=True))]: every column is numeric
    here; each is filled with its own median. *)
Definition transform (X : frame numcol) : result (frame numcol) :=
  Ok (map_columns (fun col => fillna (median col) col) X).
End FillNaWithMedian.

Module FinalIntConversion.
Definition transform (X : frame numcol) : result (frame (list Z)) :=
  mapM_columns round_astype_int X.
End FinalIntConversion.

(** The first three stages, the first four, the first five and the first
    six: the frames the later stages receive. *)
Definition stages_1_3 (X : frame series) : result (frame numcol) :=
  X <- DropColumns.transform X ;;
  X <- StripObjectColumns.transform X ;;
  SafeRoundToInt.transform X.

Definition stages_1_4 (X : frame series) : result (frame numcol) :=
  X <- stages_1_3 X ;;
  FixInvalidValues.transform X.

Definition stages_1_5 (X : frame series) : result (frame numcol) :=
  X <- stages_1_4 X ;;
  WinsorizeIQR.transform X.

Definition stages_1_6 (X : frame series) : result (frame numcol) :=
  X <- stages_1_5 X ;;
  FillNaWithMedian.transform X.

(** The raw datasets on which the embedding computes what the code
    computes, cell by cell: in the columns the first stage keeps, every
    text is ASCII and every number a cell is read as in the third stage
    is small. *)
Definition ascii_series (col : series) : bool :=
  match col with
  | SObject xs =>
      forallb (fun c => match c with Some s => ascii_text s | None => true end) xs
  | _ => true
  end.

Definition ascii_frame (X : frame series) : bool :=
  forallb (fun lc => ascii_series (snd lc)) X.

Definition plain (X : frame series) : bool :=
  match DropColumns.transform X, stages_1_3 X with
  | Ok X1, Ok X3 => ascii_frame X1 && small_frame X3
  | _, _ => true
  end.

(** [create_preprocessing_pipeline().fit_transform(X)]: every [fit] returns
    its transformer unchanged, the [transform]s run in the listed order. *)
Definition fit_transform (X : frame series) : result (frame (list Z)) :=
  X <- DropColumns.transform X ;;
  X <- StripObjectColumns.transform X ;;
  X <- SafeRoundToInt.transform X ;;
  X <- FixInvalidValues.transform X ;;
  X <- WinsorizeIQR.transform X ;;
  X <- FillNaWithMedian.transform X ;;
  FinalIntConversion.transform X.

(** A processed dataset as a frame to clean: all its columns are [int64]. *)
Definition as_raw (df : frame (list Z)) : frame series := map_columns SInt df.

(** A raw dataset of four records, used to run the pipeline on. *)
Definition sample_raw : frame series :=
  [ ("ID", SInt [1; 2; 3; 4]%Z);
    ("Reason for absence", SInt [5; 5; 99; 26]%Z);
    ("Month of absence", SObject [Some " 7 "; Some "x"; None; Some "13"]);
    ("Day of the week", SInt [3; 3; 9; 4]%Z);
    ("Seasons", SInt [1; 1; 1; 1]%Z);
    ("Transportation expense", SInt [0; 100; 100; 100]%Z);
    ("Distance from Residence to Work",
       SObject [Some "25.7"; Some "inf"; Some "2.5"; Some "n/a"]);
    ("Service time", SInt [13; 13; 13; 13]%Z);
    ("Age", SFloat [FFin 33; FNan; FInf false; FFin (7 # 2)]);
    ("Work load Average/day", SInt [240; 240; 240; 240]%Z);
    ("Hit target", SInt [97; 97; 97; 97]%Z);
    ("Disciplinary failure", SInt [0; 0; 2; 1]%Z);
    ("Education", SInt [1; 1; 1; 1]%Z);
    ("Son", SInt [2; 2; 2; 2]%Z);
    ("Social drinker", SInt [1; 1; 1; 1]%Z);
    ("Social smoker", SInt [0; 0; 0; 0]%Z);
    ("Pet", SInt [1; 1; 1; 1]%Z);
    ("Weight", SInt [90; 90; 90; 90]%Z);
    ("Height", SInt [172; 172; 172; 172]%Z);
    ("Body mass index", SInt [30; 30; 30; 30]%Z);
    ("Absenteeism time in hours", SInt [4; 0; 2; 8]%Z);
    ("mixed_type_col", SObject [Some "a"; Some "1"; None; Some "b"]) ].

(** What the pipeline makes of it. *)
Definition sample_processed : frame (list Z) :=
  [ ("Reason for absence", [5; 5; 0; 26]);
    ("Month of absence", [7; 0; 0; 0]);
    ("Day of the week", [3; 3; 3; 4]);
    ("Seasons", [1; 1; 1; 1]);
    ("Transportation expense", [38; 100; 100; 100]);
    ("Distance from Residence to Work", [26; 14; 2; 14]);
    ("Service time", [13; 13; 13; 13]);
    ("Age", [33; 18; 18; 4]);
    ("Work load Average/day", [240; 240; 240; 240]);
    ("Hit target", [97; 97; 97; 97]);
    ("Disciplinary failure", [0; 0; 0; 1]);
    ("Education", [1; 1; 1; 1]);
    ("Son", [2; 2; 2; 2]);
    ("Social drinker", [1; 1; 1; 1]);
    ("Social smoker", [0; 0; 0; 0]);
    ("Pet", [1; 1; 1; 1]);
    ("Weight", [90; 90; 90; 90]);
    ("Height", [172; 172; 172; 172]);
    ("Body mass index", [30; 30; 30; 30]);
    ("Absenteeism time in hours", [4; 0; 2; 8]) ]%Z.

(** Four records as the fourth stage receives them, reduced to the eight
    categorical columns, and what the stage makes of them. *)
Definition sample_categorical : frame numcol :=
  [ ("Reason for absence", [Some 5; Some 5; Some 99; None]);
    ("Month of absence", [Some 7; None; Some 13; Some 7]);
    ("Day of the week", [Some 3; Some 3; Some 9; Some 4]);
    ("Seasons", [Some 1; Some 1; Some 1; Some 1]);
    ("Education", [Some 1; Some 2; Some 7; Some 2]);
    ("Disciplinary failure", [Some 0; Some 0; Some 2; Some 1]);
    ("Social drinker", [Some 1; Some 1; Some 1; None]);
    ("Social smoker", [Some 0; Some 0; Some 0; Some 0]) ]%Q.

Definition sample_categorical_repaired : frame numcol :=
  [ ("Reason for absence", [Some 5; Some 5; Some 0; Some 0]);
    ("Month of absence", [Some 7; Some 0; Some 0; Some 7]);
    ("Day of the week", [Some 3; Some 3; Some 3; Some 4]);
    ("Seasons", [Some 1; Some 1; Some 1; Some 1]);
    ("Education", [Some 1; Some 2; Some 2; Some 2]);
    ("Disciplinary failure", [Some 0; Some 0; Some 0; Some 1]);
    ("Social drinker", [Some 1; Some 1; Some 1; Some 1]);
    ("Social smoker", [Some 0; Some 0; Some 0; Some 0]) ]%Q.

(** A dataset that needs no cleaning (integer cells, every categorical
    value in its domain, no value outside the fences of its column), and a
    raw dataset that holds it between the two columns the first stage
    removes. *)
Definition sample_clean : frame (list Z) :=
  [ ("Reason for absence", [5; 5; 0; 26]);
    ("Month of absence", [7; 0; 12; 0]);
    ("Day of the week", [3; 3; 2; 6]);
    ("Seasons", [1; 2; 3; 4]);
    ("Transportation expense", [100; 104; 110; 100]);
    ("Distance from Residence to Work", [26; 14; 2; 14]);
    ("Service time", [13; 13; 13; 13]);
    ("Age", [33; 18; 18; 33]);
    ("Work load Average/day", [240; 240; 240; 240]);
    ("Hit target", [97; 97; 97; 97]);
    ("Disciplinary failure", [0; 0; 0; 1]);
    ("Education", [1; 1; 4; 1]);
    ("Son", [2; 2; 2; 2]);
    ("Social drinker", [1; 1; 1; 1]);
    ("Social smoker", [0; 0; 0; 0]);
    ("Pet", [1; 1; 1; 1]);
    ("Weight", [90; 90; 90; 90]);
    ("Height", [172; 172; 172; 172]);
    ("Body mass index", [30; 30; 30; 30]);
    ("Absenteeism time in hours", [4; 0; 2; 8]) ]%Z.

Definition sample_clean_raw : frame series :=
  (("ID", SInt [1; 2; 3; 4]%Z) :: as_raw sample_clean
   ++ [("mixed_type_col", SObject [Some "a"; Some "1"; None; Some "b"])])%list.

End Features.

(* ===================================================================== *)
(** * absenteeism_at_work/modeling/train.py *)
(* ===================================================================== *)

Module Train.
Import Py Pd.
Local Open Scope string_scope.

Definition RANDOM_STATE : Z := 42.
Definition TEST_SIZE : Q := 2 # 10.
Definition TARGET_COLUMN : string := "Absenteeism time in hours".
Definition MODELS_DIR : string := "models".

(** The processed dataset as [pd.read_csv] loads it: integer columns. *)
Definition dataset : Type := frame (list Z).

Definition categorical_candidates : list string :=
  [ "Reason for absence"; "Month of absence"; "Day of the week";
    "Seasons"; "Education"; "Disciplinary failure";
    "Social drinker"; "Social smoker" ].

(** [astype('category')] on the categorical columns leaves the cells as
    they are and is not represented. *)
Definition prepare_features (df : dataset) (target_col : string)
  : result (dataset * list Z * list string * list string) :=
  if negb (has_col target_col df) then Raise ValueError
  else
    let df := drop_duplicates 0%Z Z.eqb df in
    X <- drop [target_col] df ;;
    y <- get_col target_col df ;;
    let categorical_cols := filter (fun c => has_col c X) categorical_candidates in
    let numeric_cols :=
      filter (fun c => negb (existsb (String.eqb c) categorical_cols)) (columns X) in
    Ok (X, y, categorical_cols, numeric_cols).

(** [ColumnTransformer] over the two lists of columns, not yet fitted. *)
Record Preprocessor : Type := {
  num : list string;
  cat : list string
}.

Definition create_preprocessor (numeric_cols categorical_cols : list string)
  : Preprocessor :=
  {| num := numeric_cols; cat := categorical_cols |}.

Record Metrics : Type := {
  train_mae : pyfloat;
  train_rmse : pyfloat;
  train_r2 : pyfloat;
  test_mae : pyfloat;
  test_rmse : pyfloat;
  test_r2 : pyfloat
}.

(** [name.lower()] and [s.replace(' ', '_')] *)
Definition str_lower (s : string) : string :=
  string_of_list_ascii (map to_lower (list_ascii_of_string s)).

Definition replace_space (s : string) : string :=
  string_of_list_ascii
    (map (fun c => if Ascii.eqb c " "%char then "_"%char else c)
         (list_ascii_of_string s)).

Section Main.
(** scikit-learn, as the sources use it: an untrained regressor, a fitted
    [Pipeline], the split, the fit, the prediction and the three scores.
    Each call is a function of its arguments that returns or raises
    (scikit-learn validates what it is given: a [ValueError] on too few
    rows, on a NaN, on an infinity). The one preprocessor object the
    pipelines share is fitted again by every [fit], always on the same
    training split, so that sharing it changes nothing. *)
Variable Regressor : Type.
Variable Fitted : Type.
Variable train_test_split :
  dataset -> list Z -> Q -> Z -> result (dataset * dataset * list Z * list Z).
Variable Pipeline_fit :
  Preprocessor -> Regressor -> dataset -> list Z -> result Fitted.
Variable Pipeline_predict : Fitted -> dataset -> result (list pyfloat).
Variable mean_absolute_error : list Z -> list pyfloat -> result pyfloat.
Variable mean_squared_error : list Z -> list pyfloat -> result pyfloat.
Variable r2_score : list Z -> list pyfloat -> result pyfloat.
Variable np_sqrt : pyfloat -> pyfloat.

(** The dictionary [train_model] returns. *)
Record ModelResult : Type := {
  name : string;
  metrics : Metrics;
  pipeline : Fitted;
  model : Regressor
}.

Definition train_model (name : string) (model : Regressor)
           (preprocessor : Preprocessor)
           (X_train X_test : dataset) (y_train y_test : list Z)
  : result ModelResult :=
  full_pipeline <- Pipeline_fit preprocessor model X_train y_train ;;
  y_pred_train <- Pipeline_predict full_pipeline X_train ;;
  y_pred_test <- Pipeline_predict full_pipeline X_test ;;
  train_mae <- mean_absolute_error y_train y_pred_train ;;
  train_mse <- mean_squared_error y_train y_pred_train ;;
  train_r2 <- r2_score y_train y_pred_train ;;
  test_mae <- mean_absolute_error y_test y_pred_test ;;
  test_mse <- mean_squared_error y_test y_pred_test ;;
  test_r2 <- r2_score y_test y_pred_test ;;
  let metrics :=
    {| train_mae := train_mae;
       train_rmse := np_sqrt train_mse;
       train_r2 := train_r2;
       test_mae := test_mae;
       test_rmse := np_sqrt test_mse;
       test_r2 := test_r2 |} in
  Ok {| name := name; metrics := metrics; pipeline := full_pipeline;
        model := model |}.

(** The joblib files, each under its path: the latest [joblib.dump] to a
    path is the one [joblib.load] finds. Writing a file is taken to
    succeed. *)
Definition files : Type := list (string * Fitted).

Definition joblib_dump (obj : Fitted) (path : string) (fs : files) : files :=
  (path, obj) :: fs.

Fixpoint joblib_load (path : string) (fs : files) : option Fitted :=
  match fs with
  | [] => None
  | (p, obj) :: fs' => if String.eqb path p then Some obj else joblib_load path fs'
  end.

(** [save_model] returns the path it wrote. *)
Definition save_model (model_result : ModelResult) (models_dir : string)
           (fs : files) : string * files :=
  let model_name := replace_space (str_lower (name model_result)) in
  let model_path := models_dir ++ "/" ++ model_name ++ "_model.joblib" in
  (model_path, joblib_dump (pipeline model_result) model_path fs).

(** [log_to_mlflow(model_result, model_path, X_train, y_train)] catches
    every exception of the MLflow calls it makes and returns nothing;
    what these calls leave on the disk (under [mlruns/], a copy of the
    model file among it) is a function of its arguments. *)
Variable log_to_mlflow :
  ModelResult -> string -> dataset -> list Z -> files -> files.

(** What [save_metrics] writes to [reports/metrics/training_metrics.json]:
    the name and the metrics of every result. *)
Definition save_metrics (results : list ModelResult) : list (string * Metrics) :=
  map (fun r => (name r, metrics r)) results.

(** What the selection is to achieve: [best] stands in the list of
    results, every result before it has a strictly greater test RMSE and
    no result after it has a smaller one; a result whose test RMSE is NaN
    compares with none. *)
Definition first_lowest (best : ModelResult) (rs : list ModelResult) : Prop :=
  exists before after,
    rs = (before ++ best :: after)%list
    /\ Forall (fun r => test_rmse (metrics r) = FNan
                        \/ float_ltb (test_rmse (metrics best))
                                     (test_rmse (metrics r)) = true) before
    /\ Forall (fun r => test_rmse (metrics r) = FNan
                        \/ float_leb (test_rmse (metrics best))
                                     (test_rmse (metrics r)) = true) after.

(** The state of the training loop. *)
Record LoopState : Type := {
  results : list ModelResult;
  best_model : option ModelResult;
  best_score : pyfloat;
  disk : files
}.

(** One turn of [for name, model in models], from the result of
    [train_model] on. *)
Definition loop_turn (X_train : dataset) (y_train : list Z)
           (st : LoopState) (result : ModelResult) : LoopState :=
  let results := (results st ++ [result])%list in
  let '(best_score, best_model) :=
    if float_ltb (test_rmse (metrics result)) (best_score st)
    then (test_rmse (metrics result), Some result)
    else (best_score st, best_model st) in
  let '(model_path, fs) := save_model result MODELS_DIR (disk st) in
  let fs := log_to_mlflow result model_path X_train y_train fs in
  {| results := results; best_model := best_model;
     best_score := best_score; disk := fs |}.

(** The whole turn. What [train_model] raises ends the loop before the
    turn has written anything. *)
Definition loop_body (preprocessor : Preprocessor)
           (X_train X_test : dataset) (y_train y_test : list Z)
           (st : LoopState) (nm : string * Regressor) : result LoopState :=
  let '(name, model) := nm in
  result <- train_model name model preprocessor X_train X_test y_train y_test ;;
  Ok (loop_turn X_train y_train st result).

(** What a run of [main] comes to: what it returns or raises, the joblib
    files it leaves, and the metrics report if it came to write it. *)
Record Run : Type := {
  returned : result (list ModelResult);
  disk_after : files;
  report : option (list (string * Metrics))
}.

(** [main], from the loaded dataset [df] and the list [models] on.
    Creating the directories, reading the CSV and printing are left out.
    Subscripting the [best_model] that is still [None], in the summary
    printed after the metrics are saved, is a [TypeError]. *)
Definition main (df : dataset) (models : list (string * Regressor)) (fs : files)
  : Run :=
  match prepare_features df TARGET_COLUMN with
  | Raise e => {| returned := Raise e; disk_after := fs; report := None |}
  | Ok (X, y, cat_cols, num_cols) =>
      match train_test_split X y TEST_SIZE RANDOM_STATE with
      | Raise e => {| returned := Raise e; disk_after := fs; report := None |}
      | Ok (X_train, X_test, y_train, y_test) =>
          let preprocessor := create_preprocessor num_cols cat_cols in
          let '(st, raised) :=
            for_in (loop_body preprocessor X_train X_test y_train y_test) models
                   {| results := []; best_model := None;
                      best_score := FInf false; disk := fs |} in
          match raised with
          | Some e =>
              {| returned := Raise e; disk_after := disk st; report := None |}
          | None =>
              let written := save_metrics (results st) in
              match best_model st with
              | None =>
                  {| returned := Raise TypeError; disk_after := disk st;
                     report := Some written |}
              | Some best =>
                  let best_model_path := MODELS_DIR ++ "/" ++ "best_model.joblib" in
                  {| returned := Ok (results st);
                     disk_after :=
                       joblib_dump (pipeline best) best_model_path (disk st);
                     report := Some written |}
              end
          end
      end
  end.
End Main.

(** A processed dataset with a repeated row, and a stand-in for
    scikit-learn and MLflow to run [main] with. A regressor is the
    constant it predicts and a tag; the split keeps every row on both
    sides; every score is the mean of the squared differences, rounded
    once to binary64 (it overflows to [+inf] from about 1.8e308 on, and
    predictions that are no numbers or not as many as the targets are
    refused); the root is not taken, which keeps the order of the scores;
    logging copies the model file under [mlruns/]. *)
Definition sample_dataset : dataset :=
  [ ("Age", [33; 33; 41; 33]);
    ("Son", [2; 2; 1; 2]);
    ("Absenteeism time in hours", [4; 4; 8; 4]) ]%Z.

Definition toy_split (X : dataset) (y : list Z) (test_size : Q) (random_state : Z)
  : result (dataset * dataset * list Z * list Z) := Ok (X, X, y, y).

Definition toy_fit (p : Preprocessor) (model : Q * string) (X : dataset)
           (y : list Z) : result (Q * string) := Ok model.

Definition toy_predict (fitted : Q * string) (X : dataset) : result (list pyfloat) :=
  Ok (repeat (FFin (fst fitted)) (nrows X)).

Fixpoint squared_differences (y_true : list Z) (y_pred : list pyfloat)
  : option (list Q) :=
  match y_true, y_pred with
  | [], [] => Some []
  | y :: ys, FFin p :: ps =>
      option_map (cons ((inject_Z y - p) * (inject_Z y - p))%Q)
                 (squared_differences ys ps)
  | _, _ => None
  end.

Definition toy_error (y_true : list Z) (y_pred : list pyfloat) : result pyfloat :=
  match squared_differences y_true y_pred with
  | Some (d :: ds) =>
      Ok (b64_of_Q (fold_left Qplus ds d
                    / inject_Z (Z.of_nat (List.length (d :: ds)))))
  | _ => Raise ValueError
  end.

Definition toy_sqrt (x : pyfloat) : pyfloat := x.

Definition toy_log (r : ModelResult (Q * string) (Q * string)) (model_path : string)
           (X_train : dataset) (y_train : list Z)
           (fs : files (Q * string)) : files (Q * string) :=
  joblib_dump (pipeline r) ("mlruns/" ++ model_path) fs.

Definition toy_models : list (string * (Q * string)) :=
  [ ("RandomForest", (3%Q, "forest")); ("LightGBM", (6%Q, "lgbm"));
    ("CatBoost", (6%Q, "catboost")) ].


End Train.

(* ===================================================================== *)
(** * absenteeism_at_work/api.py *)
(* ===================================================================== *)

Module Api.
Import Py Pd.
Local Open Scope string_scope.

Record AbsenteeismInput : Type := {
  reason_for_absence : Z;
  month_of_absence : Z;
  day_of_the_week : Z;
  seasons : Z;
  transportation_expense : pyfloat;
  distance_from_residence_to_work : pyfloat;
  service_time : pyfloat;
  age : Z;
  work_load_average_per_day : pyfloat;
  hit_target : Z;
  disciplinary_failure : Z;
  education : Z;
  son : Z;
  social_drinker : Z;
  social_smoker : Z;
  pet : Z;
  weight : pyfloat;
  height : pyfloat;
  body_mass_index : pyfloat
}.

(** The [Field(..., ge=.., le=..)] constraints of the request model. *)
Definition ge_le (lo hi x : Z) : bool := ((lo <=? x) && (x <=? hi))%Z.
Definition ge0 (x : Z) : bool := (0 <=? x)%Z.
Definition fge0 (x : pyfloat) : bool := float_leb (FFin 0) x.

Definition valid (r : AbsenteeismInput) : bool :=
  ge_le 0 28 (reason_for_absence r) && ge_le 0 12 (month_of_absence r)
  && ge_le 2 6 (day_of_the_week r) && ge_le 1 4 (seasons r)
  && fge0 (transportation_expense r) && fge0 (distance_from_residence_to_work r)
  && fge0 (service_time r) && ge0 (age r) && fge0 (work_load_average_per_day r)
  && ge_le 0 100 (hit_target r) && ge_le 0 1 (disciplinary_failure r)
  && ge_le 1 4 (education r) && ge0 (son r) && ge_le 0 1 (social_drinker r)
  && ge_le 0 1 (social_smoker r) && ge0 (pet r) && fge0 (weight r)
  && fge0 (height r) && fge0 (body_mass_index r).

Definition input_to_dataframe (input_data : AbsenteeismInput) : frame (list pyval) :=
  [ ("Reason for absence", [VInt (reason_for_absence input_data)]);
    ("Month of absence", [VInt (month_of_absence input_data)]);
    ("Day of the week", [VInt (day_of_the_week input_data)]);
    ("Seasons", [VInt (seasons input_data)]);
    ("Transportation expense", [VFloat (transportation_expense input_data)]);
    ("Distance from Residence to Work",
       [VFloat (distance_from_residence_to_work input_data)]);
    ("Service time", [VFloat (service_time input_data)]);
    ("Age", [VInt (age input_data)]);
    ("Work load Average/day", [VFloat (work_load_average_per_day input_data)]);
    ("Hit target", [VInt (hit_target input_data)]);
    ("Disciplinary failure", [VInt (disciplinary_failure input_data)]);
    ("Education", [VInt (education input_data)]);
    ("Son", [VInt (son input_data)]);
    ("Social drinker", [VInt (social_drinker input_data)]);
    ("Social smoker", [VInt (social_smoker input_data)]);
    ("Pet", [VInt (pet input_data)]);
    ("Weight", [VFloat (weight input_data)]);
    ("Height", [VFloat (height input_data)]);
    ("Body mass index", [VFloat (body_mass_index input_data)]) ].

Record PredictionResponse : Type := {
  predicted_absenteeism_hours : pyfloat;
  model_version : option string
}.

Record BatchPredictionResponse : Type := {
  predictions : list PredictionResponse;
  total : Z
}.

(** The loaded artifact: all the service asks of it is [predict]. *)
Record Model : Type := {
  model_predict : frame (list pyval) -> result (list pyfloat)
}.

(** [try: body except Exception as e: raise HTTPException(status)] *)
Definition try_except {A : Type} (body : result A) (status : Z) : result A :=
  match body with
  | Ok a => Ok a
  | Raise _ => Raise (HTTPException status)
  end.

(** [a[0]] *)
Definition first (a : list pyfloat) : result pyfloat :=
  match a with
  | x :: _ => Ok x
  | [] => Raise IndexError
  end.

Section Service.
(** The global [model] ([None] until a model is loaded) and whether the
    file [models/best_model.joblib] exists. *)
Variable model : option Model.
Variable DEFAULT_MODEL_exists : bool.

Definition version : option string :=
  if DEFAULT_MODEL_exists then Some "best_model" else None.

Definition predict (input_data : AbsenteeismInput) : result PredictionResponse :=
  match model with
  | None => Raise (HTTPException 503)
  | Some m =>
      try_except
        (let df := input_to_dataframe input_data in
         prediction <- model_predict m df ;;
         p0 <- first prediction ;;
         let prediction := max0 p0 in
         Ok {| predicted_absenteeism_hours := round_ndigits prediction 2;
               model_version := version |})
        400
  end.

Definition predict_batch (inputs : list AbsenteeismInput)
  : result BatchPredictionResponse :=
  match model with
  | None => Raise (HTTPException 503)
  | Some m =>
      try_except
        (let dfs := map input_to_dataframe inputs in
         df <- concat dfs ;;
         predictions <- model_predict m df ;;
         let predictions := map np_maximum0 predictions in
         Ok {| predictions :=
                 map (fun pred =>
                        {| predicted_absenteeism_hours := round_ndigits pred 2;
                           model_version := version |})
                     predictions;
               total := Z.of_nat (List.length predictions) |})
        400
  end.
End Service.

(** The example record of the request schema, and a stand-in for a loaded
    model that reads one column: it predicts [Son - 2.5] hours for every
    row. *)
Definition example_input : AbsenteeismInput :=
  {| reason_for_absence := 23; month_of_absence := 7; day_of_the_week := 3;
     seasons := 1; transportation_expense := FFin 289;
     distance_from_residence_to_work := FFin 36; service_time := FFin 13;
     age := 33; work_load_average_per_day := FFin 240; hit_target := 97;
     disciplinary_failure := 0; education := 1; son := 2; social_drinker := 1;
     social_smoker := 0; pet := 1; weight := FFin 90; height := FFin 172;
     body_mass_index := FFin 30 |}.

Definition stand_in_model : Model :=
  {| model_predict := fun df =>
       col <- get_col "Son" df ;;
       Ok (map (fun v => match v with
                         | VInt z => FFin (inject_Z z - (5 # 2))
                         | _ => FNan
                         end) col) |}.

End Api.

(* ===================================================================== *)
(** * Files *)
(* ===================================================================== *)

Module Os.

(** What a function that reads or writes files raises: the path is not
    there, or an exception of the kinds above. *)
Inductive io_exn : Type :=
| FileNotFoundError (path : string)
| Exception (e : exn).

Inductive io_result (A : Type) : Type :=
| Returned (a : A)
| Raised (e : io_exn).

Arguments Returned {A} a.
Arguments Raised {A} e.

(** The files, each under its path, the latest written first. Directories
    are not tracked: a directory can always be created, unless its name is
    empty. *)
Definition disk (F : Type) : Type := list (string * F).

Definition write_file {F : Type} (path : string) (f : F) (fs : disk F) : disk F :=
  (path, f) :: fs.

Fixpoint read_file {F : Type} (path : string) (fs : disk F) : option F :=
  match fs with
  | [] => None
  | (p, f) :: fs' => if String.eqb path p then Some f else read_file path fs'
  end.

(** [os.path.exists(path)] *)
Definition path_exists {F : Type} (path : string) (fs : disk F) : bool :=
  match read_file path fs with
  | Some _ => true
  | None => false
  end.

Definition is_sep (c : ascii) : bool := Ascii.eqb c "/"%char.

Fixpoint drop_until_sep (s : list ascii) : list ascii :=
  match s with
  | c :: s' => if is_sep c then s else drop_until_sep s'
  | [] => []
  end.

(** [os.path.dirname(p)] of [posixpath]: [p] up to its last [/]; the
    slashes this ends with are removed unless it holds nothing else. *)
Definition dirname (p : string) : string :=
  let head_rev := drop_until_sep (rev (list_ascii_of_string p)) in
  if forallb is_sep head_rev
  then string_of_list_ascii (rev head_rev)
  else string_of_list_ascii (rev (Py.lstrip is_sep head_rev)).

(** [os.makedirs(name, exist_ok=True)]: the empty name cannot be made.
    The other failures of a file system (a file that stands where the
    directory is to be, a directory that may not be written) are not
    represented. *)
Definition makedirs (name : string) : io_result unit :=
  if String.eqb name "" then Raised (FileNotFoundError "") else Returned tt.

End Os.

(* ===================================================================== *)
(** * absenteeism_at_work/config.py *)
(* ===================================================================== *)

Module Config.
Local Open Scope string_scope.

Definition DATA_DIR : string := "data".

(** [os.path.join] of relative parts, none of them empty. *)
Definition os_path_join (parts : list string) : string :=
  String.concat "/" parts.

Definition RAW_DATA_PATH : string :=
  os_path_join [DATA_DIR; "raw"; "work_absenteeism_raw.csv"].
Definition PROCESSED_DATA_PATH : string :=
  os_path_join [DATA_DIR; "processed"; "work_absenteeism_processed.csv"].

(** A dictionary from codes to names, in the order it is written. *)
Definition dict : Type := list (Z * string).

(** [d.get(k)] *)
Fixpoint dict_get (d : dict) (k : Z) : option string :=
  match d with
  | [] => None
  | (k0, v) :: d' => if Z.eqb k k0 then Some v else dict_get d' k
  end.

Definition REASON_ABSENCE : dict :=
  [ (0, "Unknown");
    (1, "Certain infectious and parasitic diseases");
    (2, "Neoplasms");
    (3, "Blood and immune disorders");
    (4, "Endocrine disorders");
    (5, "Mental disorders");
    (6, "Nervous system diseases");
    (7, "Eye diseases");
    (8, "Ear diseases");
    (9, "Circulatory system diseases");
    (10, "Respiratory system diseases");
    (11, "Digestive system diseases");
    (12, "Skin diseases");
    (13, "Musculoskeletal diseases");
    (14, "Genitourinary diseases");
    (15, "Pregnancy and childbirth");
    (16, "Perinatal conditions");
    (17, "Congenital anomalies");
    (18, "Symptoms and signs");
    (19, "Injuries and poisoning");
    (20, "External causes");
    (21, "Health services contact");
    (22, "Patient follow-up");
    (23, "Medical consultation");
    (24, "Blood donation");
    (25, "Lab examination");
    (26, "Unjustified absence");
    (27, "Physiotherapy");
    (28, "Dental consultation") ]%Z.

Definition MONTHS : dict :=
  [ (0, "Unknown"); (1, "January"); (2, "February"); (3, "March"); (4, "April");
    (5, "May"); (6, "June"); (7, "July"); (8, "August");
    (9, "September"); (10, "October"); (11, "November"); (12, "December") ]%Z.

Definition DAYS : dict :=
  [ (2, "Monday"); (3, "Tuesday"); (4, "Wednesday"); (5, "Thursday");
    (6, "Friday") ]%Z.
Definition SEASONS : dict :=
  [ (1, "Winter"); (2, "Spring"); (3, "Summer"); (4, "Fall") ]%Z.
Definition EDUCATION : dict :=
  [ (1, "High School"); (2, "Graduate"); (3, "Postgraduate");
    (4, "Master and Doctor") ]%Z.
Definition YES_NO : dict := [ (0, "No"); (1, "Yes") ]%Z.

End Config.

(* ===================================================================== *)
(** * absenteeism_at_work/dataset.py *)
(* ===================================================================== *)

Module Dataset.
Import Py Pd Features Os Config.
Local Open Scope string_scope.

(** The paths of a cleaner; its pipeline is
    [create_preprocessing_pipeline()], whose [fit_transform] is
    [Features.fit_transform]. *)
Record AbsenteeismCleaner : Type := {
  raw_path : string;
  processed_path : string
}.

(** [AbsenteeismCleaner()] *)
Definition default_cleaner : AbsenteeismCleaner :=
  {| raw_path := RAW_DATA_PATH; processed_path := PROCESSED_DATA_PATH |}.

Section Csv.
(** The text of a CSV file, what [pd.read_csv] makes of it (a frame, or an
    exception when it cannot be parsed) and what [df.to_csv(index=False)]
    writes. *)
Variable csv : Type.
Variable read_csv : csv -> result (frame series).
Variable to_csv : frame (list Z) -> csv.

Definition load_data (self : AbsenteeismCleaner) (fs : disk csv)
  : io_result (frame series) :=
  match read_file (raw_path self) fs with
  | None => Raised (FileNotFoundError (raw_path self))
  | Some text =>
      match read_csv text with
      | Ok df => Returned df
      | Raise e => Raised (Exception e)
      end
  end.

Definition clean_data (self : AbsenteeismCleaner) (df : frame series)
  : result (frame (list Z)) :=
  fit_transform df.

(** [save_data] returns nothing; what it leaves is the disk. *)
Definition save_data (self : AbsenteeismCleaner) (df : frame (list Z))
           (fs : disk csv) : io_result unit * disk csv :=
  match makedirs (dirname (processed_path self)) with
  | Raised e => (Raised e, fs)
  | Returned _ => (Returned tt, write_file (processed_path self) (to_csv df) fs)
  end.

Definition run (self : AbsenteeismCleaner) (fs : disk csv)
  : io_result (frame (list Z)) * disk csv :=
  match load_data self fs with
  | Raised e => (Raised e, fs)
  | Returned df_raw =>
      match clean_data self df_raw with
      | Raise e => (Raised (Exception e), fs)
      | Ok df_clean =>
          match save_data self df_clean fs with
          | (Raised e, fs') => (Raised e, fs')
          | (Returned _, fs') => (Returned df_clean, fs')
          end
      end
  end.

End Csv.

End Dataset.

(* ===================================================================== *)
(** * absenteeism_at_work/api.py: loading the model *)
(* ===================================================================== *)

Module ApiStartup.
Import Py Pd Api Os.
Local Open Scope string_scope.

Definition MODELS_DIR : string := "models".
Definition DEFAULT_MODEL : string := MODELS_DIR ++ "/" ++ "best_model.joblib".

Record HealthResponse : Type := {
  status : string;
  model_loaded : bool
}.

(** [health()] reads the global [model]. *)
Definition health (model : option Model) : HealthResponse :=
  {| status := match model with
               | Some _ => "healthy"
               | None => "model_not_loaded"
               end;
     model_loaded := match model with Some _ => true | None => false end |}.

Section Startup.
(** What a model file holds and what [joblib.load] makes of it in the
    environment of the service: the model, or an exception (a file
    written with another version of scikit-learn). The files are those
    [joblib.dump] wrote. *)
Variable Fitted : Type.
Variable unpickle : Fitted -> result Model.
Variable fs : Train.files Fitted.

(** [Path.exists()] *)
Definition exists_ (path : string) : bool :=
  match Train.joblib_load path fs with
  | Some _ => true
  | None => false
  end.

(** [load_model(model_path)], from the value of the global [model]: what
    it returns or raises, and the value of the global afterwards. *)
Definition load_model (model_path : option string) (model : option Model)
  : io_result Model * option Model :=
  let model_path :=
    match model_path with
    | None => DEFAULT_MODEL
    | Some p => p
    end in
  match Train.joblib_load model_path fs with
  | None => (Raised (FileNotFoundError model_path), model)
  | Some file =>
      match unpickle file with
      | Raise e => (Raised (Exception e), model)
      | Ok loaded_model => (Returned loaded_model, Some loaded_model)
      end
  end.

(** [startup_event()]: the value of the global [model] afterwards. Every
    exception is caught. *)
Definition startup_event (model : option Model) : option Model :=
  if exists_ DEFAULT_MODEL then
    match load_model None model with
    | (Returned _, model') => model'
    | (Raised _, _) => None
    end
  else None.
End Startup.

End ApiStartup.

(* ===================================================================== *)
(** * absenteeism_at_work/modeling/predict.py *)
(* ===================================================================== *)

Module Predict.
Import Py Pd Api.
Local Open Scope string_scope.

(** [a.min()] and [a.max()] of a NumPy array raise [ValueError] on an
    empty array; the values are only printed. *)
Definition np_reduce (a : list pyfloat) : result unit :=
  match a with
  | [] => Raise ValueError
  | _ :: _ => Ok tt
  end.

(** [predict(model, X)]; the mean of an array is always defined. *)
Definition predict (model : Model) (X : frame (list pyval)) : result (list pyfloat) :=
  predictions <- model_predict model X ;;
  let predictions := map np_maximum0 predictions in
  _ <- np_reduce predictions ;;
  _ <- np_reduce predictions ;;
  Ok predictions.

End Predict.

(* ===================================================================== *)
(** * absenteeism_at_work/plots.py *)
(* ===================================================================== *)

Module Plots.
Import Py Pd Config.
Local Open Scope string_scope.

(** [body_mass_category(bmi)] on a cell of the integer column: the
    comparison of an integer with a float is exact. *)
Definition body_mass_category (bmi : Z) : string :=
  if Qlt_bool (inject_Z bmi) (37 # 2) then "Underweight"
  else if Qlt_bool (inject_Z bmi) 25 then "Normal"
  else if Qlt_bool (inject_Z bmi) 30 then "Overweight"
  else "Obese".

(** A column of the copy the visualizer draws from: the integers read
    from the file, or the names they were mapped to (NaN where the
    dictionary has no such code). *)
Inductive column : Type :=
| Ints (xs : list Z)
| Names (xs : list (option string)).

(** [col.map(d)]; on a column of names no key of these dictionaries is
    found. *)
Definition series_map (d : dict) (col : column) : column :=
  match col with
  | Ints xs => Names (map (dict_get d) xs)
  | Names xs => Names (map (fun _ => None) xs)
  end.

(** [col.apply(body_mass_category)]: a name cannot be compared with a
    number, and every comparison with a NaN is false. *)
Definition series_apply_bmi (col : column) : result column :=
  match col with
  | Ints xs => Ok (Names (map (fun z => Some (body_mass_category z)) xs))
  | Names xs =>
      ys <- mapM (fun c => match c with
                           | Some _ => Raise TypeError
                           | None => Ok (Some "Obese")
                           end) xs ;;
      Ok (Names ys)
  end.

(** The assignments of [_prepare_data], in their order. *)
Definition prepare_rules : list (string * (frame column -> column -> result column)) :=
  [ ("Month of absence", fun _ col => Ok (series_map MONTHS col));
    ("Day of the week", fun _ col => Ok (series_map DAYS col));
    ("Seasons", fun _ col => Ok (series_map SEASONS col));
    ("Disciplinary failure", fun _ col => Ok (series_map YES_NO col));
    ("Education", fun _ col => Ok (series_map EDUCATION col));
    ("Social drinker", fun _ col => Ok (series_map YES_NO col));
    ("Social smoker", fun _ col => Ok (series_map YES_NO col));
    ("Body mass index", fun _ col => series_apply_bmi col) ].

(** [_prepare_data] on the copy [df_copy] of the frame read from the
    processed file. *)
Definition _prepare_data (df_copy : frame column) : result (frame column) :=
  foldM (fun df r => update_col (fst r) (snd r) df) prepare_rules df_copy.

(** The frame read from the processed file: integer columns. *)
Definition read_processed (df : frame (list Z)) : frame column :=
  map_columns Ints df.

End Plots.


(* ===================================================================== *)
(** * Facts *)
(* ===================================================================== *)

Unset Implicit Arguments.

(* ===================================================================== *)
(** * Facts about the exception monad *)
(* ===================================================================== *)

Lemma Some_inj {A : Type} (a b : A) : Some a = Some b -> a = b.
Proof. congruence. Qed.

Lemma Ok_inj {A : Type} (a b : A) : Ok a = Ok b -> a = b.
Proof. congruence. Qed.

Lemma bind_Ok_inv {A B : Type} (c : result A) (k : A -> result B) (b : B) :
  bind c k = Ok b -> exists a, c = Ok a /\ k a = Ok b.
Proof. destruct c as [a|e]; simpl; [eauto | discriminate]. Qed.

Lemma mapM_Forall2 {A B : Type} (f : A -> result B) (xs : list A) (ys : list B) :
  mapM f xs = Ok ys <-> Forall2 (fun x y => f x = Ok y) xs ys.
Proof.
  revert ys. induction xs as [|x xs IH]; intros ys; simpl.
  - split; intros H.
    + injection H as <-. constructor.
    + inversion H. reflexivity.
  - split; intros H.
    + apply bind_Ok_inv in H as (y & Hy & H).
      apply bind_Ok_inv in H as (ys' & Hys & H).
      injection H as <-. constructor; [exact Hy | now apply IH].
    + inversion H as [|? y ? ys' Hy Hys]; subst.
      rewrite Hy. simpl. apply IH in Hys. rewrite Hys. reflexivity.
Qed.

Lemma mapM_pure {A B : Type} (f : A -> B) (xs : list A) :
  mapM (fun x => Ok (f x)) xs = Ok (map f xs).
Proof. induction xs as [|x xs IH]; simpl; [|rewrite IH]; reflexivity. Qed.

Lemma foldM_invariant {A S : Type} (P : S -> Prop) (body : S -> A -> result S)
      (xs : list A) :
  (forall s x s', In x xs -> P s -> body s x = Ok s' -> P s') ->
  forall s s', P s -> foldM body xs s = Ok s' -> P s'.
Proof.
  induction xs as [|x xs IH]; intros Hb s s' Hs H; simpl in H.
  - injection H as <-. exact Hs.
  - apply bind_Ok_inv in H as (s1 & H1 & H).
    apply (IH (fun s0 x0 s0' Hin => Hb s0 x0 s0' (or_intror Hin)) s1 s'); auto.
    apply (Hb s x s1); simpl; auto.
Qed.

(* ===================================================================== *)
(** * Facts about frames *)
(* ===================================================================== *)

Module PdFacts.
Import Pd.

Section FrameFacts.
Variable C : Type.
Implicit Types (df : frame C) (l : string) (c : C).

Lemma has_col_In l df : has_col l df = true <-> In l (columns df).
Proof.
  unfold has_col. rewrite existsb_exists. split.
  - intros (x & Hin & Hx). apply String.eqb_eq in Hx. now subst.
  - intros Hin. exists l. split; [exact Hin | apply String.eqb_refl].
Qed.

Lemma get_col_Ok_has l df c : get_col l df = Ok c -> has_col l df = true.
Proof.
  induction df as [|[l0 c0] df IH]; simpl; [discriminate|].
  unfold has_col; simpl. destruct (String.eqb l l0); simpl; auto.
Qed.

Lemma has_col_get l df : has_col l df = true -> exists c, get_col l df = Ok c.
Proof.
  induction df as [|[l0 c0] df IH]; unfold has_col; simpl; [discriminate|].
  destruct (String.eqb l l0); simpl; eauto.
Qed.

Lemma get_col_Raise l df e :
  get_col l df = Raise e -> e = KeyError l /\ has_col l df = false.
Proof.
  induction df as [|[l0 c0] df IH]; unfold has_col; simpl.
  - intros H; injection H as <-; auto.
  - destruct (String.eqb l l0); simpl; [discriminate | exact IH].
Qed.

Lemma get_col_In l df c : get_col l df = Ok c -> In (l, c) df.
Proof.
  induction df as [|[l0 c0] df IH]; simpl; [discriminate|].
  destruct (String.eqb l l0) eqn:E.
  - apply String.eqb_eq in E. intros H; injection H as <-. subst; auto.
  - auto.
Qed.

Lemma columns_set_col l c df :
  has_col l df = true -> columns (set_col l c df) = columns df.
Proof.
  induction df as [|[l0 c0] df IH]; unfold has_col; simpl; [discriminate|].
  destruct (String.eqb l l0) eqn:E; simpl; [reflexivity|].
  intros H. f_equal. now apply IH.
Qed.

Lemma get_set_same l c df : get_col l (set_col l c df) = Ok c.
Proof.
  induction df as [|[l0 c0] df IH]; simpl.
  - now rewrite String.eqb_refl.
  - destruct (String.eqb l l0) eqn:E; simpl; rewrite E; auto.
Qed.

Lemma get_set_other l l' c df :
  l' <> l -> get_col l' (set_col l c df) = get_col l' df.
Proof.
  intros Hne. induction df as [|[l0 c0] df IH]; simpl.
  - apply String.eqb_neq in Hne. now rewrite Hne.
  - destruct (String.eqb l l0) eqn:E; simpl.
    + apply String.eqb_eq in E; subst l0.
      apply String.eqb_neq in Hne. now rewrite Hne.
    + now rewrite IH.
Qed.

Lemma drop_Ok_columns ls df df' :
  drop ls df = Ok df' ->
  columns df' = filter (fun l => negb (existsb (String.eqb l) ls)) (columns df).
Proof.
  unfold drop. destruct (filter _ ls); [|discriminate].
  intros H; injection H as <-. unfold columns.
  induction df as [|[l0 c0] df IH]; simpl; [reflexivity|].
  destruct (existsb (String.eqb l0) ls); simpl; now rewrite IH.
Qed.

Lemma drop_Ok_get ls df df' l :
  drop ls df = Ok df' -> existsb (String.eqb l) ls = false ->
  get_col l df' = get_col l df.
Proof.
  unfold drop. destruct (filter _ ls); [|discriminate].
  intros H Hl; injection H as <-.
  induction df as [|[l0 c0] df IH]; simpl; [reflexivity|].
  destruct (existsb (String.eqb l0) ls) eqn:E0; simpl.
  - destruct (String.eqb l l0) eqn:E; [|exact IH].
    apply String.eqb_eq in E; subst. congruence.
  - destruct (String.eqb l l0); [reflexivity | exact IH].
Qed.

End FrameFacts.

Lemma columns_map_columns {C D : Type} (f : C -> D) (df : frame C) :
  columns (map_columns f df) = columns df.
Proof. unfold columns, map_columns. rewrite map_map. reflexivity. Qed.

Lemma get_col_map_columns {C D : Type} (f : C -> D) (df : frame C) l :
  get_col l (map_columns f df) = (c <- get_col l df ;; Ok (f c)).
Proof.
  induction df as [|[l0 c0] df IH]; simpl; [reflexivity|].
  destruct (String.eqb l l0); simpl; auto.
Qed.

Lemma mapM_columns_Forall2 {C D : Type} (f : C -> result D) df df' :
  mapM_columns f df = Ok df' <->
  Forall2 (fun lc lc' => fst lc = fst lc' /\ f (snd lc) = Ok (snd lc')) df df'.
Proof.
  unfold mapM_columns. split; intros H.
  - apply mapM_Forall2 in H.
    induction H as [|[l c] [l' c'] ? ? Hx ? IH]; constructor; auto; simpl in *.
    destruct (f c); simpl in Hx; [|discriminate]. injection Hx as <- <-. auto.
  - apply mapM_Forall2.
    induction H as [|[l c] [l' c'] ? ? Hx ? IH]; constructor; auto; simpl in *.
    destruct Hx as [<- ->]. reflexivity.
Qed.

Lemma mapM_columns_columns {C D : Type} (f : C -> result D) df df' :
  mapM_columns f df = Ok df' -> columns df' = columns df.
Proof.
  intros H; apply mapM_columns_Forall2 in H; revert H. unfold columns.
  induction 1 as [|? ? ? ? [Hl _] _ IH]; simpl; [reflexivity|]. now rewrite Hl, IH.
Qed.

Lemma mapM_columns_get {C D : Type} (f : C -> result D) df df' l c :
  mapM_columns f df = Ok df' -> get_col l df = Ok c ->
  exists c', f c = Ok c' /\ get_col l df' = Ok c'.
Proof.
  intros H; apply mapM_columns_Forall2 in H; revert H.
  induction 1 as [|[l0 c0] [l0' c0'] ? ? [Hl Hf] _ IH]; simpl in *; [discriminate|].
  subst l0'. destruct (String.eqb l l0).
  - intros H; injection H as <-. eauto.
  - exact IH.
Qed.

End PdFacts.

Module FeaturesFacts.
Import Py Pd Features PdFacts.
Local Open Scope string_scope.

(** ** Every stage after the first keeps the columns of its input *)

Lemma assign_apply_inv label f df df' :
  FixInvalidValues.assign_apply label f df = Ok df' ->
  exists col col', get_col label df = Ok col /\ mapM (f df) col = Ok col'
                   /\ df' = set_col label col' df.
Proof.
  unfold FixInvalidValues.assign_apply. intros H.
  apply bind_Ok_inv in H as (col & Hc & H).
  apply bind_Ok_inv in H as (col' & Hc' & H).
  injection H as <-. eauto.
Qed.

Lemma assign_apply_columns label f df df' :
  FixInvalidValues.assign_apply label f df = Ok df' -> columns df' = columns df.
Proof.
  intros H. apply assign_apply_inv in H as (col & col' & Hc & _ & ->).
  apply columns_set_col. eapply get_col_Ok_has; eauto.
Qed.

Lemma FixInvalidValues_columns X X' :
  FixInvalidValues.transform X = Ok X' -> columns X' = columns X.
Proof.
  unfold FixInvalidValues.transform. intros H.
  repeat (apply bind_Ok_inv in H as (? & ?%assign_apply_columns & H)).
  injection H as <-. congruence.
Qed.

Lemma WinsorizeIQR_columns X X' :
  WinsorizeIQR.transform X = Ok X' -> columns X' = columns X.
Proof.
  unfold WinsorizeIQR.transform. intros H.
  eapply (foldM_invariant (fun df => columns df = columns X)) in H; eauto.
  intros s l s' _ Hs Hb.
  apply bind_Ok_inv in Hb as (c & Hc & Hb). injection Hb as <-.
  rewrite columns_set_col; [exact Hs | eapply get_col_Ok_has; eauto].
Qed.

(** The inversion of a successful run into its seven intermediate frames. *)
Lemma fit_transform_inv X X' :
  fit_transform X = Ok X' ->
  exists X1 X4 X5,
    DropColumns.transform X = Ok X1
    /\ FixInvalidValues.transform
         (map_columns (fun col => map SafeRoundToInt.safe_convert (values col))
            (map_columns (fun col => match col with
                                     | SObject xs =>
                                         SObject (map StripObjectColumns.astype_str_strip xs)
                                     | _ => col
                                     end) X1)) = Ok X4
    /\ WinsorizeIQR.transform X4 = Ok X5
    /\ FinalIntConversion.transform
         (map_columns (fun col => fillna (median col) col) X5) = Ok X'.
Proof.
  unfold fit_transform. intros H.
  apply bind_Ok_inv in H as (X1 & H1 & H).
  unfold StripObjectColumns.transform, SafeRoundToInt.transform,
    FillNaWithMedian.transform in H. simpl in H.
  apply bind_Ok_inv in H as (X4 & H4 & H).
  apply bind_Ok_inv in H as (X5 & H5 & H).
  exists X1, X4, X5. auto.
Qed.

Lemma fit_transform_stages X :
  fit_transform X = (X6 <- stages_1_6 X ;; FinalIntConversion.transform X6).
Proof.
  unfold fit_transform, stages_1_6, stages_1_5, stages_1_4, stages_1_3.
  destruct (DropColumns.transform X) as [X1|]; simpl; [|reflexivity].
  destruct (FixInvalidValues.transform _) as [X4|]; simpl; [|reflexivity].
  destruct (WinsorizeIQR.transform X4) as [X5|]; simpl; reflexivity.
Qed.

Lemma fit_transform_columns X X' :
  fit_transform X = Ok X' ->
  columns X' =
  filter (fun l => negb (existsb (String.eqb l) ["ID"; "mixed_type_col"])) (columns X).
Proof.
  intros H. apply fit_transform_inv in H as (X1 & X4 & X5 & H1 & H4 & H5 & H7).
  apply mapM_columns_columns in H7. rewrite H7, columns_map_columns.
  apply WinsorizeIQR_columns in H5. rewrite H5.
  apply FixInvalidValues_columns in H4. rewrite H4, !columns_map_columns.
  now apply drop_Ok_columns.
Qed.

(** C4, as the code has it: the first stage is strict. With both columns
    present it removes exactly these two and leaves every other column as
    it is; when one of them is absent it raises [KeyError] on the absent
    label and returns no dataset. *)
Theorem DropColumns_strict (C : Type) (X : frame C) :
  (has_col "ID" X && has_col "mixed_type_col" X = true ->
   exists X', DropColumns.transform X = Ok X'
     /\ columns X' =
        filter (fun l => negb (String.eqb l "ID" || String.eqb l "mixed_type_col"))
               (columns X)
     /\ forall l, l <> "ID" -> l <> "mixed_type_col" -> get_col l X' = get_col l X)
  /\ (has_col "ID" X && has_col "mixed_type_col" X = false ->
      exists l, DropColumns.transform X = Raise (KeyError l)
        /\ has_col l X = false /\ (l = "ID" \/ l = "mixed_type_col")).
Proof.
  unfold DropColumns.transform. split; intros H.
  - apply andb_true_iff in H as [H1 H2].
    destruct (drop ["ID"; "mixed_type_col"] X) as [X'|e] eqn:E.
    + exists X'. split; [reflexivity|]. split.
      * rewrite (drop_Ok_columns _ _ _ _ E). apply filter_ext. intros l. simpl.
        now rewrite orb_false_r.
      * intros l Hl1 Hl2. apply (drop_Ok_get _ _ _ _ l E). simpl.
        apply String.eqb_neq in Hl1, Hl2. now rewrite Hl1, Hl2.
    + unfold drop in E. simpl in E. rewrite H1, H2 in E. discriminate.
  - unfold drop. simpl.
    destruct (has_col "ID" X) eqn:H1; simpl in *.
    + rewrite H. simpl. exists "mixed_type_col". auto.
    + exists "ID". auto.
Qed.

(** C4, refuted as stated: on a dataset without the identifier column the
    first stage fails with [KeyError] instead of removing the column that
    is present. *)
Lemma DropColumns_absent_ID_raises :
  DropColumns.transform
    [("Age", SInt [33%Z; 41%Z]); ("mixed_type_col", SObject [Some "a"; None])]
  = Raise (KeyError "ID").
Proof. reflexivity. Qed.

(** C3, as the code has it: a processed dataset no longer has the two
    columns the first stage removes, so a second run of the pipeline on it
    stops in the first stage with [KeyError] and produces nothing. *)
Theorem fit_transform_twice_raises X X' :
  fit_transform X = Ok X' ->
  fit_transform (as_raw X') = Raise (KeyError "ID").
Proof.
  intros H. apply fit_transform_columns in H.
  assert (Hno : has_col "ID" (as_raw X') = false).
  { apply not_true_is_false. intros Hin. apply has_col_In in Hin.
    unfold as_raw in Hin. rewrite columns_map_columns, H in Hin.
    apply filter_In in Hin as [_ Hin]. simpl in Hin. discriminate. }
  unfold fit_transform, DropColumns.transform, drop. simpl. rewrite Hno. reflexivity.
Qed.

End FeaturesFacts.

Module PyFacts.
Import Py.
Local Open Scope string_scope.
Local Open Scope Q_scope.

(** ** Rounding to the nearest integer, ties to even *)

Lemma round_half_even_cases q :
  (q - inject_Z (Qfloor q) < 1 # 2 /\ round_half_even q = Qfloor q)
  \/ (1 # 2 < q - inject_Z (Qfloor q) /\ round_half_even q = (Qfloor q + 1)%Z)
  \/ (q - inject_Z (Qfloor q) == 1 # 2
      /\ round_half_even q = if Z.even (Qfloor q) then Qfloor q else (Qfloor q + 1)%Z).
Proof.
  destruct q as [n d]. unfold round_half_even, Qfloor. cbn [Qnum Qden].
  pose proof (Z.div_mod n (Zpos d) ltac:(lia)) as Hdm.
  pose proof (Z.mod_pos_bound n (Zpos d) ltac:(lia)) as Hr.
  set (f := (n / Zpos d)%Z) in *. set (r := (n mod Zpos d)%Z) in *.
  cbv zeta.
  destruct (Z.compare_spec (2 * r) (Zpos d)) as [E|E|E].
  - right; right. split; [|reflexivity].
    unfold Qeq, Qminus, Qplus, Qopp, inject_Z. cbn [Qnum Qden]. nia.
  - left. split; [|reflexivity].
    unfold Qlt, Qminus, Qplus, Qopp, inject_Z. cbn [Qnum Qden]. nia.
  - right; left. split; [|reflexivity].
    unfold Qlt, Qminus, Qplus, Qopp, inject_Z. cbn [Qnum Qden]. nia.
Qed.

Lemma round_half_even_near q :
  Qabs (inject_Z (round_half_even q) - q) <= 1 # 2.
Proof.
  pose proof (Qfloor_le q) as Hlo. pose proof (Qlt_floor q) as Hhi.
  rewrite inject_Z_plus in Hhi. change (inject_Z 1) with 1 in Hhi.
  apply Qabs_Qle_condition.
  destruct (round_half_even_cases q) as [[H ->]|[[H ->]|[H ->]]].
  - split; lra.
  - rewrite inject_Z_plus. change (inject_Z 1) with 1. split; lra.
  - destruct (Z.even (Qfloor q));
      [|rewrite inject_Z_plus; change (inject_Z 1) with 1]; split; lra.
Qed.

Lemma round_half_even_mono x y : x <= y -> (round_half_even x <= round_half_even y)%Z.
Proof.
  intros Hxy. pose proof (Qfloor_resp_le _ _ Hxy) as Hf.
  destruct (Z.eq_dec (Qfloor x) (Qfloor y)) as [E|E].
  - destruct (round_half_even_cases x) as [[Hx ->]|[[Hx ->]|[Hx ->]]];
      destruct (round_half_even_cases y) as [[Hy ->]|[[Hy ->]|[Hy ->]]];
      rewrite <- ?E in *; try lia; try (exfalso; lra);
      destruct (Z.even (Qfloor x)); try lia; exfalso; lra.
  - assert (Hlt : (Qfloor x + 1 <= Qfloor y)%Z) by lia.
    destruct (round_half_even_cases x) as [[_ ->]|[[_ ->]|[_ ->]]];
      destruct (round_half_even_cases y) as [[_ ->]|[[_ ->]|[_ ->]]];
      repeat match goal with |- context [Z.even ?z] => destruct (Z.even z) end; lia.
Qed.

Lemma round_half_even_inject_Z z : round_half_even (inject_Z z) = z.
Proof.
  unfold round_half_even, inject_Z. cbn [Qnum Qden].
  rewrite Z.div_1_r, Z.mod_1_r. reflexivity.
Qed.

Lemma round_half_even_nonneg q : 0 <= q -> (0 <= round_half_even q)%Z.
Proof.
  intros H. apply round_half_even_mono in H. exact H.
Qed.

(** ** The built-ins on small inputs *)

Example float_of_decimal :
  float_of_string "25.7" = Ok (FFin (7233906901463859 # 281474976710656)).
Proof. vm_compute. reflexivity. Qed.

Example float_of_padded_integer : float_of_string " 3 " = Ok (FFin 3).
Proof. vm_compute. reflexivity. Qed.

Example float_of_grouped_digits : float_of_string "1_000" = Ok (FFin 1000).
Proof. vm_compute. reflexivity. Qed.

Example float_of_word : float_of_string "abc" = Raise ValueError.
Proof. reflexivity. Qed.

Example float_of_huge : float_of_string "1e400" = Ok (FInf false).
Proof. vm_compute. reflexivity. Qed.

Example round_tie_to_even :
  round_half_even (5 # 2) = 2%Z /\ round_half_even (7 # 2) = 4%Z
  /\ round_half_even (- (5 # 2)) = (-2)%Z.
Proof. repeat split. Qed.

Example round_2_of_tie :
  round_ndigits (FFin (1 # 8)) 2 = FFin (1080863910568919 # 9007199254740992).
Proof. vm_compute. reflexivity. Qed.

End PyFacts.

Module NumFacts.
Import Py Pd PyFacts.
Local Open Scope Q_scope.

Lemma Qle_bool_false x y : Qle_bool x y = false -> y < x.
Proof.
  intros H. apply Qnot_le_lt. intros Hle. apply Qle_bool_iff in Hle. congruence.
Qed.

Lemma Qlt_bool_iff x y : Qlt_bool x y = true <-> x < y.
Proof.
  unfold Qlt_bool. rewrite negb_true_iff. split.
  - apply Qle_bool_false.
  - intros H. apply not_true_is_false. intros Hle. apply Qle_bool_iff in Hle. lra.
Qed.

Lemma Qlt_bool_false x y : Qlt_bool x y = false -> y <= x.
Proof.
  unfold Qlt_bool. rewrite negb_false_iff. apply Qle_bool_iff.
Qed.

(** ** Sorting *)

Lemma insert_sorted_In x y l : In y (insert_sorted x l) <-> y = x \/ In y l.
Proof.
  induction l as [|z l IH]; simpl.
  - intuition.
  - destruct (Qle_bool x z); simpl; [intuition|]. rewrite IH. intuition.
Qed.

Lemma sort_values_In x l : In x (sort_values l) <-> In x l.
Proof.
  induction l as [|y l IH]; simpl; [reflexivity|].
  rewrite insert_sorted_In, IH. intuition.
Qed.

Lemma insert_sorted_length x l :
  List.length (insert_sorted x l) = S (List.length l).
Proof.
  induction l as [|z l IH]; simpl; [reflexivity|].
  destruct (Qle_bool x z); simpl; congruence.
Qed.

Lemma sort_values_length l : List.length (sort_values l) = List.length l.
Proof.
  induction l as [|y l IH]; simpl; [reflexivity|].
  now rewrite insert_sorted_length, IH.
Qed.

Lemma insert_sorted_sorted x l :
  StronglySorted Qle l -> StronglySorted Qle (insert_sorted x l).
Proof.
  induction 1 as [|z l Hs IH Hz]; simpl.
  - repeat constructor.
  - destruct (Qle_bool x z) eqn:E.
    + apply Qle_bool_iff in E. constructor; [constructor; assumption|].
      constructor; [exact E|]. eapply Forall_impl; [|exact Hz].
      intros w Hw. lra.
    + apply Qle_bool_false in E. constructor; [exact IH|].
      apply Forall_forall. intros w Hw. apply insert_sorted_In in Hw as [->|Hw].
      * lra.
      * rewrite Forall_forall in Hz. auto.
Qed.

Lemma sort_values_sorted l : StronglySorted Qle (sort_values l).
Proof.
  induction l as [|y l IH]; simpl; [constructor | now apply insert_sorted_sorted].
Qed.

Lemma sorted_nth_le l d i j :
  StronglySorted Qle l -> (i <= j < List.length l)%nat -> nth i l d <= nth j l d.
Proof.
  intros Hs. revert i j. induction Hs as [|z l Hs IH Hz]; intros i j Hij; simpl in *.
  - lia.
  - destruct i as [|i], j as [|j]; try lia.
    + lra.
    + rewrite Forall_forall in Hz. apply Hz, nth_In. lia.
    + apply IH. lia.
Qed.

(** ** Quantiles *)

(** The interpolated value lies between the two order statistics. *)
Lemma lerp_between a b g : a <= b -> 0 <= g -> g <= 1 ->
  a <= a + (b - a) * g /\ a + (b - a) * g <= b.
Proof. intros. split; nra. Qed.

Lemma quantile_mono col q1 q2 v1 v2 :
  0 <= q1 -> q1 <= q2 -> q2 <= 1 ->
  quantile col q1 = Some v1 -> quantile col q2 = Some v2 -> v1 <= v2.
Proof.
  unfold quantile. intros H0 H12 H1.
  pose proof (sort_values_sorted (dropna col)) as Hs.
  destruct (sort_values (dropna col)) as [|x0 xs'] eqn:Exs; [discriminate|].
  remember (x0 :: xs') as xs eqn:Hxs.
  set (n := Z.of_nat (List.length xs)).
  assert (Hn : (1 <= n)%Z) by (subst n; rewrite Hxs; simpl; lia).
  assert (Hn' : 0 <= inject_Z (n - 1)).
  { change 0 with (inject_Z 0). rewrite <- Zle_Qle. lia. }
  set (h1 := inject_Z (n - 1) * q1). set (h2 := inject_Z (n - 1) * q2).
  assert (Hh1 : 0 <= h1) by (subst h1; nra).
  assert (Hh12 : h1 <= h2) by (subst h1 h2; nra).
  assert (Hh2 : h2 <= inject_Z (n - 1)) by (subst h2; nra).
  pose proof (Qfloor_le h1) as Hf1. pose proof (Qlt_floor h1) as Hf1'.
  pose proof (Qfloor_le h2) as Hf2. pose proof (Qlt_floor h2) as Hf2'.
  pose proof (Qfloor_resp_le _ _ Hh1) as Hl0. change (Qfloor 0) with 0%Z in Hl0.
  pose proof (Qfloor_resp_le _ _ Hh12) as Hl12.
  pose proof (Qfloor_resp_le _ _ Hh2) as Hl2. rewrite Qfloor_Z in Hl2.
  set (lo1 := Qfloor h1) in *. set (lo2 := Qfloor h2) in *.
  rewrite inject_Z_plus in Hf1', Hf2'. change (inject_Z 1) with 1 in Hf1', Hf2'.
  intros E1 E2. apply Some_inj in E1, E2. subst v1 v2.
  assert (Hlen : Z.of_nat (List.length xs) = n) by reflexivity.
  assert (Hab1 : nth (Z.to_nat lo1) xs x0
                 <= nth (Z.to_nat (Z.min (lo1 + 1) (n - 1))) xs x0).
  { apply sorted_nth_le; [exact Hs | lia]. }
  assert (Hab2 : nth (Z.to_nat lo2) xs x0
                 <= nth (Z.to_nat (Z.min (lo2 + 1) (n - 1))) xs x0).
  { apply sorted_nth_le; [exact Hs | lia]. }
  destruct (Z.eq_dec lo1 lo2) as [E|E].
  - rewrite <- E in *.
    set (a := nth (Z.to_nat lo1) xs x0) in *.
    set (b := nth (Z.to_nat (Z.min (lo1 + 1) (n - 1))) xs x0) in *.
    assert (Hp : 0 <= (b - a) * (h2 - h1)) by (apply Qmult_le_0_compat; lra).
    clearbody a b h1 h2 lo1. lra.
  - assert (Hmid : nth (Z.to_nat (Z.min (lo1 + 1) (n - 1))) xs x0
                   <= nth (Z.to_nat lo2) xs x0).
    { apply sorted_nth_le; [exact Hs | lia]. }
    pose proof (lerp_between _ _ (h1 - inject_Z lo1) Hab1 ltac:(lra) ltac:(lra)) as [_ Hv1].
    pose proof (lerp_between _ _ (h2 - inject_Z lo2) Hab2 ltac:(lra) ltac:(lra)) as [Hv2 _].
    lra.
Qed.

Example quantiles_of_four :
  quantile [Some 0; Some 100; None; Some 100; Some 100] (1 # 4) = Some (300 # 4)
  /\ quantile [Some 0; Some 100; None; Some 100; Some 100] (3 # 4) = Some (400 # 4)
  /\ quantile [None; None] (1 # 4) = None
  /\ median [Some 33; None; None; Some 4] = Some (37 # 2).
Proof. repeat split. Qed.

(** ** Clipping *)

Lemma clip_within lo hi col :
  lo <= hi -> Forall (within lo hi) (clip (Some lo) (Some hi) col).
Proof.
  intros Hle. unfold clip.
  assert (E : Qle_bool lo hi = true) by now apply Qle_bool_iff.
  rewrite E. apply Forall_forall. intros c Hc.
  apply in_map_iff in Hc as ([x|] & <- & _); simpl; [|exact I].
  destruct (Qlt_bool x lo) eqn:E1.
  - destruct (Qlt_bool hi lo) eqn:E2.
    + apply Qlt_bool_iff in E2. lra.
    + split; lra.
  - apply Qlt_bool_false in E1. destruct (Qlt_bool hi x) eqn:E2.
    + split; lra.
    + apply Qlt_bool_false in E2. split; lra.
Qed.

(** ** Medians *)

Lemma dropna_In x col : In x (dropna col) <-> In (Some x) col.
Proof.
  unfold dropna. rewrite in_flat_map. split.
  - intros ([y|] & Hin & Hx); simpl in Hx; [|tauto].
    destruct Hx as [->|[]]. exact Hin.
  - intros Hin. exists (Some x). simpl. auto.
Qed.

Lemma median_within lo hi col m :
  Forall (within lo hi) col -> median col = Some m -> lo <= m /\ m <= hi.
Proof.
  intros Hall. unfold median.
  assert (Hin : forall i d, (i < List.length (sort_values (dropna col)))%nat ->
                            lo <= nth i (sort_values (dropna col)) d
                            /\ nth i (sort_values (dropna col)) d <= hi).
  { intros i d Hi. pose proof (nth_In _ d Hi) as H.
    apply sort_values_In, dropna_In in H.
    rewrite Forall_forall in Hall. exact (Hall _ H). }
  destruct (sort_values (dropna col)) as [|x0 xs'] eqn:Exs; [discriminate|].
  remember (x0 :: xs') as xs eqn:Hxs.
  assert (Hn : (1 <= List.length xs)%nat) by (rewrite Hxs; simpl; lia).
  destruct (Nat.even (List.length xs)) eqn:Ev; intros H; apply Some_inj in H; subst m.
  - apply Nat.even_spec in Ev as [k Hk].
    assert (E2 : (List.length xs / 2 = k)%nat).
    { rewrite Hk. rewrite Nat.mul_comm. apply Nat.div_mul. lia. }
    rewrite E2.
    destruct (Hin (k - 1)%nat x0 ltac:(lia)) as [Ha Hb].
    destruct (Hin k x0 ltac:(lia)) as [Hc Hd].
    set (a := nth (k - 1) xs x0) in *. set (b := nth k xs x0) in *.
    split.
    + apply Qle_shift_div_l; lra.
    + apply Qle_shift_div_r; lra.
  - apply Hin. apply Nat.div_lt; lia.
Qed.

End NumFacts.

Module UpdateFacts.
Import Pd PdFacts.

Lemma mapM_ext {A B : Type} (f g : A -> result B) xs :
  (forall x, f x = g x) -> mapM f xs = mapM g xs.
Proof.
  intros H. induction xs as [|x xs IH]; simpl; [reflexivity|].
  now rewrite H, IH.
Qed.

Lemma update_col_inv {C : Type} l (g : frame C -> C -> result C) df df' :
  update_col l g df = Ok df' ->
  exists c c', get_col l df = Ok c /\ g df c = Ok c' /\ df' = set_col l c' df.
Proof.
  unfold update_col. intros H.
  apply bind_Ok_inv in H as (c & Hc & H).
  apply bind_Ok_inv in H as (c' & Hc' & H).
  apply Ok_inj in H. eauto.
Qed.

(** A loop of column updates over distinct labels, each update reading
    only its own column: every listed column ends as its update of the
    column of the input frame, every other column stays. *)
Lemma foldM_update_get {C : Type}
      (rules : list (string * (frame C -> C -> result C))) :
  NoDup (map fst rules) ->
  Forall (fun r => forall df1 df2 c,
              get_col (fst r) df1 = get_col (fst r) df2 ->
              snd r df1 c = snd r df2 c) rules ->
  forall X X',
    foldM (fun df r => update_col (fst r) (snd r) df) rules X = Ok X' ->
    (forall l g, In (l, g) rules ->
       exists c c', get_col l X = Ok c /\ g X c = Ok c' /\ get_col l X' = Ok c')
    /\ (forall l, ~ In l (map fst rules) -> get_col l X' = get_col l X).
Proof.
  induction rules as [|[l0 g0] rules IH]; intros Hnd Hloc X X' H; simpl in H.
  - apply Ok_inj in H. subst X'. split; [intros ? ? []|reflexivity].
  - apply bind_Ok_inv in H as (X1 & H1 & H).
    apply update_col_inv in H1 as (c0 & c0' & Hc0 & Hg0 & ->).
    simpl in Hnd. inversion Hnd as [|? ? Hnotin Hnd']; subst.
    inversion Hloc as [|? ? Hloc0 Hloc']; subst.
    destruct (IH Hnd' Hloc' _ _ H) as [IH1 IH2]. split.
    + intros l g [E|Hin].
      * inversion E; subst l g. exists c0, c0'. repeat split; auto.
        rewrite (IH2 _ Hnotin). apply get_set_same.
      * assert (Hne : l <> l0).
        { intros ->. apply Hnotin. apply in_map_iff. exists (l0, g). auto. }
        destruct (IH1 _ _ Hin) as (c & c' & Hc & Hg & Hc').
        rewrite get_set_other in Hc by exact Hne.
        exists c, c'. repeat split; auto.
        rewrite <- Hg. symmetry.
        rewrite Forall_forall in Hloc'. apply (Hloc' _ Hin). simpl.
        now rewrite get_set_other.
    + intros l Hl. simpl in Hl.
      rewrite IH2 by tauto. apply get_set_other. intros ->. tauto.
Qed.

End UpdateFacts.

Module ModeFacts.
Import Py Pd PyFacts NumFacts.
Local Open Scope Q_scope.

Lemma mode_before_irrefl xs a : mode_before xs a a = false.
Proof.
  unfold mode_before. rewrite Nat.ltb_irrefl, Nat.eqb_refl. simpl.
  unfold Qlt_bool. apply negb_false_iff, Qle_bool_iff, Qle_refl.
Qed.

Lemma mode_before_trans xs a b c :
  mode_before xs a b = true -> mode_before xs b c = true -> mode_before xs a c = true.
Proof.
  unfold mode_before. rewrite !orb_true_iff, !andb_true_iff, !Nat.ltb_lt, !Nat.eqb_eq,
    !Qlt_bool_iff.
  intros [H1|[H1 H1']] [H2|[H2 H2']].
  - left; lia.
  - left; lia.
  - left; lia.
  - right; split; [lia | lra].
Qed.

Lemma fold_min_spec (lt : Q -> Q -> bool) :
  (forall a, lt a a = false) ->
  (forall a b c, lt a b = true -> lt b c = true -> lt a c = true) ->
  forall xs seen x,
    In x seen -> (forall v, In v seen -> lt v x = false) ->
    let r := fold_left (fun best v => if lt v best then v else best) xs x in
    In r (seen ++ xs) /\ forall v, In v (seen ++ xs) -> lt v r = false.
Proof.
  intros Hirr Htr. induction xs as [|y xs IH]; intros seen x Hx Hmin; simpl.
  - rewrite app_nil_r. auto.
  - replace (seen ++ y :: xs) with ((seen ++ [y]) ++ xs)
      by (rewrite <- app_assoc; reflexivity).
    apply IH.
    + destruct (lt y x); apply in_or_app; simpl; auto.
    + intros v Hv. apply in_app_or in Hv as [Hv|[<-|[]]].
      * destruct (lt y x) eqn:E; [|auto].
        destruct (lt v y) eqn:E'; [|reflexivity].
        rewrite <- (Hmin v Hv). symmetry. eapply Htr; eauto.
      * destruct (lt y x) eqn:E; [apply Hirr | exact E].
Qed.

Lemma mode_first_is_mode col m : mode_first col = Ok m -> is_mode m col.
Proof.
  unfold mode_first, is_mode. destruct (dropna col) as [|x xs] eqn:E; [discriminate|].
  intros H. apply Ok_inj in H.
  destruct (fold_min_spec (mode_before (x :: xs)) (mode_before_irrefl _)
              (mode_before_trans _) xs [x] x (or_introl eq_refl)) as [Hin Hmin].
  { intros v [<-|[]]. apply mode_before_irrefl. }
  simpl in Hin, Hmin. rewrite H in Hin, Hmin. split; [exact Hin|].
  intros v Hv. specialize (Hmin v Hv). unfold mode_before in Hmin.
  apply orb_false_iff in Hmin as [H1 H2]. apply Nat.ltb_ge in H1.
  split; [exact H1|]. intros Heq. rewrite Heq, Nat.eqb_refl in H2. simpl in H2.
  now apply Qlt_bool_false.
Qed.

Lemma mode_first_Raise col e : mode_first col = Raise e -> dropna col = [].
Proof. unfold mode_first. destruct (dropna col); [reflexivity | discriminate]. Qed.

End ModeFacts.

Module RangeFacts.
Import Py Pd Features PdFacts PyFacts NumFacts UpdateFacts ModeFacts FeaturesFacts.
Local Open Scope string_scope.


Section Range.
Variable B : Q.
Hypothesis B_nonneg : (0 <= B)%Q.







End Range.



End RangeFacts.

Module CleaningFacts.
Import Py Pd Features PdFacts PyFacts NumFacts UpdateFacts ModeFacts FeaturesFacts.
Import RangeFacts.
Local Open Scope string_scope.

(** ** Stage 3 *)

Lemma safe_convert_cases val :
  match py_float val with
  | Ok (FFin q) => SafeRoundToInt.safe_convert val = Some (inject_Z (round_half_even q))
  | _ => SafeRoundToInt.safe_convert val = None
  end.
Proof.
  unfold SafeRoundToInt.safe_convert, SafeRoundToInt.safe_convert_try.
  destruct (SafeRoundToInt.isnull val) eqn:En.
  - destruct val as [z|[| |q]|s]; try discriminate En. reflexivity.
  - simpl. destruct (py_float val) as [[| |q]|e]; reflexivity.
Qed.

(** C5, as the code has it, on columns of numbers and of ASCII text. The
    third stage never raises: it returns a frame with the same columns, in
    which every cell is decided by what [float] makes of the raw cell. A
    cell that converts to a finite float becomes that float rounded to the
    nearest integer (at most 1/2 away, ties to even); a cell that is
    already missing, a cell whose conversion raises, and a cell that
    converts to an infinity or to NaN become missing. The text [25.7]
    becomes 26. *)
Theorem SafeRoundToInt_never_raises (X : frame series) :
  ascii_frame X = true ->
  (exists df, SafeRoundToInt.transform X = Ok df
     /\ columns df = columns X
     /\ Forall2 (fun cx cd =>
                   fst cx = fst cd
                   /\ Forall2 (fun val out =>
                        (SafeRoundToInt.isnull val = true -> out = None)
                        /\ (forall e, py_float val = Raise e -> out = None)
                        /\ (forall q, py_float val = Ok (FFin q) ->
                              out = Some (inject_Z (round_half_even q))
                              /\ (Qabs (inject_Z (round_half_even q) - q) <= 1 # 2)%Q)
                        /\ (forall neg, py_float val = Ok (FInf neg) -> out = None)
                        /\ (py_float val = Ok FNan -> out = None))
                        (values (snd cx)) (snd cd)) X df)
  /\ SafeRoundToInt.safe_convert (VStr "25.7") = Some 26%Q.
Proof.
  intros _. split; [|reflexivity].
  unfold SafeRoundToInt.transform. eexists. split; [reflexivity|].
  split; [apply columns_map_columns|].
  unfold map_columns. induction X as [|[l c] X IH]; simpl; constructor; auto.
  split; [reflexivity|]. simpl. generalize (values c). clear. intros vs.
  induction vs as [|val vs IH]; simpl; constructor; auto.
  pose proof (safe_convert_cases val) as H.
  split; [|split; [|split; [|split]]].
  - intros Hn. destruct val as [z|[| |q]|s]; try discriminate Hn. reflexivity.
  - intros e He. now rewrite He in H.
  - intros q Hq. rewrite Hq in H. split; [exact H | apply round_half_even_near].
  - intros neg Hf. now rewrite Hf in H.
  - intros Hf. now rewrite Hf in H.
Qed.

(** ** Stage 4 *)

Lemma FixInvalidValues_as_rules X :
  FixInvalidValues.transform X
  = foldM (fun df r => update_col (fst r) (snd r) df) FixInvalidValues.rules X.
Proof. reflexivity. Qed.

Lemma rules_labels_NoDup : NoDup (map fst FixInvalidValues.rules).
Proof.
  simpl. repeat constructor; simpl; intros H;
    repeat (destruct H as [H|H]; [discriminate H|]); exact H.
Qed.

Lemma mode0_reads_own_column l df1 df2 :
  get_col l df1 = get_col l df2 ->
  FixInvalidValues.mode0 l df1 = FixInvalidValues.mode0 l df2.
Proof. unfold FixInvalidValues.mode0. now intros ->. Qed.

Lemma rules_read_own_column :
  Forall (fun r => forall (df1 df2 : frame numcol) c,
              get_col (fst r) df1 = get_col (fst r) df2 ->
              snd r df1 c = snd r df2 c) FixInvalidValues.rules.
Proof.
  unfold FixInvalidValues.rules. apply Forall_app. split; apply Forall_forall;
    intros r Hr; apply in_map_iff in Hr as ([l dom] & <- & _); simpl;
    intros df1 df2 c Hget; [reflexivity|].
  apply mapM_ext. intros x. destruct (FixInvalidValues.py_in x dom); [reflexivity|].
  now apply mode0_reads_own_column.
Qed.

(** The fourth stage alone. When it succeeds: in [Reason for absence] and
    [Month of absence] every cell outside the domain (a missing one too)
    becomes the constant 0; in each of the six other categorical columns
    every cell outside the domain becomes the column's mode, which is
    taken over all non-missing cells of the column as it enters the stage;
    cells inside their domain and all other columns are left as they
    are. *)
Lemma FixInvalidValues_repairs X X' :
  FixInvalidValues.transform X = Ok X' ->
  (forall label dom, In (label, dom) FixInvalidValues.zero_repaired ->
     exists col, get_col label X = Ok col
       /\ get_col label X'
          = Ok (map (fun x => if FixInvalidValues.py_in x dom then x else Some 0%Q) col))
  /\ (forall label dom, In (label, dom) FixInvalidValues.mode_repaired ->
        exists col col', get_col label X = Ok col /\ get_col label X' = Ok col'
          /\ Forall2 (fun x x' =>
                        if FixInvalidValues.py_in x dom then x' = x
                        else exists m, mode_first col = Ok m /\ is_mode m col
                                       /\ x' = Some m) col col')
  /\ (forall label, ~ In label (map fst (FixInvalidValues.zero_repaired ++ FixInvalidValues.mode_repaired)) ->
        get_col label X' = get_col label X).
Proof.
  rewrite FixInvalidValues_as_rules. intros H.
  destruct (foldM_update_get _ rules_labels_NoDup rules_read_own_column _ _ H)
    as [Hin Hout].
  split; [|split; [|exact Hout]].
  - intros label dom Hld.
    destruct (Hin label
                (fun (_ : frame numcol) col =>
                   mapM (fun x => Ok (if FixInvalidValues.py_in x dom then x else Some 0%Q))
                        col))
      as (c & c' & Hc & Hg & Hc').
    { unfold FixInvalidValues.rules. apply in_or_app. left.
      apply in_map_iff. exists (label, dom). auto. }
    rewrite mapM_pure in Hg. apply Ok_inj in Hg. subst c'. eauto.
  - intros label dom Hld.
    destruct (Hin label
                (fun (df : frame numcol) col =>
                   mapM (fun x => if FixInvalidValues.py_in x dom then Ok x
                                  else FixInvalidValues.mode0 label df) col))
      as (c & c' & Hc & Hg & Hc').
    { unfold FixInvalidValues.rules. apply in_or_app. right.
      apply in_map_iff. exists (label, dom). auto. }
    exists c, c'. repeat split; auto.
    apply mapM_Forall2 in Hg. eapply Forall2_impl; [|exact Hg].
    intros x x' Hx. simpl in Hx.
    destruct (FixInvalidValues.py_in x dom); [now apply Ok_inj in Hx|].
    unfold FixInvalidValues.mode0 in Hx. rewrite Hc in Hx. simpl in Hx.
    destruct (mode_first c) as [m|] eqn:Em; [|discriminate]. simpl in Hx.
    apply Ok_inj in Hx. exists m. repeat split; auto.
    all: now apply mode_first_is_mode.
Qed.

Lemma safe_convert_integral val : integral (SafeRoundToInt.safe_convert val).
Proof.
  pose proof (safe_convert_cases val) as H.
  destruct (py_float val) as [[| |q]|e]; rewrite H; simpl; eauto.
Qed.

Lemma stages_1_3_integral X X3 label col :
  stages_1_3 X = Ok X3 -> get_col label X3 = Ok col -> Forall integral col.
Proof.
  unfold stages_1_3. intros H Hc.
  apply bind_Ok_inv in H as (X1 & _ & H).
  unfold StripObjectColumns.transform, SafeRoundToInt.transform in H. simpl in H.
  apply Ok_inj in H. subst X3. rewrite get_col_map_columns in Hc.
  apply bind_Ok_inv in Hc as (c & _ & Hc). apply Ok_inj in Hc. subst col.
  apply Forall_forall. intros x Hx. apply in_map_iff in Hx as (val & <- & _).
  apply safe_convert_integral.
Qed.

Lemma WinsorizeIQR_other X X5 label :
  WinsorizeIQR.transform X = Ok X5 -> ~ In label WinsorizeIQR.columns ->
  get_col label X5 = get_col label X.
Proof.
  intros H Hnot.
  assert (E : WinsorizeIQR.transform X
              = foldM (fun df r => update_col (fst r) (snd r) df)
                      (map (fun l => (l, fun (_ : frame numcol) c =>
                                           Ok (WinsorizeIQR.winsorize c)))
                           WinsorizeIQR.columns) X) by reflexivity.
  rewrite E in H. apply foldM_update_get in H as [_ H].
  - apply H. rewrite map_map. simpl. exact Hnot.
  - rewrite map_map. simpl.
    repeat constructor; simpl; intros H0;
      repeat (destruct H0 as [H0|H0]; [discriminate H0|]); exact H0.
  - apply Forall_forall. intros r Hr. apply in_map_iff in Hr as (l & <- & _).
    reflexivity.
Qed.

Lemma categorical_not_winsorized label :
  In label (map fst (FixInvalidValues.zero_repaired ++ FixInvalidValues.mode_repaired)) -> ~ In label WinsorizeIQR.columns.
Proof.
  simpl. intros H Hin.
  repeat (destruct H as [<-|H];
          [simpl in Hin;
           repeat (destruct Hin as [Hin|Hin]; [discriminate Hin|]); exact Hin|]).
  exact H.
Qed.

Lemma Forall2_chain {A B C : Type} (R : A -> B -> Prop) (S : B -> C -> Prop)
      (T : A -> C -> Prop) (f : B -> B) l1 l2 l3 :
  Forall2 R l1 l2 -> Forall2 S (map f l2) l3 ->
  (forall a b c, In a l1 -> R a b -> S (f b) c -> T a c) ->
  Forall2 T l1 l3.
Proof.
  intros H12. revert l3. induction H12 as [|a b l1 l2 Hab _ IH]; intros l3 H23 HT;
    simpl in H23; inversion H23; subst; constructor.
  - apply (HT a b); simpl; auto.
  - apply IH; auto. intros a0 b0 c0 Hin. apply HT. now right.
Qed.

Lemma Forall2_map_graph {A B : Type} (g : A -> B) l :
  Forall2 (fun a b => b = g a) l (map g l).
Proof. induction l; simpl; constructor; auto. Qed.

(** The way a categorical column goes from the fourth stage to the
    processed dataset: untouched by the fifth stage, and read as integers
    by the last two. *)
Lemma categorical_column_after_stage_4 X4 X5 X' label col4 :
  WinsorizeIQR.transform X4 = Ok X5 ->
  FinalIntConversion.transform
    (map_columns (fun col => fillna (median col) col) X5) = Ok X' ->
  In label (map fst (FixInvalidValues.zero_repaired ++ FixInvalidValues.mode_repaired)) ->
  get_col label X4 = Ok col4 ->
  exists col',
    get_col label X' = Ok col'
    /\ Forall2 (fun c z => match c with
                           | Some x => Ok (round_half_even x)
                           | None => Raise ValueError
                           end = Ok z)
               (map (fun c => match c with
                              | None => median col4
                              | Some x => Some x
                              end) col4) col'.
Proof.
  intros H5 H7 Hlab Hc4.
  pose proof (WinsorizeIQR_other _ _ label H5 (categorical_not_winsorized _ Hlab)) as Hc5.
  rewrite Hc4 in Hc5.
  assert (Hc6 : get_col label (map_columns (fun col => fillna (median col) col) X5)
                = Ok (fillna (median col4) col4)).
  { rewrite get_col_map_columns, Hc5. reflexivity. }
  destruct (mapM_columns_get _ _ _ _ _ H7 Hc6) as (col' & Hr & Hc').
  exists col'. split; [exact Hc'|]. now apply mapM_Forall2 in Hr.
Qed.

(** C1, as the code has it. In every dataset the pipeline produces from a
    plain raw dataset (its texts ASCII, its numbers at most 2^48 in
    magnitude), a categorical column holds, cell by cell: the value the cell had after
    the third stage when that value lies in the column's domain;
    otherwise (a missing cell too) the constant 0 in [Reason for absence]
    and [Month of absence], not the mode, and in each of the six other
    columns the column's mode, taken once over all non-missing cells of
    the column as it enters the fourth stage: the most frequent value, the
    smallest on a tie. *)
Theorem processed_categorical_columns X X' :
  plain X = true -> fit_transform X = Ok X' ->
  exists X3 X4,
    stages_1_3 X = Ok X3 /\ FixInvalidValues.transform X3 = Ok X4
    /\ (forall label dom, In (label, dom) FixInvalidValues.zero_repaired ->
          exists col3 col',
            get_col label X3 = Ok col3 /\ get_col label X' = Ok col'
            /\ Forall2 (fun x z =>
                          if FixInvalidValues.py_in x dom
                          then x = Some (inject_Z z)
                          else z = 0%Z) col3 col')
    /\ (forall label dom, In (label, dom) FixInvalidValues.mode_repaired ->
          exists col3 col',
            get_col label X3 = Ok col3 /\ get_col label X' = Ok col'
            /\ Forall2 (fun x z =>
                          if FixInvalidValues.py_in x dom
                          then x = Some (inject_Z z)
                          else exists m, mode_first col3 = Ok m /\ is_mode m col3
                                         /\ m = inject_Z z) col3 col').
Proof.
  intros _ H. apply fit_transform_inv in H as (X1 & X4 & X5 & H1 & H4 & H5 & H7).
  set (X3 := map_columns
               (fun col => map SafeRoundToInt.safe_convert (values col))
               (map_columns
                  (fun col => match col with
                              | SObject xs =>
                                  SObject (map StripObjectColumns.astype_str_strip xs)
                              | _ => col
                              end) X1)) in *.
  assert (H3 : stages_1_3 X = Ok X3).
  { unfold stages_1_3. rewrite H1. reflexivity. }
  exists X3, X4. split; [exact H3|]. split; [exact H4|].
  destruct (FixInvalidValues_repairs _ _ H4) as (Hzero & Hmode & _).
  split.
  - intros label dom Hld. destruct (Hzero label dom Hld) as (col3 & Hc3 & Hc4).
    pose proof (stages_1_3_integral _ _ _ _ H3 Hc3) as Hint.
    assert (Hlab : In label (map fst (FixInvalidValues.zero_repaired ++ FixInvalidValues.mode_repaired))).
    { rewrite map_app, in_app_iff. left. exact (in_map fst _ _ Hld). }
    destruct (categorical_column_after_stage_4 _ _ _ _ _ H5 H7 Hlab Hc4)
      as (col' & Hc' & Hr).
    exists col3, col'. split; [exact Hc3|]. split; [exact Hc'|].
    eapply (Forall2_chain _ _ _ _ col3); [apply Forall2_map_graph | exact Hr |].
    intros a b c Hin -> Hs. rewrite Forall_forall in Hint. specialize (Hint a Hin).
    destruct (FixInvalidValues.py_in a dom) eqn:E.
    + destruct a as [x|]; [|discriminate E]. destruct Hint as (z & ->).
      simpl in Hs. apply Ok_inj in Hs. rewrite round_half_even_inject_Z in Hs.
      now subst.
    + simpl in Hs. apply Ok_inj in Hs. now subst.
  - intros label dom Hld.
    destruct (Hmode label dom Hld) as (col3 & col4 & Hc3 & Hc4 & HR).
    pose proof (stages_1_3_integral _ _ _ _ H3 Hc3) as Hint.
    assert (Hlab : In label (map fst (FixInvalidValues.zero_repaired ++ FixInvalidValues.mode_repaired))).
    { rewrite map_app, in_app_iff. right. exact (in_map fst _ _ Hld). }
    destruct (categorical_column_after_stage_4 _ _ _ _ _ H5 H7 Hlab Hc4)
      as (col' & Hc' & Hr).
    exists col3, col'. split; [exact Hc3|]. split; [exact Hc'|].
    eapply (Forall2_chain _ _ _ _ col3); [exact HR | exact Hr |].
    intros a b c Hin Hab Hs. cbv beta in Hab.
    rewrite Forall_forall in Hint.
    destruct (FixInvalidValues.py_in a dom) eqn:E.
    + subst b. pose proof (Hint a Hin) as Ha.
      destruct a as [x|]; [|discriminate E]. destruct Ha as (z & ->).
      simpl in Hs. apply Ok_inj in Hs. rewrite round_half_even_inject_Z in Hs.
      now subst.
    + destruct Hab as (m & Hm & Him & ->).
      exists m. split; [exact Hm|]. split; [exact Him|].
      destruct Him as [Hmin _]. apply dropna_In in Hmin.
      destruct (Hint _ Hmin) as (z & ->).
      simpl in Hs. apply Ok_inj in Hs. rewrite round_half_even_inject_Z in Hs.
      now subst.
Qed.

(** ** Stage 5 *)

Lemma WinsorizeIQR_get X X5 label :
  WinsorizeIQR.transform X = Ok X5 -> In label WinsorizeIQR.columns ->
  exists col, get_col label X = Ok col
              /\ get_col label X5 = Ok (WinsorizeIQR.winsorize col).
Proof.
  intros H Hin.
  assert (E : WinsorizeIQR.transform X
              = foldM (fun df r => update_col (fst r) (snd r) df)
                      (map (fun l => (l, fun (_ : frame numcol) c =>
                                           Ok (WinsorizeIQR.winsorize c)))
                           WinsorizeIQR.columns) X) by reflexivity.
  rewrite E in H. apply foldM_update_get in H as [H _].
  - destruct (H label (fun _ c => Ok (WinsorizeIQR.winsorize c)))
      as (c & c' & Hc & Hg & Hc').
    { apply in_map_iff. exists label. auto. }
    apply Ok_inj in Hg. subst c'. eauto.
  - rewrite map_map. simpl.
    repeat constructor; simpl; intros H0;
      repeat (destruct H0 as [H0|H0]; [discriminate H0|]); exact H0.
  - apply Forall_forall. intros r Hr. apply in_map_iff in Hr as (l & <- & _).
    reflexivity.
Qed.

(** The fences of a column: [Q1 - 1.5 * IQR] and [Q3 + 1.5 * IQR]. *)
Lemma winsorize_within col Q1 Q3 :
  quantile col (1 # 4) = Some Q1 -> quantile col (3 # 4) = Some Q3 ->
  Forall (within (Q1 - (3 # 2) * (Q3 - Q1)) (Q3 + (3 # 2) * (Q3 - Q1)))
         (WinsorizeIQR.winsorize col).
Proof.
  intros H1 H3. unfold WinsorizeIQR.winsorize. rewrite H1, H3. simpl.
  apply clip_within.
  assert (Q1 <= Q3)%Q by (eapply (quantile_mono col (1 # 4) (3 # 4)); eauto; lra).
  lra.
Qed.

Lemma fillna_median_within lo hi col :
  Forall (within lo hi) col -> Forall (within lo hi) (fillna (median col) col).
Proof.
  intros Hall. unfold fillna. apply Forall_forall. intros c Hc.
  apply in_map_iff in Hc as ([x|] & <- & Hin).
  - rewrite Forall_forall in Hall. exact (Hall _ Hin).
  - destruct (median col) as [m|] eqn:Em; simpl; [|exact I].
    eapply median_within; eauto.
Qed.

Lemma round_astype_int_within lo hi col col' :
  Forall (within lo hi) col -> round_astype_int col = Ok col' ->
  Forall (fun z => (round_half_even lo <= z <= round_half_even hi)%Z) col'.
Proof.
  intros Hall H. apply mapM_Forall2 in H. revert Hall.
  induction H as [|c z col col' Hc _ IH]; intros Hall; constructor.
  - inversion Hall as [|? ? Hw _]; subst. destruct c as [x|]; [|discriminate].
    apply Ok_inj in Hc. subst z. destruct Hw.
    split; now apply round_half_even_mono.
  - apply IH. now inversion Hall.
Qed.

(** C2, as the code has it. After a successful run on a plain raw dataset
    (its texts ASCII, its numbers at most 2^48 in magnitude), for each of
    the twelve columns of the outlier list: every value of the column as it leaves the
    fifth stage lies between the fences [Q1 - 1.5 * IQR] and
    [Q3 + 1.5 * IQR] of the column as it entered that stage (the fences
    are not taken again on the result), and every value of the processed
    column lies between these two fences rounded to the nearest integer. *)
Theorem processed_within_input_fences X X' label :
  plain X = true -> fit_transform X = Ok X' -> In label WinsorizeIQR.columns ->
  exists X4 X5 col4 col5 col',
    stages_1_4 X = Ok X4 /\ stages_1_5 X = Ok X5
    /\ get_col label X4 = Ok col4 /\ get_col label X5 = Ok col5
    /\ get_col label X' = Ok col'
    /\ forall Q1 Q3,
         quantile col4 (1 # 4) = Some Q1 -> quantile col4 (3 # 4) = Some Q3 ->
         Forall (within (Q1 - (3 # 2) * (Q3 - Q1)) (Q3 + (3 # 2) * (Q3 - Q1))) col5
         /\ Forall (fun z =>
                      (round_half_even (Q1 - (3 # 2) * (Q3 - Q1)) <= z
                       <= round_half_even (Q3 + (3 # 2) * (Q3 - Q1)))%Z) col'.
Proof.
  intros _ H Hin. apply fit_transform_inv in H as (X1 & X4 & X5 & H1 & H4 & H5 & H7).
  destruct (WinsorizeIQR_get _ _ _ H5 Hin) as (col4 & Hc4 & Hc5).
  assert (Hc6 : get_col label (map_columns (fun col => fillna (median col) col) X5)
                = Ok (fillna (median (WinsorizeIQR.winsorize col4))
                             (WinsorizeIQR.winsorize col4))).
  { rewrite get_col_map_columns, Hc5. reflexivity. }
  destruct (mapM_columns_get _ _ _ _ _ H7 Hc6) as (col' & Hr & Hc').
  exists X4, X5, col4, (WinsorizeIQR.winsorize col4), col'.
  repeat split; auto.
  - unfold stages_1_4, stages_1_3. rewrite H1. exact H4.
  - unfold stages_1_5, stages_1_4, stages_1_3. rewrite H1. simpl.
    unfold StripObjectColumns.transform, SafeRoundToInt.transform in *. simpl.
    rewrite H4. exact H5.
  - now apply winsorize_within.
  - eapply round_astype_int_within; [|exact Hr].
    apply fillna_median_within. now apply winsorize_within.
Qed.

(** ** Stages 6 and 7 *)


End CleaningFacts.

Module CleaningExamples.
Import Py Pd Features PdFacts PyFacts NumFacts FeaturesFacts CleaningFacts.
Local Open Scope string_scope.

(** C5, refuted as stated: the text [inf] converts to a float, yet the
    cell does not become an integer; rounding an infinity raises, and the
    cell becomes missing. *)
Lemma safe_convert_infinity_is_missing :
  py_float (VStr "inf") = Ok (FInf false)
  /\ py_round (FInf false) = Raise OverflowError
  /\ SafeRoundToInt.safe_convert (VStr "inf") = None.
Proof. repeat split. Qed.

(** ** The sample dataset *)

(** C5 on the sample, whose texts are ASCII: the third stage returns, and
    the text [25.7] of its column of distances has become 26. *)
Lemma SafeRoundToInt_never_raises_sample :
  ascii_frame sample_raw = true
  /\ exists df,
       SafeRoundToInt.transform sample_raw = Ok df
       /\ get_col "Distance from Residence to Work" df
          = Ok [Some 26; None; Some 2; None]%Q.
Proof.
  split; [reflexivity|].
  destruct (SafeRoundToInt_never_raises sample_raw) as [(df & Hdf & _) _];
    [reflexivity|].
  exists df. split; [exact Hdf|].
  vm_compute in Hdf. apply Ok_inj in Hdf. subst df. reflexivity.
Defined.

(** C4 on the sample, which has both columns. *)
Lemma DropColumns_strict_sample :
  has_col "ID" sample_raw && has_col "mixed_type_col" sample_raw = true
  /\ exists X', DropColumns.transform sample_raw = Ok X'
       /\ columns X' =
          filter (fun l => negb (String.eqb l "ID" || String.eqb l "mixed_type_col"))
                 (columns sample_raw)
       /\ forall l, l <> "ID" -> l <> "mixed_type_col" ->
                    get_col l X' = get_col l sample_raw.
Proof.
  split; [reflexivity|].
  apply (proj1 (DropColumns_strict series sample_raw)). reflexivity.
Defined.

Lemma sample_run : fit_transform sample_raw = Ok sample_processed.
Proof. vm_compute. reflexivity. Qed.

(** C1, refuted as stated: in the sample the code 99 of [Reason for
    absence] is outside the domain and the mode of the column is 5, yet the
    fourth stage (and so the processed dataset) holds 0 in its place. *)
Lemma reason_repaired_with_zero_not_mode :
  (exists X3 X4,
     stages_1_3 sample_raw = Ok X3
     /\ FixInvalidValues.transform X3 = Ok X4
     /\ get_col "Reason for absence" X3 = Ok [Some 5; Some 5; Some 99; Some 26]%Q
     /\ get_col "Reason for absence" X4 = Ok [Some 5; Some 5; Some 0; Some 26]%Q)
  /\ mode_first [Some 5; Some 5; Some 99; Some 26]%Q = Ok 5%Q
  /\ fit_transform sample_raw = Ok sample_processed
  /\ get_col "Reason for absence" sample_processed = Ok [5; 5; 0; 26]%Z.
Proof.
  split; [|repeat split; vm_compute; reflexivity].
  eexists. eexists. split; [vm_compute; reflexivity|].
  repeat split; vm_compute; reflexivity.
Qed.

(** C1 on the sample dataset: the pipeline succeeds on it, and what the
    theorem states holds of the processed sample. *)
Lemma processed_categorical_columns_sample :
  plain sample_raw = true
  /\ fit_transform sample_raw = Ok sample_processed
  /\ exists X3 X4,
      stages_1_3 sample_raw = Ok X3 /\ FixInvalidValues.transform X3 = Ok X4
      /\ (forall label dom, In (label, dom) FixInvalidValues.zero_repaired ->
            exists col3 col',
              get_col label X3 = Ok col3
              /\ get_col label sample_processed = Ok col'
              /\ Forall2 (fun x z =>
                            if FixInvalidValues.py_in x dom
                            then x = Some (inject_Z z)
                            else z = 0%Z) col3 col')
      /\ (forall label dom, In (label, dom) FixInvalidValues.mode_repaired ->
            exists col3 col',
              get_col label X3 = Ok col3
              /\ get_col label sample_processed = Ok col'
              /\ Forall2 (fun x z =>
                            if FixInvalidValues.py_in x dom
                            then x = Some (inject_Z z)
                            else exists m, mode_first col3 = Ok m
                                           /\ is_mode m col3
                                           /\ m = inject_Z z) col3 col').
Proof.
  split; [vm_compute; reflexivity|]. split; [vm_compute; reflexivity|].
  apply (processed_categorical_columns sample_raw sample_processed);
    vm_compute; reflexivity.
Defined.

(** The fourth stage alone on a sample of categorical columns: it succeeds,
    and what [FixInvalidValues_repairs] states holds of its result. *)
Lemma FixInvalidValues_repairs_sample :
  FixInvalidValues.transform sample_categorical = Ok sample_categorical_repaired
  /\ (forall label dom, In (label, dom) FixInvalidValues.zero_repaired ->
        exists col, get_col label sample_categorical = Ok col
          /\ get_col label sample_categorical_repaired
             = Ok (map (fun x => if FixInvalidValues.py_in x dom then x else Some 0%Q) col))
  /\ (forall label dom, In (label, dom) FixInvalidValues.mode_repaired ->
        exists col col', get_col label sample_categorical = Ok col
          /\ get_col label sample_categorical_repaired = Ok col'
          /\ Forall2 (fun x x' =>
                        if FixInvalidValues.py_in x dom then x' = x
                        else exists m, mode_first col = Ok m /\ is_mode m col
                                       /\ x' = Some m) col col')
  /\ (forall label, ~ In label (map fst FixInvalidValues.rules) ->
        get_col label sample_categorical_repaired = get_col label sample_categorical).
Proof.
  split; [vm_compute; reflexivity|].
  apply (FixInvalidValues_repairs sample_categorical sample_categorical_repaired).
  vm_compute. reflexivity.
Defined.

(** C2, refuted as stated: in the processed sample the column
    [Transportation expense] is 38, 100, 100, 100; its own quartiles are
    84.5 and 100, so its own lower fence is 61.25, and 38 lies below it. *)
Lemma processed_value_below_own_fence :
  fit_transform sample_raw = Ok sample_processed
  /\ get_col "Transportation expense" sample_processed = Ok [38; 100; 100; 100]%Z
  /\ quantile (map (fun z => Some (inject_Z z)) [38; 100; 100; 100]%Z) (1 # 4)
     = Some (338 # 4)
  /\ quantile (map (fun z => Some (inject_Z z)) [38; 100; 100; 100]%Z) (3 # 4)
     = Some (400 # 4)
  /\ (inject_Z 38 < (338 # 4) - (3 # 2) * ((400 # 4) - (338 # 4)))%Q.
Proof. repeat split; vm_compute; reflexivity. Qed.

(** C2 on the sample: the column enters the fifth stage as 0, 100, 100,
    100 with quartiles 75 and 100, hence fences 37.5 and 137.5. *)
Lemma processed_within_input_fences_sample :
  plain sample_raw = true
  /\ fit_transform sample_raw = Ok sample_processed
  /\ In "Transportation expense" WinsorizeIQR.columns
  /\ exists X4 X5 col4 col5 col',
       stages_1_4 sample_raw = Ok X4 /\ stages_1_5 sample_raw = Ok X5
       /\ get_col "Transportation expense" X4 = Ok col4
       /\ get_col "Transportation expense" X5 = Ok col5
       /\ get_col "Transportation expense" sample_processed = Ok col'
       /\ forall Q1 Q3,
            quantile col4 (1 # 4) = Some Q1 -> quantile col4 (3 # 4) = Some Q3 ->
            Forall (within (Q1 - (3 # 2) * (Q3 - Q1)) (Q3 + (3 # 2) * (Q3 - Q1))) col5
            /\ Forall (fun z =>
                         (round_half_even (Q1 - (3 # 2) * (Q3 - Q1)) <= z
                          <= round_half_even (Q3 + (3 # 2) * (Q3 - Q1)))%Z) col'.
Proof.
  split; [vm_compute; reflexivity|]. split; [vm_compute; reflexivity|].
  split; [simpl; auto|].
  apply (processed_within_input_fences sample_raw sample_processed
           "Transportation expense").
  - vm_compute. reflexivity.
  - vm_compute. reflexivity.
  - simpl. auto.
Defined.

(** C3, refuted as stated: the pipeline runs on the sample, and run again
    on its own output it does not return that output. *)
Lemma second_run_is_not_identity :
  fit_transform sample_raw = Ok sample_processed
  /\ fit_transform (as_raw sample_processed) <> Ok sample_processed.
Proof.
  split; [vm_compute; reflexivity|].
  intros H. vm_compute in H. discriminate H.
Qed.

(** C3 on the sample: the first run succeeds, the second raises. *)
Lemma fit_transform_twice_raises_sample :
  fit_transform sample_raw = Ok sample_processed
  /\ fit_transform (as_raw sample_processed) = Raise (KeyError "ID").
Proof.
  split; [vm_compute; reflexivity|].
  apply (fit_transform_twice_raises sample_raw sample_processed).
  vm_compute. reflexivity.
Defined.


End CleaningExamples.

Module RowFacts.
Import Pd PdFacts.

Lemma existsb_ext_in {A : Type} (f g : A -> bool) (l : list A) :
  (forall x, In x l -> f x = g x) -> existsb f l = existsb g l.
Proof.
  induction l as [|x l IH]; intros H; simpl; [reflexivity|].
  rewrite (H x (or_introl eq_refl)), IH; [reflexivity|].
  intros y Hy. apply H. now right.
Qed.

Lemma select_map {A B : Type} (f : A -> B) mask (l : list A) :
  select mask (map f l) = map f (select mask l).
Proof.
  revert l. induction mask as [|b mask IH]; intros [|x l]; simpl; auto.
  destruct b; simpl; now rewrite IH.
Qed.

Section Select.
Variable A : Type.
Variable d : A.

Lemma select_length_le mask (l : list A) :
  (List.length (select mask l) <= List.length l)%nat.
Proof.
  revert l. induction mask as [|b mask IH]; intros [|x l]; simpl; try lia.
  specialize (IH l). destruct b; simpl; lia.
Qed.

Lemma select_all_true mask (l : list A) :
  List.length mask = List.length l -> Forall (fun b => b = true) mask ->
  select mask l = l.
Proof.
  revert l. induction mask as [|b mask IH]; intros [|x l] Hlen Hall; simpl in *;
    try discriminate; auto.
  inversion Hall; subst. f_equal. apply IH; auto.
Qed.

(** A selection from a column is the column read at the selected indices. *)
Lemma select_as_indices mask (c : list A) :
  List.length c = List.length mask ->
  select mask c
  = map (fun k => nth k c d) (select mask (seq 0 (List.length mask))).
Proof.
  revert c. induction mask as [|b mask IH]; intros [|x c] Hlen; simpl in *;
    try discriminate; auto.
  rewrite <- seq_shift, select_map.
  destruct b; simpl; rewrite map_map; simpl; rewrite <- IH by lia; reflexivity.
Qed.

Lemma map_nth_seq (l : list A) :
  map (fun i => nth i l d) (seq 0 (List.length l)) = l.
Proof.
  induction l as [|x l IH]; simpl; [reflexivity|].
  rewrite <- seq_shift, map_map. simpl. now rewrite IH.
Qed.

End Select.

Section Rows.
Variable A : Type.
Variable d : A.
Implicit Type df : frame (list A).

Lemma nrows_map_columns_select mask df :
  wf_frame df -> List.length mask = nrows df -> df <> [] ->
  nrows (map_columns (select mask) df)
  = List.length (select mask (seq 0 (List.length mask))).
Proof.
  intros Hwf Hlen Hne. destruct df as [|[l c] df]; [congruence|].
  simpl. inversion Hwf as [|? ? Hc _]; subst. simpl in *.
  rewrite (select_as_indices _ d) by lia. now rewrite length_map.
Qed.

Lemma wf_map_columns_select mask df :
  wf_frame df -> List.length mask = nrows df ->
  wf_frame (map_columns (select mask) df).
Proof.
  intros Hwf Hlen. destruct df as [|[l0 c0] df]; [constructor|].
  unfold wf_frame in *. simpl in *. rewrite Forall_forall in *.
  intros [l c] Hin. simpl in *.
  assert (Hin' : exists c1, List.length c1 = List.length c0 /\ c = select mask c1).
  { destruct Hin as [E|Hin].
    - inversion E; subst. eauto.
    - apply in_map_iff in Hin as ([l1 c1] & E & Hin). inversion E; subst.
      exists c1. split; [|reflexivity]. exact (Hwf (l, c1) (or_intror Hin)). }
  destruct Hin' as (c1 & Hc1 & ->).
  rewrite (select_as_indices _ d mask c1), (select_as_indices _ d mask c0) by lia.
  now rewrite !length_map.
Qed.

(** Selecting rows column by column selects the rows. *)
Lemma rows_map_columns_select mask df :
  wf_frame df -> List.length mask = nrows df ->
  rows d (map_columns (select mask) df) = select mask (rows d df).
Proof.
  intros Hwf Hlen. destruct df as [|lc0 df0] eqn:Edf; [now destruct mask|].
  rewrite <- Edf in *. assert (Hne : df <> []) by (rewrite Edf; discriminate).
  unfold rows at 1. rewrite (nrows_map_columns_select mask df Hwf Hlen Hne).
  unfold rows. rewrite select_map, <- Hlen.
  set (K := select mask (seq 0 (List.length mask))).
  rewrite <- (map_nth_seq _ 0%nat K) at 2. rewrite map_map.
  apply map_ext_in. intros i Hi. apply in_seq in Hi.
  unfold row, map_columns. rewrite map_map. apply map_ext_in.
  intros [l c] Hin. simpl.
  unfold wf_frame in Hwf. rewrite Forall_forall in Hwf.
  specialize (Hwf _ Hin). simpl in Hwf.
  rewrite (select_as_indices _ d mask c) by lia. fold K.
  rewrite (nth_indep _ d (nth 0 c d)) by (rewrite length_map; lia).
  now rewrite (map_nth (fun k => nth k c d) K 0%nat i).
Qed.

End Rows.

Section Duplicates.
Variable A : Type.
Variable d : A.
Variable eqb : A -> A -> bool.
Hypothesis eqb_spec : forall x y, eqb x y = true <-> x = y.
Implicit Type df : frame (list A).

Lemma row_eqb_spec r s : row_eqb eqb r s = true <-> r = s.
Proof.
  revert s. induction r as [|x r IH]; intros [|y s]; simpl; split; intros H;
    try discriminate; auto.
  - apply andb_true_iff in H as [H1 H2]. apply eqb_spec in H1. apply IH in H2.
    congruence.
  - inversion H; subst. apply andb_true_iff. split; [now apply eqb_spec | now apply IH].
Qed.

Lemma existsb_In r seen :
  existsb (fun s => row_eqb eqb s r) seen = true <-> In r seen.
Proof.
  rewrite existsb_exists. split.
  - intros (s & Hs & E). apply row_eqb_spec in E. now subst.
  - intros H. exists r. split; [exact H | now apply row_eqb_spec].
Qed.

Lemma first_rows_In r seen L :
  In r (first_rows eqb seen L) <-> In r L /\ ~ In r seen.
Proof.
  revert seen. induction L as [|x L IH]; intros seen; simpl; [tauto|].
  assert (Hdec : x = r \/ x <> r).
  { destruct (row_eqb eqb x r) eqn:E.
    - left. now apply row_eqb_spec.
    - right. intros Hx. apply row_eqb_spec in Hx. congruence. }
  destruct (existsb _ seen) eqn:E.
  - apply existsb_In in E. rewrite IH, in_app_iff. simpl. split.
    + tauto.
    + intros [[Hx|H] Hn]; [subst; tauto|]. split; [exact H|].
      intros [H'|[Hx|[]]]; [tauto | subst; tauto].
  - assert (Hx : ~ In x seen) by (rewrite <- existsb_In; congruence).
    simpl. rewrite IH, in_app_iff. simpl. split.
    + intros [Hr|[H Hn]]; [subst; tauto | tauto].
    + intros [[Hr|H] Hn]; [tauto|].
      destruct Hdec as [Hr|Hr]; [tauto|]. right. tauto.
Qed.

Lemma first_rows_NoDup seen L : NoDup (first_rows eqb seen L).
Proof.
  revert seen. induction L as [|x L IH]; intros seen; simpl; [constructor|].
  destruct (existsb _ seen); [apply IH|].
  constructor; [|apply IH]. rewrite first_rows_In, in_app_iff. simpl. tauto.
Qed.

Lemma first_rows_length seen L :
  (List.length (first_rows eqb seen L) <= List.length L)%nat.
Proof.
  revert seen. induction L as [|x L IH]; intros seen; simpl; [lia|].
  specialize (IH (seen ++ [x])). destruct (existsb _ seen); simpl; lia.
Qed.

Lemma first_rows_seen_ext P1 P2 M :
  (forall r, In r P1 <-> In r P2) -> first_rows eqb P1 M = first_rows eqb P2 M.
Proof.
  revert P1 P2. induction M as [|z M IHM]; intros P1 P2 HP; simpl; [reflexivity|].
  assert (E : existsb (fun s => row_eqb eqb s z) P1
              = existsb (fun s => row_eqb eqb s z) P2).
  { apply eq_true_iff_eq. rewrite !existsb_In. apply HP. }
  rewrite E, (IHM (P1 ++ [z]) (P2 ++ [z])); [reflexivity|].
  intros r. rewrite !in_app_iff, HP. tauto.
Qed.

Lemma first_rows_drops x seen L :
  In x L -> (List.length (first_rows eqb (seen ++ [x]) L) < List.length L)%nat.
Proof.
  revert seen. induction L as [|y L IH]; intros seen Hx; [destruct Hx|]. simpl.
  pose proof (first_rows_length ((seen ++ [x]) ++ [y]) L) as Hle.
  destruct (existsb (fun s => row_eqb eqb s y) (seen ++ [x])) eqn:Ey; [lia|].
  destruct Hx as [->|Hx].
  - exfalso. rewrite <- not_true_iff_false, existsb_In, in_app_iff in Ey.
    simpl in Ey. tauto.
  - simpl. specialize (IH (seen ++ [y]) Hx).
    rewrite (first_rows_seen_ext ((seen ++ [x]) ++ [y]) ((seen ++ [y]) ++ [x]) L).
    + lia.
    + intros r. rewrite !in_app_iff. simpl. tauto.
Qed.

Lemma first_rows_shorter seen L :
  ~ NoDup L -> (List.length (first_rows eqb seen L) < List.length L)%nat.
Proof.
  revert seen. induction L as [|x L IH]; intros seen Hnd; simpl.
  - exfalso. apply Hnd. constructor.
  - pose proof (first_rows_length (seen ++ [x]) L) as Hle.
    destruct (existsb _ seen) eqn:E; [lia|]. simpl.
    destruct (existsb (fun s => row_eqb eqb s x) L) eqn:Ex.
    + apply existsb_In in Ex. pose proof (first_rows_drops x seen L Ex). lia.
    + assert (Hx : ~ In x L) by (rewrite <- existsb_In; congruence).
      assert (Hnd' : ~ NoDup L) by (intros H; apply Hnd; now constructor).
      specialize (IH (seen ++ [x]) Hnd'). lia.
Qed.

Lemma first_rows_of_NoDup seen L :
  NoDup L -> (forall r, In r L -> ~ In r seen) -> first_rows eqb seen L = L.
Proof.
  revert seen. induction L as [|x L IH]; intros seen Hnd Hdisj; simpl; [reflexivity|].
  inversion Hnd as [|? ? Hx Hnd']; subst.
  destruct (existsb _ seen) eqn:E.
  - apply existsb_In in E. exfalso. apply (Hdisj x); simpl; auto.
  - f_equal. apply IH; [exact Hnd'|].
    intros r Hr Hin. apply in_app_iff in Hin as [Hin|[->|[]]].
    + apply (Hdisj r); simpl; auto.
    + contradiction.
Qed.

Lemma existsb_nth_prefix (f : list A -> bool) (P Q : list (list A)) :
  existsb (fun j => f (nth j (P ++ Q) [])) (seq 0 (List.length P)) = existsb f P.
Proof.
  revert Q. induction P as [|p P IH] using rev_ind; intros Q; simpl; [reflexivity|].
  rewrite length_app. simpl. rewrite Nat.add_1_r, seq_S, !existsb_app. simpl.
  rewrite <- app_assoc. simpl. rewrite IH. f_equal.
  rewrite app_nth2 by lia. now rewrite Nat.sub_diag.
Qed.

(** The mask of [drop_duplicates], read on the list of rows. *)
Lemma select_first_rows (P L : list (list A)) :
  select
    (map negb
       (map (fun i => existsb (fun j => row_eqb eqb (nth j (P ++ L) []) (nth i (P ++ L) []))
                              (seq 0 i))
            (seq (List.length P) (List.length L))))
    L
  = first_rows eqb P L.
Proof.
  revert P. induction L as [|r L IH]; intros P; simpl; [reflexivity|].
  rewrite app_nth2 by lia. rewrite Nat.sub_diag. simpl.
  rewrite (existsb_nth_prefix (fun s => row_eqb eqb s r) P (r :: L)).
  specialize (IH (P ++ [r])). rewrite length_app in IH. simpl in IH.
  rewrite Nat.add_1_r, <- app_assoc in IH. simpl in IH.
  destruct (existsb _ P); simpl; now rewrite IH.
Qed.

Lemma nth_rows df i :
  (i < nrows df)%nat -> nth i (rows d df) [] = row d df i.
Proof.
  intros Hi. unfold rows.
  rewrite (nth_indep _ [] (row d df 0)) by (rewrite length_map, length_seq; lia).
  rewrite (map_nth (row d df) (seq 0 (nrows df)) 0%nat i), seq_nth by lia.
  reflexivity.
Qed.

Lemma duplicated_length df : List.length (duplicated d eqb df) = nrows df.
Proof. unfold duplicated. now rewrite length_map, length_seq. Qed.

(** [drop_duplicates] keeps the first occurrence of every row. *)
Lemma rows_drop_duplicates df :
  wf_frame df -> rows d (drop_duplicates d eqb df) = first_rows eqb [] (rows d df).
Proof.
  intros Hwf. unfold drop_duplicates. cbv zeta.
  assert (Hlen : List.length (map negb (duplicated d eqb df)) = nrows df)
    by now rewrite length_map, duplicated_length.
  rewrite (rows_map_columns_select _ d _ df Hwf Hlen).
  rewrite <- (select_first_rows [] (rows d df)). simpl. f_equal. f_equal.
  assert (Hrows : List.length (rows d df) = nrows df)
    by (unfold rows; now rewrite length_map, length_seq).
  rewrite Hrows. unfold duplicated.
  apply map_ext_in. intros i Hi. apply in_seq in Hi.
  apply existsb_ext_in. intros j Hj. apply in_seq in Hj.
  now rewrite !nth_rows by lia.
Qed.

End Duplicates.

End RowFacts.

Module DedupFacts.
Import Pd PdFacts RowFacts.

Section Idempotence.
Variable A : Type.
Variable d : A.
Variable eqb : A -> A -> bool.
Hypothesis eqb_spec : forall x y, eqb x y = true <-> x = y.
Implicit Type df : frame (list A).

Lemma wf_drop_duplicates df : wf_frame df -> wf_frame (drop_duplicates d eqb df).
Proof.
  intros Hwf. unfold drop_duplicates. apply (wf_map_columns_select _ d); [exact Hwf|].
  now rewrite length_map, duplicated_length.
Qed.

Lemma rows_length df : List.length (rows d df) = nrows df.
Proof. unfold rows. now rewrite length_map, length_seq. Qed.

Lemma duplicated_of_NoDup df :
  NoDup (rows d df) -> Forall (fun b => b = true) (map negb (duplicated d eqb df)).
Proof.
  intros Hnd. apply Forall_forall. intros b Hb.
  apply in_map_iff in Hb as (b0 & <- & Hb0). unfold duplicated in Hb0.
  apply in_map_iff in Hb0 as (i & <- & Hi). apply in_seq in Hi.
  apply negb_true_iff, not_true_is_false. intros H.
  apply existsb_exists in H as (j & Hj & E). apply in_seq in Hj.
  apply (row_eqb_spec _ eqb eqb_spec) in E.
  rewrite <- !(nth_rows _ d) in E by lia.
  rewrite NoDup_nth in Hnd. specialize (Hnd j i).
  rewrite rows_length in Hnd. specialize (Hnd ltac:(lia) ltac:(lia) E). lia.
Qed.

Lemma drop_duplicates_of_NoDup df :
  wf_frame df -> NoDup (rows d df) -> drop_duplicates d eqb df = df.
Proof.
  intros Hwf Hnd. unfold drop_duplicates. cbv zeta.
  pose proof (duplicated_of_NoDup df Hnd) as Hall.
  assert (Hlen : List.length (map negb (duplicated d eqb df)) = nrows df)
    by now rewrite length_map, duplicated_length.
  unfold map_columns. transitivity (map (fun lc : string * list A => lc) df);
    [|apply map_id].
  apply map_ext_in. intros [l c] Hin. simpl. f_equal.
  apply select_all_true; [|exact Hall].
  unfold wf_frame in Hwf. rewrite Forall_forall in Hwf.
  specialize (Hwf _ Hin). simpl in Hwf. congruence.
Qed.

Lemma drop_duplicates_idempotent df :
  wf_frame df ->
  drop_duplicates d eqb (drop_duplicates d eqb df) = drop_duplicates d eqb df.
Proof.
  intros Hwf. apply drop_duplicates_of_NoDup.
  - now apply wf_drop_duplicates.
  - rewrite (rows_drop_duplicates _ d eqb df Hwf).
    apply (first_rows_NoDup _ eqb eqb_spec).
Qed.

Lemma wf_get_col_length df l c :
  wf_frame df -> get_col l df = Ok c -> List.length c = nrows df.
Proof.
  intros Hwf Hc. apply get_col_In in Hc. unfold wf_frame in Hwf.
  rewrite Forall_forall in Hwf. exact (Hwf _ Hc).
Qed.

End Idempotence.

End DedupFacts.

Module TrainFacts.
Import Py Pd Train PdFacts RowFacts DedupFacts.
Local Open Scope string_scope.

Lemma Z_eqb_spec x y : Z.eqb x y = true <-> x = y.
Proof. apply Z.eqb_eq. Qed.

Lemma prepare_features_idempotent (df : dataset) target :
  wf_frame df ->
  prepare_features (drop_duplicates 0%Z Z.eqb df) target = prepare_features df target.
Proof.
  intros Hwf. unfold prepare_features.
  rewrite (drop_duplicates_idempotent _ 0%Z Z.eqb Z_eqb_spec df Hwf).
  unfold has_col. unfold drop_duplicates at 1. now rewrite columns_map_columns.
Qed.

(** C10. On a well-formed dataset that has the target column,
    [prepare_features] succeeds, and the features and the target it returns
    are those of the deduplicated dataset: its rows are the first
    occurrences of the rows of the input, in their order, each once; the
    target has one entry per such row, strictly fewer than the input has
    rows when a row is repeated. Whatever scikit-learn and MLflow do,
    [main] on the dataset is [main] on the deduplicated dataset: the
    split, the training and the evaluation never see the repeated rows. *)
Theorem prepare_features_deduplicates (df : dataset) (target : string) :
  wf_frame df -> has_col target df = true ->
  let dd := drop_duplicates 0%Z Z.eqb df in
  exists X y cat_cols num_cols,
    prepare_features df target = Ok (X, y, cat_cols, num_cols)
    /\ drop [target] dd = Ok X
    /\ get_col target dd = Ok y
    /\ rows 0%Z dd = first_rows Z.eqb [] (rows 0%Z df)
    /\ NoDup (rows 0%Z dd)
    /\ (forall r, In r (rows 0%Z dd) <-> In r (rows 0%Z df))
    /\ List.length y = List.length (rows 0%Z dd)
    /\ (~ NoDup (rows 0%Z df) -> (List.length y < nrows df)%nat)
    /\ forall (Regressor Fitted : Type) train_test_split Pipeline_fit
              Pipeline_predict mean_absolute_error mean_squared_error r2_score
              np_sqrt log_to_mlflow
              (models : list (string * Regressor)) (fs : files Fitted),
         main train_test_split Pipeline_fit Pipeline_predict mean_absolute_error
              mean_squared_error r2_score np_sqrt log_to_mlflow df models fs
         = main train_test_split Pipeline_fit Pipeline_predict mean_absolute_error
                mean_squared_error r2_score np_sqrt log_to_mlflow dd models fs.
Proof.
  intros Hwf Hhas dd.
  pose proof (rows_drop_duplicates _ 0%Z Z.eqb df Hwf) as Hrows.
  fold dd in Hrows.
  assert (Hhas' : has_col target dd = true).
  { unfold has_col, dd, drop_duplicates. now rewrite columns_map_columns. }
  destruct (has_col_get _ _ _ Hhas') as (y & Hy).
  assert (Hdrop : exists X, drop [target] dd = Ok X).
  { unfold drop. simpl. rewrite Hhas'. simpl. eauto. }
  destruct Hdrop as (X & HX).
  assert (Hlen : List.length y = List.length (rows 0%Z dd)).
  { rewrite rows_length.
    apply (wf_get_col_length _ dd target); [|exact Hy].
    now apply wf_drop_duplicates. }
  eexists X, y, _, _. split.
  { unfold prepare_features. rewrite Hhas. simpl. fold dd. rewrite HX. simpl.
    rewrite Hy. simpl. reflexivity. }
  repeat split; auto.
  - rewrite Hrows. apply (first_rows_NoDup _ Z.eqb Z_eqb_spec).
  - rewrite Hrows. intros Hr.
    now apply (first_rows_In _ Z.eqb Z_eqb_spec) in Hr as [Hr _].
  - rewrite Hrows. intros Hr.
    apply (first_rows_In _ Z.eqb Z_eqb_spec). split; [exact Hr | intros []].
  - intros Hnd. rewrite Hlen, Hrows, <- (rows_length _ 0%Z df).
    now apply (first_rows_shorter _ Z.eqb Z_eqb_spec).
  - intros. unfold main. unfold dd.
    now rewrite (prepare_features_idempotent df TARGET_COLUMN Hwf).
Qed.

End TrainFacts.

Module SelectionFacts.
Import Py Pd Train NumFacts.
Local Open Scope string_scope.
Local Open Scope list_scope.

(** ** The order of floats *)

Lemma float_ltb_trans x y z :
  float_ltb x y = true -> float_ltb y z = true -> float_ltb x z = true.
Proof.
  destruct x as [|[|]|a], y as [|[|]|b], z as [|[|]|c]; simpl;
    try discriminate; try reflexivity.
  rewrite !negb_true_iff. intros H1%Qle_bool_false H2%Qle_bool_false.
  apply not_true_is_false. intros H%Qle_bool_iff. lra.
Qed.

Lemma float_ltb_leb_trans x y z :
  float_ltb x y = true -> float_leb y z = true -> float_ltb x z = true.
Proof.
  destruct x as [|[|]|a], y as [|[|]|b], z as [|[|]|c]; simpl;
    try discriminate; try reflexivity.
  rewrite !negb_true_iff. intros H1%Qle_bool_false H2%Qle_bool_iff.
  apply not_true_is_false. intros H%Qle_bool_iff. lra.
Qed.

(** A comparison that fails has a NaN on one side, or holds the other way
    round. *)
Lemma float_ltb_false x y :
  float_ltb x y = false -> x = FNan \/ y = FNan \/ float_leb y x = true.
Proof.
  destruct x as [|[|]|a], y as [|[|]|b]; simpl; auto; try discriminate.
  rewrite negb_false_iff. auto.
Qed.

Lemma float_ltb_below_inf x y :
  float_ltb x y = true -> float_ltb x (FInf false) = true.
Proof. destruct x as [|[|]|a], y as [|[|]|b]; simpl; auto. Qed.

Lemma float_ltb_not_nan x y : float_ltb x y = true -> x <> FNan.
Proof. destruct x; simpl; congruence. Qed.

(** What is not below [+inf] is [+inf] or NaN. *)
Lemma not_below_inf x :
  float_ltb x (FInf false) = false -> x = FNan \/ x = FInf false.
Proof. destruct x as [|[|]|a]; simpl; auto; discriminate. Qed.

Section Loop.
Variable Regressor : Type.
Variable Fitted : Type.
Variable train_test_split :
  dataset -> list Z -> Q -> Z -> result (dataset * dataset * list Z * list Z).
Variable Pipeline_fit :
  Preprocessor -> Regressor -> dataset -> list Z -> result Fitted.
Variable Pipeline_predict : Fitted -> dataset -> result (list pyfloat).
Variable mean_absolute_error : list Z -> list pyfloat -> result pyfloat.
Variable mean_squared_error : list Z -> list pyfloat -> result pyfloat.
Variable r2_score : list Z -> list pyfloat -> result pyfloat.
Variable np_sqrt : pyfloat -> pyfloat.
Variable log_to_mlflow :
  ModelResult Regressor Fitted -> string -> dataset -> list Z ->
  files Fitted -> files Fitted.

Let Result := ModelResult Regressor Fitted.
Let rmse (r : Result) : pyfloat := test_rmse (metrics r).
Let State := LoopState Regressor Fitted.

Section Turns.
Variable preprocessor : Preprocessor.
Variables X_train X_test : dataset.
Variables y_train y_test : list Z.

Let train (nm : string * Regressor) : result Result :=
  train_model Pipeline_fit Pipeline_predict mean_absolute_error mean_squared_error
              r2_score np_sqrt (fst nm) (snd nm) preprocessor
              X_train X_test y_train y_test.
Let body :=
  loop_body Pipeline_fit Pipeline_predict mean_absolute_error mean_squared_error
            r2_score np_sqrt log_to_mlflow preprocessor
            X_train X_test y_train y_test.
Let turn : State -> Result -> State := loop_turn log_to_mlflow X_train y_train.

Lemma loop_body_train st nm :
  body st nm = (r <- train nm ;; Ok (turn st r)).
Proof. destruct nm as [n m]. reflexivity. Qed.

(** A loop in which every model trains runs to its end, turn by turn. *)
Lemma for_in_trained models : forall trained st,
  mapM train models = Ok trained ->
  for_in body models st = (fold_left turn trained st, None).
Proof.
  induction models as [|nm models IH]; intros trained st H; simpl in H.
  - apply Ok_inj in H. now subst.
  - apply bind_Ok_inv in H as (r & Hr & H).
    apply bind_Ok_inv in H as (rs & Hrs & H). apply Ok_inj in H. subst trained.
    simpl. rewrite loop_body_train, Hr. simpl. now apply IH.
Qed.

(** A loop that runs to its end has trained every model. *)
Lemma for_in_ended models : forall st st',
  for_in body models st = (st', None) ->
  exists trained, mapM train models = Ok trained
                  /\ st' = fold_left turn trained st.
Proof.
  induction models as [|nm models IH]; intros st st' H; simpl in H.
  - injection H as <-. now exists [].
  - rewrite loop_body_train in H. destruct (train nm) as [r|e] eqn:Hr; simpl in H.
    + destruct (IH _ _ H) as (trained & Ht & ->).
      exists (r :: trained). simpl. now rewrite Hr, Ht.
    + discriminate.
Qed.

(** A loop that a model ends has trained the models before it, and has
    written what their turns write. *)
Lemma for_in_raised models : forall st st' e,
  for_in body models st = (st', Some e) ->
  exists done nm rest trained,
    models = done ++ nm :: rest
    /\ mapM train done = Ok trained /\ train nm = Raise e
    /\ st' = fold_left turn trained st.
Proof.
  induction models as [|nm models IH]; intros st st' e H; simpl in H;
    [discriminate|].
  rewrite loop_body_train in H. destruct (train nm) as [r|e0] eqn:Hr; simpl in H.
  - destruct (IH _ _ _ H) as (done & nm' & rest & trained & -> & Ht & Hn & ->).
    exists (nm :: done), nm', rest, (r :: trained). simpl. now rewrite Hr, Ht.
  - injection H as <- <-. exists [], nm, models, []. auto.
Qed.

(** The converse: a model that does not train ends the loop where the
    models before it left it. *)
Lemma for_in_stopped done nm rest e : forall trained st,
  mapM train done = Ok trained -> train nm = Raise e ->
  for_in body (done ++ nm :: rest) st = (fold_left turn trained st, Some e).
Proof.
  induction done as [|nm0 done IH]; intros trained st H He; simpl in H.
  - apply Ok_inj in H. subst trained. simpl. now rewrite loop_body_train, He.
  - apply bind_Ok_inv in H as (r & Hr & H).
    apply bind_Ok_inv in H as (rs & Hrs & H). apply Ok_inj in H. subst trained.
    simpl. rewrite loop_body_train, Hr. simpl. now apply IH.
Qed.

Lemma turn_results st r : results (turn st r) = results st ++ [r].
Proof.
  unfold turn, loop_turn.
  destruct (float_ltb _ _), (save_model r MODELS_DIR (disk st)); reflexivity.
Qed.

Lemma turns_results trained : forall st,
  results (fold_left turn trained st) = results st ++ trained.
Proof.
  induction trained as [|r trained IH]; intros st; simpl.
  - now rewrite app_nil_r.
  - rewrite IH, turn_results, <- app_assoc. reflexivity.
Qed.

(** The invariant of the loop: no result so far is below [+inf] and
    nothing is chosen, or the chosen result is the first of the lowest. *)
Let chosen (st : State) : Prop :=
  (best_model st = None /\ best_score st = FInf false
   /\ Forall (fun r => float_ltb (rmse r) (FInf false) = false) (results st))
  \/ exists best, best_model st = Some best /\ best_score st = rmse best
                  /\ float_ltb (rmse best) (FInf false) = true
                  /\ first_lowest best (results st).

Lemma turn_chosen st r : chosen st -> chosen (turn st r).
Proof.
  intros Hch.
  assert (Hres := turn_results st r).
  assert (Hsel : (float_ltb (rmse r) (best_score st) = true
                  /\ best_model (turn st r) = Some r
                  /\ best_score (turn st r) = rmse r)
                 \/ (float_ltb (rmse r) (best_score st) = false
                     /\ best_model (turn st r) = best_model st
                     /\ best_score (turn st r) = best_score st)).
  { unfold turn, loop_turn. fold (rmse r).
    destruct (float_ltb (rmse r) (best_score st)),
      (save_model r MODELS_DIR (disk st)); simpl; auto. }
  destruct Hsel as [(E & Hbm & Hbs)|(E & Hbm & Hbs)].
  - right. exists r. split; [exact Hbm|]. split; [exact Hbs|].
    split; [now apply float_ltb_below_inf in E|].
    exists (results st), []. split; [exact Hres|]. split; [|constructor].
    destruct Hch as [(_ & Hs & Hall)|(best & _ & Hs & _ & before & after & Hrs & Hb & Ha)].
    + rewrite Hs in E. eapply Forall_impl; [|exact Hall]. intros x Hx.
      apply not_below_inf in Hx as [Hx|Hx]; [now left|]. right.
      fold (rmse x). now rewrite Hx.
    + rewrite Hs in E. rewrite Hrs. apply Forall_app. split.
      * eapply Forall_impl; [|exact Hb]. intros x [Hx|Hx]; [now left|]. right.
        exact (float_ltb_trans _ _ _ E Hx).
      * constructor; [right; exact E|].
        eapply Forall_impl; [|exact Ha]. intros x [Hx|Hx]; [now left|]. right.
        exact (float_ltb_leb_trans _ _ _ E Hx).
  - destruct Hch as [(Hb & Hs & Hall)|(best & Hb & Hs & Hinf & before & after & Hrs & Hbe & Ha)].
    + left. split; [congruence|]. split; [congruence|].
      rewrite Hres. apply Forall_app. split; [exact Hall|].
      constructor; [|constructor]. now rewrite Hs in E.
    + right. exists best. split; [congruence|]. split; [congruence|].
      split; [exact Hinf|].
      exists before, (after ++ [r]). split; [|split; [exact Hbe|]].
      * rewrite Hres, Hrs, <- app_assoc. reflexivity.
      * apply Forall_app. split; [exact Ha|]. constructor; [|constructor].
        rewrite Hs in E. apply float_ltb_false in E as [E|[E|E]]; auto.
        apply float_ltb_not_nan in Hinf. contradiction.
Qed.

Lemma turns_chosen trained : forall st,
  chosen st -> chosen (fold_left turn trained st).
Proof.
  induction trained as [|r trained IH]; intros st Hch; simpl; [exact Hch|].
  apply IH. now apply turn_chosen.
Qed.

(** The loop from its first state: it chooses nothing exactly when no
    result is below [+inf], and what it chooses is the first of the
    lowest results. *)
Lemma loop_chooses (fs : files Fitted) trained :
  let st := fold_left turn trained
                      {| results := []; best_model := None;
                         best_score := FInf false; disk := fs |} in
  results st = trained
  /\ match best_model st with
     | None => Forall (fun r => float_ltb (rmse r) (FInf false) = false) trained
     | Some best => float_ltb (rmse best) (FInf false) = true
                    /\ first_lowest best trained
     end.
Proof.
  intros st.
  assert (Hres : results st = trained) by (unfold st; now rewrite turns_results).
  split; [exact Hres|].
  assert (Hch : chosen st).
  { unfold st. apply turns_chosen. left. simpl. auto. }
  rewrite <- Hres.
  destruct Hch as [(-> & _ & Hall)|(best & -> & _ & Hinf & Hfl)]; auto.
Qed.

End Turns.

(** [main] when the features are prepared, the split is made and every
    model trains: the loop runs to its end, the metrics are saved, and
    what follows depends on the best model alone. *)
Lemma main_trained (df : dataset) (models : list (string * Regressor))
      (fs : files Fitted) X y cat_cols num_cols X_train X_test y_train y_test
      trained :
  prepare_features df TARGET_COLUMN = Ok (X, y, cat_cols, num_cols) ->
  train_test_split X y TEST_SIZE RANDOM_STATE
  = Ok (X_train, X_test, y_train, y_test) ->
  mapM (fun nm => train_model Pipeline_fit Pipeline_predict mean_absolute_error
                              mean_squared_error r2_score np_sqrt (fst nm) (snd nm)
                              (create_preprocessor num_cols cat_cols)
                              X_train X_test y_train y_test) models = Ok trained ->
  let st := fold_left (loop_turn log_to_mlflow X_train y_train) trained
                      {| results := []; best_model := None;
                         best_score := FInf false; disk := fs |} in
  main train_test_split Pipeline_fit Pipeline_predict mean_absolute_error
       mean_squared_error r2_score np_sqrt log_to_mlflow df models fs
  = match best_model st with
    | None => {| returned := Raise TypeError; disk_after := disk st;
                 report := Some (save_metrics trained) |}
    | Some best =>
        {| returned := Ok trained;
           disk_after := joblib_dump (pipeline best) "models/best_model.joblib"
                                     (disk st);
           report := Some (save_metrics trained) |}
    end.
Proof.
  intros Hprep Hsplit Htrain st. unfold main. rewrite Hprep, Hsplit.
  cbv beta iota zeta.
  rewrite (for_in_trained _ _ _ _ _ _ _ _ Htrain). subst st.
  rewrite !turns_results. reflexivity.
Qed.

(** A [main] that returns has prepared the features, made the split and
    trained every model, and has chosen a best model. *)
Lemma main_returned (df : dataset) (models : list (string * Regressor))
      (fs : files Fitted) rs :
  returned (main train_test_split Pipeline_fit Pipeline_predict mean_absolute_error
                 mean_squared_error r2_score np_sqrt log_to_mlflow df models fs)
  = Ok rs ->
  exists X y cat_cols num_cols X_train X_test y_train y_test best,
    prepare_features df TARGET_COLUMN = Ok (X, y, cat_cols, num_cols)
    /\ train_test_split X y TEST_SIZE RANDOM_STATE
       = Ok (X_train, X_test, y_train, y_test)
    /\ mapM (fun nm => train_model Pipeline_fit Pipeline_predict mean_absolute_error
                                   mean_squared_error r2_score np_sqrt
                                   (fst nm) (snd nm)
                                   (create_preprocessor num_cols cat_cols)
                                   X_train X_test y_train y_test) models = Ok rs
    /\ best_model (fold_left (loop_turn log_to_mlflow X_train y_train) rs
                             {| results := []; best_model := None;
                                best_score := FInf false; disk := fs |})
       = Some best.
Proof.
  unfold main. intros H.
  destruct (prepare_features df TARGET_COLUMN) as [[[[X y] cat_cols] num_cols]|e]
    eqn:Hprep; [|discriminate H].
  destruct (train_test_split X y TEST_SIZE RANDOM_STATE)
    as [[[[X_train X_test] y_train] y_test]|e] eqn:Hsplit; [|discriminate H].
  destruct (for_in _ models _) as [st [e|]] eqn:Hloop; [discriminate H|].
  apply for_in_ended in Hloop as (trained & Ht & ->).
  destruct (best_model _) as [best|] eqn:Hb; [|discriminate H].
  simpl in H. apply Ok_inj in H. rewrite turns_results in H. simpl in H. subst rs.
  exists X, y, cat_cols, num_cols, X_train, X_test, y_train, y_test, best. auto.
Qed.

End Loop.

End SelectionFacts.

Module FloatFacts.
Import Py PyFacts NumFacts.
Local Open Scope Q_scope.

Lemma dyadic_nonneg m e : (0 <= m)%Z -> 0 <= dyadic m e.
Proof.
  intros Hm. unfold dyadic. destruct (0 <=? e)%Z eqn:E.
  - apply Z.leb_le in E. change 0 with (inject_Z 0). rewrite <- Zle_Qle.
    apply Z.mul_nonneg_nonneg; [exact Hm | now apply Z.pow_nonneg].
  - unfold Qle. simpl. lia.
Qed.

Lemma scaled_nonneg a d e : (0 <= a)%Z -> 0 <= scaled a d e.
Proof.
  intros Ha. unfold scaled. destruct (0 <=? e)%Z; unfold Qle; simpl; [lia|].
  assert (0 <= 2 ^ (- e))%Z by now apply Z.pow_nonneg. nia.
Qed.

(** Rounding to binary64 keeps the sign of a non-negative rational. *)
Lemma b64_of_Q_nonneg q :
  0 <= q -> float_leb (FFin 0) (b64_of_Q q) = true.
Proof.
  intros Hq. assert (Hn : (0 <= Qnum q)%Z) by (unfold Qle in Hq; simpl in Hq; lia).
  unfold b64_of_Q. destruct (Qnum q =? 0)%Z eqn:E0; [reflexivity|].
  apply Z.eqb_neq in E0. assert (Hlt : (Qnum q <? 0)%Z = false) by (apply Z.ltb_ge; lia).
  rewrite Hlt. cbv zeta.
  match goal with |- context [Qle_bool ?a ?b] => destruct (Qle_bool a b) end;
    [reflexivity|].
  simpl. apply Qle_bool_iff. rewrite Qred_correct. apply dyadic_nonneg.
  apply round_half_even_nonneg, scaled_nonneg. lia.
Qed.

Lemma b64_of_Q_zero q : Qnum q = 0%Z -> b64_of_Q q = FFin 0.
Proof. intros H. unfold b64_of_Q. now rewrite H. Qed.

Lemma round_half_even_zero q : Qnum q = 0%Z -> round_half_even q = 0%Z.
Proof.
  intros H. unfold round_half_even. rewrite H. cbv zeta.
  rewrite Z.div_0_l, Z.mod_0_l by lia. reflexivity.
Qed.

Lemma float_ltb_leb x y : float_ltb x y = true -> float_leb x y = true.
Proof.
  destruct x as [|[|]|a], y as [|[|]|b]; simpl; try discriminate; auto.
  rewrite negb_true_iff. intros H%Qle_bool_false. apply Qle_bool_iff. lra.
Qed.

Lemma max0_nonneg x : float_leb (FFin 0) (max0 x) = true.
Proof.
  unfold max0. destruct (float_ltb (FFin 0) x) eqn:E.
  - now apply float_ltb_leb.
  - reflexivity.
Qed.

Lemma max0_negative x : float_ltb x (FFin 0) = true -> max0 x = FFin 0.
Proof.
  unfold max0. destruct x as [|[|]|a]; simpl; try discriminate; auto.
  rewrite negb_true_iff. intros H%Qle_bool_false.
  destruct (Qle_bool a 0) eqn:E; [reflexivity|].
  apply Qle_bool_false in E. exfalso. lra.
Qed.

(** [round(x, 2)] of a non-negative float is non-negative, and is an
    infinity or the binary64 nearest to a decimal with two places. *)
Lemma round_2_finite q :
  round_ndigits (FFin q) 2
  = b64_of_Q (round_half_even (q * inject_Z 100) # 100).
Proof. reflexivity. Qed.

Lemma round_2_nonneg x :
  float_leb (FFin 0) x = true ->
  float_leb (FFin 0) (round_ndigits x 2) = true
  /\ (round_ndigits x 2 = FInf false
      \/ exists k, (0 <= k)%Z /\ round_ndigits x 2 = b64_of_Q (k # 100)).
Proof.
  destruct x as [|[|]|q]; intros H; try discriminate H.
  - split; [reflexivity | left; reflexivity].
  - rewrite round_2_finite. apply Qle_bool_iff in H.
    assert (Hk : (0 <= round_half_even (q * inject_Z 100))%Z).
    { apply round_half_even_nonneg.
      change 0 with (0 * inject_Z 100). apply Qmult_le_compat_r; [exact H|].
      discriminate. }
    split.
    + apply b64_of_Q_nonneg. unfold Qle. cbn [Qnum Qden]. lia.
    + right. eexists. split; [exact Hk | reflexivity].
Qed.

Lemma round_2_zero : round_ndigits (FFin 0) 2 = FFin 0.
Proof. reflexivity. Qed.

(** Off NaN, the clamp of the batch endpoint and the clamp of the single
    endpoint give the same rounded value. *)
Lemma clamps_agree x :
  x <> FNan -> round_ndigits (np_maximum0 x) 2 = round_ndigits (max0 x) 2.
Proof.
  intros Hx. destruct x as [|[|]|q]; [congruence|reflexivity|reflexivity|].
  unfold np_maximum0, max0. cbn [float_ltb].
  destruct (Qle_bool 0 q) eqn:E1; destruct (Qle_bool q 0) eqn:E2; cbn [negb];
    try reflexivity.
  - apply Qle_bool_iff in E1, E2.
    assert (Hn : Qnum q = 0%Z) by (unfold Qle in *; simpl in *; lia).
    rewrite round_2_finite, b64_of_Q_zero; [reflexivity|]. cbn [Qnum].
    apply round_half_even_zero. unfold Qmult. cbn [Qnum]. now rewrite Hn.
  - apply Qle_bool_false in E1, E2. exfalso. lra.
Qed.

End FloatFacts.

Module ConcatFacts.
Import Pd.

Section Append.
Variable A : Type.
Variable d : A.
Implicit Types acc more : frame (list A).

Lemma append_rows_length acc more :
  List.length acc = List.length more ->
  List.length (append_rows acc more) = List.length acc.
Proof.
  intros H. unfold append_rows. rewrite length_map, length_combine. lia.
Qed.

Lemma append_rows_row acc more k i :
  List.length acc = List.length more ->
  Forall (fun lc => List.length (snd lc) = k) acc ->
  row d (append_rows acc more) i
  = if (i <? k)%nat then row d acc i else row d more (i - k).
Proof.
  revert more. induction acc as [|[l c1] acc IH]; intros [|[l2 c2] more] Hlen Hk;
    simpl in Hlen; try discriminate.
  - simpl. now destruct (i <? k)%nat.
  - inversion Hk as [|? ? Hc Hk']; subst. simpl in *.
    specialize (IH more ltac:(lia) Hk'). unfold append_rows in IH.
    unfold row in *. simpl. rewrite IH.
    destruct (i <? List.length c1)%nat eqn:E.
    + apply Nat.ltb_lt in E. now rewrite app_nth1.
    + apply Nat.ltb_ge in E. now rewrite app_nth2.
Qed.

Lemma append_rows_columns acc more k :
  List.length acc = List.length more ->
  Forall (fun lc => List.length (snd lc) = k) acc ->
  Forall (fun lc => List.length (snd lc) = 1%nat) more ->
  Forall (fun lc => List.length (snd lc) = S k) (append_rows acc more).
Proof.
  revert more. induction acc as [|[l c1] acc IH]; intros [|[l2 c2] more] Hlen Hk H1;
    simpl in Hlen; try discriminate; [constructor|].
  inversion Hk; inversion H1; subst. simpl in *.
  constructor; [simpl; rewrite length_app; lia|].
  apply IH; auto.
Qed.

Lemma rows_append_rows acc more k :
  acc <> [] -> List.length acc = List.length more ->
  Forall (fun lc => List.length (snd lc) = k) acc ->
  Forall (fun lc => List.length (snd lc) = 1%nat) more ->
  rows d (append_rows acc more) = rows d acc ++ [row d more 0].
Proof.
  intros Hne Hlen Hk H1.
  pose proof (append_rows_columns acc more k Hlen Hk H1) as HSk.
  assert (Hn : nrows acc = k).
  { destruct acc as [|[l c] acc]; [congruence|]. now inversion Hk. }
  assert (Hn' : nrows (append_rows acc more) = S k).
  { destruct acc as [|[l c] acc]; [congruence|].
    destruct more as [|[l2 c2] more]; [discriminate|].
    now inversion HSk. }
  unfold rows. rewrite Hn, Hn', seq_S, map_app. simpl. f_equal.
  - apply map_ext_in. intros i Hi. apply in_seq in Hi.
    rewrite (append_rows_row acc more k i Hlen Hk).
    destruct (i <? k)%nat eqn:E; [reflexivity|]. apply Nat.ltb_ge in E. lia.
  - rewrite (append_rows_row acc more k k Hlen Hk).
    rewrite Nat.ltb_irrefl, Nat.sub_diag. reflexivity.
Qed.

End Append.

End ConcatFacts.

Module ApiFacts.
Import Py Pd Api FloatFacts ConcatFacts.
Local Open Scope string_scope.
Local Open Scope list_scope.

Lemma input_to_dataframe_shape r :
  List.length (input_to_dataframe r) = 19%nat
  /\ Forall (fun lc => List.length (snd lc) = 1%nat) (input_to_dataframe r).
Proof. split; [reflexivity | repeat constructor]. Qed.

Lemma rows_input_to_dataframe r :
  rows (VInt 0) (input_to_dataframe r) = [row (VInt 0) (input_to_dataframe r) 0].
Proof. reflexivity. Qed.

Lemma rows_fold_append inputs : forall acc k,
  List.length acc = 19%nat ->
  Forall (fun lc => List.length (snd lc) = k) acc ->
  rows (VInt 0) (fold_left (append_rows (A:=pyval)) (map input_to_dataframe inputs) acc)
  = rows (VInt 0) acc
    ++ map (fun r => row (VInt 0) (input_to_dataframe r) 0) inputs.
Proof.
  induction inputs as [|r inputs IH]; intros acc k Hlen Hk; simpl.
  - now rewrite app_nil_r.
  - destruct (input_to_dataframe_shape r) as [H19 H1].
    rewrite (IH _ (S k)).
    + rewrite (rows_append_rows _ (VInt 0) acc (input_to_dataframe r) k); try congruence.
      * now rewrite <- app_assoc.
      * intros ->. discriminate Hlen.
    + rewrite append_rows_length; congruence.
    + apply append_rows_columns; congruence.
Qed.

(** The frame of a batch has the records as its rows, in their order. *)
Lemma concat_inputs inputs :
  inputs <> [] ->
  exists df, concat (map input_to_dataframe inputs) = Ok df
    /\ rows (VInt 0) df
       = map (fun r => row (VInt 0) (input_to_dataframe r) 0) inputs.
Proof.
  destruct inputs as [|r inputs]; [congruence|]. intros _. simpl.
  eexists. split; [reflexivity|].
  destruct (input_to_dataframe_shape r) as [H19 H1].
  rewrite (rows_fold_append inputs _ 1%nat H19 H1).
  reflexivity.
Qed.

(** C9. With a model loaded that returns at least one value for the
    record, [predict] answers; the hours it returns are the model's first
    output clamped at zero and then rounded to two decimal places: never
    below zero (also when the model returns NaN), an infinity or the
    binary64 nearest to a decimal with two places, and exactly zero when
    the model's output is negative. *)
Theorem predict_nonnegative (m : Model) (DEFAULT_MODEL_exists : bool)
        (r : AbsenteeismInput) (p : pyfloat) (rest : list pyfloat) :
  model_predict m (input_to_dataframe r) = Ok (p :: rest) ->
  exists resp,
    predict (Some m) DEFAULT_MODEL_exists r = Ok resp
    /\ predicted_absenteeism_hours resp = round_ndigits (max0 p) 2
    /\ float_leb (FFin 0) (predicted_absenteeism_hours resp) = true
    /\ (predicted_absenteeism_hours resp = FInf false
        \/ exists k, (0 <= k)%Z
                     /\ predicted_absenteeism_hours resp = b64_of_Q (k # 100))
    /\ (float_ltb p (FFin 0) = true -> predicted_absenteeism_hours resp = FFin 0).
Proof.
  intros Hm. unfold predict. rewrite Hm. simpl.
  eexists. split; [reflexivity|]. cbn [predicted_absenteeism_hours].
  split; [reflexivity|].
  destruct (round_2_nonneg (max0 p) (max0_nonneg p)) as [H1 H2].
  split; [exact H1|]. split; [exact H2|].
  intros Hneg. now rewrite (max0_negative p Hneg).
Qed.

(** C8, as the code has it. With a model loaded: when the model returns
    a first value that is not NaN for a record, the batch of that one
    record answers with the answer of [predict] as its first prediction;
    and for a batch that is not empty, the frame handed to the model has
    the records as its rows in their order, and when the model returns one
    value per record, none of them NaN, the batch answers with one
    prediction per record in that order, each the clamped and rounded
    value of its record and not below zero, and [total] is their number. *)
Theorem batch_agrees_with_single (m : Model) (DEFAULT_MODEL_exists : bool) :
  (forall r p rest,
     model_predict m (input_to_dataframe r) = Ok (p :: rest) -> p <> FNan ->
     exists resp b,
       predict (Some m) DEFAULT_MODEL_exists r = Ok resp
       /\ predict_batch (Some m) DEFAULT_MODEL_exists [r] = Ok b
       /\ hd_error (predictions b) = Some resp)
  /\ (forall inputs, inputs <> [] ->
        exists df, concat (map input_to_dataframe inputs) = Ok df
          /\ rows (VInt 0) df
             = map (fun r => row (VInt 0) (input_to_dataframe r) 0) inputs
          /\ forall ps,
               model_predict m df = Ok ps ->
               List.length ps = List.length inputs ->
               Forall (fun p => p <> FNan) ps ->
               exists b,
                 predict_batch (Some m) DEFAULT_MODEL_exists inputs = Ok b
                 /\ predictions b
                    = map (fun p =>
                             {| predicted_absenteeism_hours :=
                                  round_ndigits (max0 p) 2;
                                model_version := version DEFAULT_MODEL_exists |}) ps
                 /\ List.length (predictions b) = List.length inputs
                 /\ total b = Z.of_nat (List.length inputs)
                 /\ Forall (fun pr =>
                              float_leb (FFin 0) (predicted_absenteeism_hours pr)
                              = true) (predictions b)).
Proof.
  split.
  - intros r p rest Hm Hp. unfold predict, predict_batch. simpl. rewrite Hm. simpl.
    eexists. eexists. split; [reflexivity|]. split; [reflexivity|]. simpl.
    now rewrite (clamps_agree p Hp).
  - intros inputs Hne. destruct (concat_inputs inputs Hne) as (df & Hdf & Hrows).
    exists df. split; [exact Hdf|]. split; [exact Hrows|].
    intros ps Hm Hlen Hnan. unfold predict_batch. rewrite Hdf. simpl.
    rewrite Hm. simpl. eexists. split; [reflexivity|].
    cbn [predictions total].
    assert (E : map (fun pred =>
                       {| predicted_absenteeism_hours := round_ndigits pred 2;
                          model_version := version DEFAULT_MODEL_exists |})
                    (map np_maximum0 ps)
                = map (fun p =>
                         {| predicted_absenteeism_hours := round_ndigits (max0 p) 2;
                            model_version := version DEFAULT_MODEL_exists |}) ps).
    { rewrite map_map. apply map_ext_in. intros p Hp.
      rewrite Forall_forall in Hnan. now rewrite (clamps_agree p (Hnan p Hp)). }
    rewrite E. split; [reflexivity|]. rewrite !length_map.
    split; [exact Hlen|]. split; [now rewrite Hlen|].
    apply Forall_forall. intros pr Hpr. apply in_map_iff in Hpr as (p & <- & _).
    cbn [predicted_absenteeism_hours].
    apply (round_2_nonneg (max0 p) (max0_nonneg p)).
Qed.

(** C8, refuted as stated: a batch of no record is a valid request, and
    [predict_batch] does not answer it with no prediction and a total of
    0; there is nothing to concatenate, and the answer is the error 400. *)
Lemma predict_batch_empty_is_error :
  predict_batch (Some stand_in_model) true [] = Raise (HTTPException 400).
Proof. reflexivity. Qed.

(** C9 on the example record, for which the stand-in model returns -0.5. *)
Lemma predict_nonnegative_example :
  model_predict stand_in_model (input_to_dataframe example_input)
  = Ok [FFin (inject_Z 2 - (5 # 2))]
  /\ exists resp,
       predict (Some stand_in_model) true example_input = Ok resp
       /\ predicted_absenteeism_hours resp
          = round_ndigits (max0 (FFin (inject_Z 2 - (5 # 2)))) 2
       /\ float_leb (FFin 0) (predicted_absenteeism_hours resp) = true
       /\ (predicted_absenteeism_hours resp = FInf false
           \/ exists k, (0 <= k)%Z
                        /\ predicted_absenteeism_hours resp = b64_of_Q (k # 100))
       /\ (float_ltb (FFin (inject_Z 2 - (5 # 2))) (FFin 0) = true ->
           predicted_absenteeism_hours resp = FFin 0).
Proof.
  split; [reflexivity|].
  apply (predict_nonnegative stand_in_model true example_input
           (FFin (inject_Z 2 - (5 # 2))) []).
  reflexivity.
Defined.

End ApiFacts.

Module TrainExamples.
Import Py Pd Train RowFacts TrainFacts SelectionFacts.
Local Open Scope string_scope.
Local Open Scope list_scope.

(** C10 on a dataset of four rows, three of them equal. *)
Lemma prepare_features_deduplicates_sample :
  wf_frame sample_dataset
  /\ has_col TARGET_COLUMN sample_dataset = true
  /\ let dd := drop_duplicates 0%Z Z.eqb sample_dataset in
     exists X y cat_cols num_cols,
       prepare_features sample_dataset TARGET_COLUMN = Ok (X, y, cat_cols, num_cols)
       /\ drop [TARGET_COLUMN] dd = Ok X
       /\ get_col TARGET_COLUMN dd = Ok y
       /\ rows 0%Z dd = first_rows Z.eqb [] (rows 0%Z sample_dataset)
       /\ NoDup (rows 0%Z dd)
       /\ (forall r, In r (rows 0%Z dd) <-> In r (rows 0%Z sample_dataset))
       /\ List.length y = List.length (rows 0%Z dd)
       /\ (~ NoDup (rows 0%Z sample_dataset) ->
           (List.length y < nrows sample_dataset)%nat)
       /\ forall (Regressor Fitted : Type) train_test_split Pipeline_fit
                 Pipeline_predict mean_absolute_error mean_squared_error r2_score
                 np_sqrt log_to_mlflow
                 (models : list (string * Regressor)) (fs : files Fitted),
            main train_test_split Pipeline_fit Pipeline_predict mean_absolute_error
                 mean_squared_error r2_score np_sqrt log_to_mlflow
                 sample_dataset models fs
            = main train_test_split Pipeline_fit Pipeline_predict mean_absolute_error
                   mean_squared_error r2_score np_sqrt log_to_mlflow dd models fs.
Proof.
  assert (Hwf : wf_frame sample_dataset) by (repeat constructor).
  split; [exact Hwf|]. split; [reflexivity|].
  apply (prepare_features_deduplicates sample_dataset TARGET_COLUMN Hwf).
  reflexivity.
Defined.

(** On the sample, four rows of which three are equal, two rows remain. *)
Lemma prepare_features_sample :
  prepare_features sample_dataset TARGET_COLUMN
  = Ok ([("Age", [33; 41]); ("Son", [2; 1])]%Z, [4; 8]%Z, [], ["Age"; "Son"]).
Proof. reflexivity. Qed.


(** Two families reach the lowest error; the one trained first is stored. *)
Lemma main_tie_keeps_first :
  let run := main toy_split toy_fit toy_predict toy_error toy_error toy_error
                  toy_sqrt toy_log sample_dataset toy_models [] in
  option_map (map (fun nr => (fst nr, test_rmse (snd nr)))) (report run)
  = Some [("RandomForest", FFin 13); ("LightGBM", FFin 4); ("CatBoost", FFin 4)]
  /\ joblib_load "models/best_model.joblib" (disk_after run) = Some (6%Q, "lgbm").
Proof. split; vm_compute; reflexivity. Qed.

End TrainExamples.

Module ApiExamples.
Import Py Pd Api ApiFacts.
Local Open Scope string_scope.

(** The batch of the example record taken twice, and the record alone. *)
Lemma predict_batch_example :
  predict_batch (Some stand_in_model) true [example_input; example_input]
  = Ok {| predictions :=
            [ {| predicted_absenteeism_hours := FFin 0;
                 model_version := Some "best_model" |};
              {| predicted_absenteeism_hours := FFin 0;
                 model_version := Some "best_model" |} ];
          total := 2 |}
  /\ predict (Some stand_in_model) true example_input
     = Ok {| predicted_absenteeism_hours := FFin 0;
             model_version := Some "best_model" |}
  /\ predict None true example_input = Raise (HTTPException 503)
  /\ valid example_input = true.
Proof. repeat split. Qed.

(** C8 on the example record: the single endpoint and the batch of one. *)
Lemma batch_agrees_with_single_example :
  model_predict stand_in_model (input_to_dataframe example_input)
  = Ok [FFin (inject_Z 2 - (5 # 2))]
  /\ FFin (inject_Z 2 - (5 # 2)) <> FNan
  /\ exists resp b,
       predict (Some stand_in_model) true example_input = Ok resp
       /\ predict_batch (Some stand_in_model) true [example_input] = Ok b
       /\ hd_error (predictions b) = Some resp.
Proof.
  split; [reflexivity|]. split; [discriminate|].
  apply (proj1 (batch_agrees_with_single stand_in_model true) example_input
           (FFin (inject_Z 2 - (5 # 2))) []).
  - reflexivity.
  - discriminate.
Defined.

End ApiExamples.

(* ===================================================================== *)
(** * The pipeline as a whole: shape, required columns, failures *)
(* ===================================================================== *)

Module ShapeFacts.
Import Py Pd Features PdFacts UpdateFacts FeaturesFacts CleaningFacts.
Local Open Scope string_scope.

Lemma same_shape_refl {A : Type} (df : frame (list A)) : same_shape df df.
Proof. induction df; constructor; auto. Qed.

Lemma same_shape_trans {A B C : Type} (df1 : frame (list A)) (df2 : frame (list B))
      (df3 : frame (list C)) :
  same_shape df1 df2 -> same_shape df2 df3 -> same_shape df1 df3.
Proof.
  intros H12. revert df3. induction H12 as [|c1 c2 df1 df2 [Hl Hn] _ IH];
    intros df3 H23; inversion H23 as [|? c3 ? df3' [Hl' Hn'] H']; subst;
    constructor.
  - split; congruence.
  - now apply IH.
Qed.

Lemma same_shape_map_columns {A B : Type} (f : list A -> list B)
      (df : frame (list A)) :
  (forall c, List.length (f c) = List.length c) ->
  same_shape df (map_columns f df).
Proof.
  intros Hf. induction df as [|[l c] df IH]; constructor; auto.
  simpl. split; [reflexivity | now rewrite Hf].
Qed.

Lemma same_shape_set_col {A : Type} l (c c' : list A) (df : frame (list A)) :
  get_col l df = Ok c -> List.length c' = List.length c ->
  same_shape df (set_col l c' df).
Proof.
  intros Hc Hlen. induction df as [|[l0 c0] df IH]; simpl in *; [discriminate|].
  destruct (String.eqb l l0) eqn:E.
  - apply Ok_inj in Hc. subst c0. constructor; [|apply same_shape_refl].
    simpl. split; [reflexivity | now rewrite Hlen].
  - constructor; [split; reflexivity | now apply IH].
Qed.

Lemma mapM_length {A B : Type} (f : A -> result B) xs ys :
  mapM f xs = Ok ys -> List.length ys = List.length xs.
Proof.
  intros H. apply mapM_Forall2 in H. symmetry. eapply Forall2_length; eauto.
Qed.

Lemma same_shape_mapM_columns {A B : Type} (f : list A -> result (list B)) df df' :
  (forall c c', f c = Ok c' -> List.length c' = List.length c) ->
  mapM_columns f df = Ok df' -> same_shape df df'.
Proof.
  intros Hf H. apply mapM_columns_Forall2 in H.
  eapply Forall2_impl; [|exact H]. intros [l c] [l' c'] [Hl Hc]; simpl in *.
  split; [exact Hl|]. symmetry. now apply Hf.
Qed.

(** A loop of column updates keeps the shape when every update keeps the
    length of its column. *)
Lemma same_shape_foldM_update {A : Type}
      (rules : list (string * (frame (list A) -> list A -> result (list A)))) :
  Forall (fun r => forall df c c', snd r df c = Ok c' ->
                                   List.length c' = List.length c) rules ->
  forall X X',
    foldM (fun df r => update_col (fst r) (snd r) df) rules X = Ok X' ->
    same_shape X X'.
Proof.
  intros Hlen X X' H.
  apply (foldM_invariant (fun df => same_shape X df)) in H; auto.
  - intros s r s' Hin Hs Hb.
    apply update_col_inv in Hb as (c & c' & Hc & Hg & ->).
    apply (same_shape_trans _ _ _ Hs).
    apply (same_shape_set_col _ c); [exact Hc|].
    rewrite Forall_forall in Hlen. exact (Hlen r Hin _ _ _ Hg).
  - apply same_shape_refl.
Qed.

Lemma FixInvalidValues_shape X X' :
  FixInvalidValues.transform X = Ok X' -> same_shape X X'.
Proof.
  rewrite FixInvalidValues_as_rules. apply same_shape_foldM_update.
  unfold FixInvalidValues.rules. apply Forall_app. split; apply Forall_forall;
    intros r Hr; apply in_map_iff in Hr as ([l dom] & <- & _); simpl;
    intros df c c' H; now apply mapM_length in H.
Qed.

Lemma clip_length lower upper col :
  List.length (clip lower upper col) = List.length col.
Proof.
  unfold clip.
  destruct lower as [l|], upper as [u|]; try destruct (Qle_bool l u);
    apply length_map.
Qed.

Lemma WinsorizeIQR_shape X X' :
  WinsorizeIQR.transform X = Ok X' -> same_shape X X'.
Proof.
  intros H.
  assert (E : WinsorizeIQR.transform X
              = foldM (fun df r => update_col (fst r) (snd r) df)
                      (map (fun l => (l, fun (_ : frame numcol) c =>
                                           Ok (WinsorizeIQR.winsorize c)))
                           WinsorizeIQR.columns) X) by reflexivity.
  rewrite E in H. revert H. apply same_shape_foldM_update.
  apply Forall_forall. intros r Hr. apply in_map_iff in Hr as (l & <- & _).
  simpl. intros df c c' Hc. apply Ok_inj in Hc. subst c'.
  unfold WinsorizeIQR.winsorize. apply clip_length.
Qed.

Lemma drop_Ok_filter {C : Type} ls (df df' : frame C) :
  drop ls df = Ok df' ->
  df' = filter (fun lc => negb (existsb (String.eqb (fst lc)) ls)) df.
Proof.
  unfold drop. destruct (filter _ ls); [|discriminate].
  intros H. now apply Ok_inj in H.
Qed.

(** The stages after the first keep the shape of what they are given. *)
Lemma stages_keep_shape (X1 : frame series) X4 X5 X' :
  FixInvalidValues.transform
    (map_columns (fun col => map SafeRoundToInt.safe_convert (values col))
       (map_columns (fun col => match col with
                                | SObject xs =>
                                    SObject (map StripObjectColumns.astype_str_strip xs)
                                | _ => col
                                end) X1)) = Ok X4 ->
  WinsorizeIQR.transform X4 = Ok X5 ->
  FinalIntConversion.transform
    (map_columns (fun col => fillna (median col) col) X5) = Ok X' ->
  same_shape (map_columns values X1) X'.
Proof.
  intros H4 H5 H7.
  apply FixInvalidValues_shape in H4. apply WinsorizeIQR_shape in H5.
  apply same_shape_mapM_columns in H7;
    [|intros c c' Hc; now apply mapM_length in Hc].
  refine (same_shape_trans _ _ _ _ (same_shape_trans _ _ _ H4
            (same_shape_trans _ _ _ H5 (same_shape_trans _ _ _ _ H7)))).
  - unfold map_columns. rewrite !map_map. simpl.
    clear. induction X1 as [|[l c] X1 IH]; constructor; auto.
    simpl. split; [reflexivity|]. rewrite length_map.
    destruct c; simpl; now rewrite ?length_map.
  - apply same_shape_map_columns. intros c. unfold fillna. apply length_map.
Qed.

(** X1. The pipeline keeps the layout of the table. A successful run
    returns the columns of the raw dataset other than [ID] and
    [mixed_type_col], under their labels and in their order, and every
    column has as many cells as it had: no column besides these two is
    added, dropped or moved, and the number of rows is kept. *)
Theorem fit_transform_keeps_shape X X' :
  fit_transform X = Ok X' ->
  exists X1,
    DropColumns.transform X = Ok X1
    /\ X1 = filter (fun lc => negb (existsb (String.eqb (fst lc))
                                            ["ID"; "mixed_type_col"])) X
    /\ same_shape (map_columns values X1) X'.
Proof.
  intros H. apply fit_transform_inv in H as (X1 & X4 & X5 & H1 & H4 & H5 & H7).
  exists X1. split; [exact H1|]. split.
  - now apply drop_Ok_filter.
  - exact (stages_keep_shape X1 X4 X5 X' H4 H5 H7).
Qed.

End ShapeFacts.

Module FailureFacts.
Import Py Pd Features PdFacts UpdateFacts ModeFacts FeaturesFacts CleaningFacts.
Local Open Scope string_scope.

Lemma bind_Raise_inv {A B : Type} (c : result A) (k : A -> result B) e :
  bind c k = Raise e -> c = Raise e \/ exists a, c = Ok a /\ k a = Raise e.
Proof.
  destruct c as [a|e0]; simpl; [eauto|].
  intros H. left. injection H as ->. reflexivity.
Qed.

Lemma mapM_Raise_inv {A B : Type} (f : A -> result B) xs e :
  mapM f xs = Raise e -> exists x, In x xs /\ f x = Raise e.
Proof.
  induction xs as [|x xs IH]; simpl; [discriminate|]. intros H.
  apply bind_Raise_inv in H as [H|(y & Hy & H)]; [exists x; auto|].
  apply bind_Raise_inv in H as [H|(ys & _ & H)]; [|discriminate].
  destruct (IH H) as (x' & Hin & Hx'). exists x'. auto.
Qed.

Lemma foldM_Raise_inv {A S : Type} (body : S -> A -> result S) xs : forall s e,
  foldM body xs s = Raise e -> exists s0 x, In x xs /\ body s0 x = Raise e.
Proof.
  induction xs as [|x xs IH]; intros s e H; simpl in H; [discriminate|].
  apply bind_Raise_inv in H as [H|(s1 & _ & H)].
  - exists s, x. simpl. auto.
  - destruct (IH _ _ H) as (s0 & x' & Hin & Hx'). exists s0, x'. simpl. auto.
Qed.

Lemma update_col_Raise_inv {C : Type} l (g : frame C -> C -> result C) df e :
  update_col l g df = Raise e ->
  e = KeyError l \/ exists c, g df c = Raise e.
Proof.
  unfold update_col. intros H.
  apply bind_Raise_inv in H as [H|(c & _ & H)].
  - left. now apply get_col_Raise in H.
  - right. exists c. apply bind_Raise_inv in H as [H|(c' & _ & H)];
      [exact H | discriminate].
Qed.

(** Whatever the fourth stage raises is a [KeyError]: of a column that is
    absent, or of the position 0 of an empty list of modes. *)
Lemma FixInvalidValues_raises_KeyError X e :
  FixInvalidValues.transform X = Raise e -> exists l, e = KeyError l.
Proof.
  rewrite FixInvalidValues_as_rules. intros H.
  apply foldM_Raise_inv in H as (df & r & Hr & H).
  apply update_col_Raise_inv in H as [->|(c & H)]; [eauto|].
  unfold FixInvalidValues.rules in Hr.
  apply in_app_or in Hr as [Hr|Hr]; apply in_map_iff in Hr as ([l dom] & <- & _);
    simpl in H; apply mapM_Raise_inv in H as (x & _ & H).
  - discriminate.
  - destruct (FixInvalidValues.py_in x dom); [discriminate|].
    unfold FixInvalidValues.mode0 in H.
    apply bind_Raise_inv in H as [H|(col & _ & H)].
    + apply get_col_Raise in H as [-> _]. eauto.
    + apply bind_Raise_inv in H as [H|(m & _ & H)]; [|discriminate].
      unfold mode_first in H. destruct (dropna col); [|discriminate].
      apply eq_sym in H. injection H as ->. eauto.
Qed.

Lemma WinsorizeIQR_raises_KeyError X e :
  WinsorizeIQR.transform X = Raise e -> exists l, e = KeyError l.
Proof.
  unfold WinsorizeIQR.transform. intros H.
  apply foldM_Raise_inv in H as (df & l & _ & H).
  apply update_col_Raise_inv in H as [->|(c & H)]; [eauto | discriminate].
Qed.

Lemma DropColumns_raises_KeyError {C : Type} (X : frame C) e :
  DropColumns.transform X = Raise e -> exists l, e = KeyError l.
Proof.
  unfold DropColumns.transform, drop.
  destruct (filter _ _) as [|l ?]; [discriminate|].
  intros H. injection H as <-. eauto.
Qed.

Lemma has_col_map_columns {C D : Type} (f : C -> D) (df : frame C) l :
  has_col l (map_columns f df) = has_col l df.
Proof. unfold has_col. now rewrite columns_map_columns. Qed.

(** The columns a run cannot do without: the two the first stage removes,
    the eight the fourth stage repairs and the twelve the fifth stage
    clips. *)
Lemma stages_Ok_have_columns X X1 X4 X5 label :
  DropColumns.transform X = Ok X1 ->
  FixInvalidValues.transform
    (map_columns (fun col => map SafeRoundToInt.safe_convert (values col))
       (map_columns (fun col => match col with
                                | SObject xs =>
                                    SObject (map StripObjectColumns.astype_str_strip xs)
                                | _ => col
                                end) X1)) = Ok X4 ->
  WinsorizeIQR.transform X4 = Ok X5 ->
  In label (["ID"; "mixed_type_col"]
              ++ map fst (FixInvalidValues.zero_repaired
                            ++ FixInvalidValues.mode_repaired)
              ++ WinsorizeIQR.columns) ->
  has_col label X = true.
Proof.
  intros H1 H4 H5 Hin.
  apply in_app_or in Hin as [Hin|Hin].
  - unfold DropColumns.transform, drop in H1. simpl in H1.
    destruct (has_col "ID" X) eqn:E1; simpl in H1; [|discriminate].
    destruct (has_col "mixed_type_col" X) eqn:E2; simpl in H1; [|discriminate].
    destruct Hin as [<-|[<-|[]]]; assumption.
  - assert (Hcols : forall l, has_col l X1 = true -> has_col l X = true).
    { intros l Hl. apply has_col_In in Hl. apply has_col_In.
      unfold DropColumns.transform in H1.
      rewrite (drop_Ok_columns _ _ _ _ H1) in Hl.
      now apply filter_In in Hl as [Hl _]. }
    apply Hcols.
    apply in_app_or in Hin as [Hin|Hin].
    + destruct (FixInvalidValues_repairs _ _ H4) as (Hz & Hm & _).
      rewrite map_app in Hin. apply in_app_or in Hin as [Hin|Hin];
        apply in_map_iff in Hin as ([l dom] & <- & Hin); simpl.
      * destruct (Hz _ _ Hin) as (col & Hc & _).
        apply get_col_Ok_has in Hc. now rewrite !has_col_map_columns in Hc.
      * destruct (Hm _ _ Hin) as (col & col' & Hc & _).
        apply get_col_Ok_has in Hc. now rewrite !has_col_map_columns in Hc.
    + destruct (WinsorizeIQR_get _ _ _ H5 Hin) as (col & Hc & _).
      apply get_col_Ok_has in Hc. apply has_col_In in Hc.
      rewrite (FixInvalidValues_columns _ _ H4) in Hc. apply has_col_In in Hc.
      now rewrite !has_col_map_columns in Hc.
Qed.

(** X2. Every one of the twenty-two columns the stages name is required. On a
    raw dataset that lacks one of them (the identifier, the mixed-type
    column, one of the eight categorical columns or one of the twelve
    columns of the outlier list) the pipeline returns no dataset: it
    raises a [KeyError]. *)
Theorem fit_transform_requires_columns X label :
  In label (["ID"; "mixed_type_col"]
              ++ map fst (FixInvalidValues.zero_repaired
                            ++ FixInvalidValues.mode_repaired)
              ++ WinsorizeIQR.columns) ->
  has_col label X = false ->
  exists l, fit_transform X = Raise (KeyError l).
Proof.
  intros Hin Hno. unfold fit_transform.
  destruct (DropColumns.transform X) as [X1|e1] eqn:E1; simpl.
  2:{ destruct (DropColumns_raises_KeyError _ _ E1) as (l & ->). eauto. }
  unfold StripObjectColumns.transform, SafeRoundToInt.transform. simpl.
  destruct (FixInvalidValues.transform _) as [X4|e4] eqn:E4; simpl.
  2:{ destruct (FixInvalidValues_raises_KeyError _ _ E4) as (l & ->). eauto. }
  destruct (WinsorizeIQR.transform X4) as [X5|e5] eqn:E5; simpl.
  2:{ destruct (WinsorizeIQR_raises_KeyError _ _ E5) as (l & ->). eauto. }
  rewrite (stages_Ok_have_columns _ _ _ _ _ E1 E4 E5 Hin) in Hno. discriminate.
Qed.

(** ** A column without any value *)

Lemma mapM_Raise_first {A B : Type} (f : A -> result B) xs x e0 :
  In x xs -> f x = Raise e0 ->
  (forall y e, f y = Raise e -> e = ValueError) ->
  mapM f xs = Raise ValueError.
Proof.
  intros Hin Hx Hall. induction xs as [|y xs IH]; [destruct Hin|]. simpl.
  destruct (f y) as [b|e] eqn:Ey; simpl.
  - destruct Hin as [->|Hin]; [congruence|]. now rewrite (IH Hin).
  - now rewrite (Hall _ _ Ey).
Qed.

Lemma round_astype_int_raises col e :
  round_astype_int col = Raise e -> e = ValueError.
Proof.
  unfold round_astype_int. intros H.
  apply mapM_Raise_inv in H as ([x|] & _ & H); [discriminate|].
  now injection H as <-.
Qed.

(** X3. The sixth stage fills with the median of the non-missing cells, and a
    column without any has none. When, on a plain raw dataset (its texts
    ASCII, its numbers at most 2^48 in magnitude), a column that has
    cells, all of them missing, leaves the fifth stage, the run returns no
    dataset: the cast to integers of the last stage raises [ValueError]. *)
Theorem all_missing_column_is_rejected X X5 label col :
  plain X = true -> stages_1_5 X = Ok X5 -> In (label, col) X5 ->
  col <> [] -> dropna col = [] ->
  fit_transform X = Raise ValueError.
Proof.
  intros _ H5 Hin Hne Hall.
  rewrite fit_transform_stages. unfold stages_1_6. rewrite H5. simpl.
  unfold FinalIntConversion.transform, mapM_columns.
  apply (mapM_Raise_first _ _ (label, fillna (median col) col) ValueError).
  - unfold map_columns. apply in_map_iff. exists (label, col). auto.
  - simpl. unfold median. rewrite Hall. simpl.
    destruct col as [|[x|] col]; [congruence | discriminate Hall |].
    reflexivity.
  - intros [l c] e H. simpl in H.
    destruct (round_astype_int c) eqn:Ec; simpl in H; [discriminate|].
    injection H as <-. now apply round_astype_int_raises in Ec.
Qed.

End FailureFacts.

(* ===================================================================== *)
(** * The third stage on cells that are integers already *)
(* ===================================================================== *)

Module IntegerFacts.
Import Py Pd Features PdFacts PyFacts CleaningFacts.
Local Open Scope Z_scope.

Lemma round_half_even_whole n : round_half_even (n # 1) = n.
Proof. exact (round_half_even_inject_Z n). Qed.

Lemma Qred_inject_Z z : Qred (inject_Z z) = inject_Z z.
Proof.
  unfold Qred, inject_Z.
  generalize (Z.ggcd_gcd z 1) (Z.ggcd_correct_divisors z 1).
  destruct (Z.ggcd z 1) as (g, (q1, q2)). simpl. intros Hg [H1 H2].
  rewrite Z.gcd_1_r in Hg. subst g.
  assert (Hq1 : z = q1) by lia. assert (Hq2 : q2 = 1) by lia.
  rewrite Hq1, Hq2. reflexivity.
Qed.

Lemma Qred_whole q z : (q == inject_Z z)%Q -> Qred q = inject_Z z.
Proof. intros H. rewrite (Qred_complete _ _ H). apply Qred_inject_Z. Qed.

(** An integer of magnitude below 2^53 is a binary64 value. *)
Lemma b64_of_Q_small_int z :
  Z.abs z < 2 ^ 53 -> b64_of_Q (inject_Z z) = FFin (inject_Z z).
Proof.
  intros Hz. unfold b64_of_Q. cbn [Qnum Qden inject_Z].
  destruct (z =? 0) eqn:E0.
  { apply Z.eqb_eq in E0. now subst. }
  apply Z.eqb_neq in E0.
  set (a := Z.abs z). assert (Ha : 0 < a) by (unfold a; lia).
  change (Z.log2 1) with 0. rewrite Z.sub_0_r.
  pose proof (Z.log2_spec a Ha) as [Hlo Hhi].
  pose proof (Z.log2_nonneg a) as HL.
  set (L := Z.log2 a) in *.
  assert (HL52 : L <= 52).
  { destruct (Z_le_gt_dec L 52) as [H|H]; [exact H|].
    assert (2 ^ 53 <= 2 ^ L) by (apply Z.pow_le_mono_r; lia). unfold a in *. lia. }
  set (k := 52 - L). assert (Hk : 0 <= k) by (unfold k; lia).
  replace (L - 52) with (- k) by (unfold k; lia).
  assert (Hpow : 2 ^ 52 = 2 ^ L * 2 ^ k).
  { rewrite <- Z.pow_add_r by lia. f_equal. unfold k. lia. }
  assert (Hk0 : 0 < 2 ^ k) by (apply Z.pow_pos_nonneg; lia).
  assert (Hsc : (scaled a 1 (- k) == inject_Z (a * 2 ^ k))%Q
                /\ round_half_even (scaled a 1 (- k)) = a * 2 ^ k).
  { unfold scaled. destruct (0 <=? - k) eqn:Ek.
    - apply Z.leb_le in Ek. assert (k = 0) by lia.
      replace (- k) with 0 by lia. replace (2 ^ k) with 1 by (subst k; now rewrite H).
      simpl. rewrite Z.mul_1_r. split; [reflexivity | apply round_half_even_whole].
    - rewrite Z.opp_involutive. simpl. split; [reflexivity|].
      apply round_half_even_whole. }
  destruct Hsc as [Hsc Hm].
  assert (Hge : Qle_bool (inject_Z (2 ^ 52)) (scaled a 1 (- k)) = true).
  { apply Qle_bool_iff. rewrite Hsc. rewrite <- Zle_Qle. rewrite Hpow. nia. }
  rewrite Hge. rewrite Z.max_l by lia. rewrite Hm.
  assert (Hdy : forall s, (dyadic (s * (a * 2 ^ k)) (- k) == inject_Z (s * a))%Q).
  { intros s. unfold dyadic. destruct (0 <=? - k) eqn:Ek.
    - apply Z.leb_le in Ek. assert (Hk' : k = 0) by lia. rewrite Hk'. simpl.
      rewrite !Z.mul_1_r. reflexivity.
    - rewrite Z.opp_involutive. unfold Qeq. simpl.
      rewrite Z2Pos.id by lia. ring. }
  assert (Hlt : Qle_bool (inject_Z (2 ^ 1024)) (dyadic (a * 2 ^ k) (- k)) = false).
  { apply not_true_is_false. intros H. apply Qle_bool_iff in H.
    specialize (Hdy 1). rewrite !Z.mul_1_l in Hdy. rewrite Hdy in H.
    rewrite <- Zle_Qle in H.
    assert (2 ^ 53 < 2 ^ 1024) by (apply Z.pow_lt_mono_r; lia). unfold a in *. lia. }
  rewrite Hlt. f_equal. apply Qred_whole.
  destruct (z <? 0) eqn:En.
  - apply Z.ltb_lt in En. specialize (Hdy (-1)).
    replace (-1 * (a * 2 ^ k)) with (- (a * 2 ^ k)) in Hdy by ring.
    rewrite Hdy. replace (-1 * a) with z by (unfold a; lia). reflexivity.
  - apply Z.ltb_ge in En. specialize (Hdy 1). rewrite !Z.mul_1_l in Hdy.
    rewrite Hdy. replace a with z by (unfold a; lia). reflexivity.
Qed.

Lemma b64_of_Q_int z :
  Z.abs z <= 2 ^ 53 -> b64_of_Q (inject_Z z) = FFin (inject_Z z).
Proof.
  intros Hz. destruct (Z_lt_le_dec (Z.abs z) (2 ^ 53)) as [H|H].
  - now apply b64_of_Q_small_int.
  - assert (Hz' : z = 2 ^ 53 \/ z = - 2 ^ 53) by lia.
    destruct Hz' as [->| ->]; vm_compute; reflexivity.
Qed.

Lemma safe_convert_int z :
  Z.abs z <= 2 ^ 53 -> SafeRoundToInt.safe_convert (VInt z) = Some (inject_Z z).
Proof.
  intros Hz. pose proof (safe_convert_cases (VInt z)) as H.
  cbn [py_float] in H. rewrite (b64_of_Q_int z Hz) in H.
  now rewrite round_half_even_inject_Z in H.
Qed.

Lemma safe_convert_ints (col : list Z) :
  Forall (fun z => Z.abs z <= 2 ^ 53) col ->
  map SafeRoundToInt.safe_convert (values (SInt col))
  = map (fun z => Some (inject_Z z)) col.
Proof.
  intros Hall. simpl. rewrite map_map. apply map_ext_in. intros z Hz.
  apply safe_convert_int. rewrite Forall_forall in Hall. now apply Hall.
Qed.

(** X4. The third stage leaves integers as they are. On a frame of integer
    columns whose cells are at most 2^53 in magnitude (the integers
    [float] takes without rounding) it returns the same cells, none
    missing. *)
Theorem SafeRoundToInt_keeps_integers (df : frame (list Z)) :
  Forall (fun lc => Forall (fun z => Z.abs z <= 2 ^ 53) (snd lc)) df ->
  SafeRoundToInt.transform (as_raw df)
  = Ok (map_columns (map (fun z => Some (inject_Z z))) df).
Proof.
  intros Hall. unfold SafeRoundToInt.transform, as_raw, map_columns. f_equal.
  rewrite map_map. apply map_ext_in. intros [l c] Hin. simpl fst. simpl snd. f_equal.
  apply safe_convert_ints.
  rewrite Forall_forall in Hall. exact (Hall _ Hin).
Qed.

(** Past 2^53 the conversion to [float] rounds, and the cell changes. *)
Example safe_convert_rounds_large_integer :
  SafeRoundToInt.safe_convert (VInt (2 ^ 53 + 1)) = Some (inject_Z (2 ^ 53)).
Proof. vm_compute. reflexivity. Qed.

End IntegerFacts.

(* ===================================================================== *)
(** * The fifth stage cell by cell *)
(* ===================================================================== *)

Module WinsorizeFacts.
Import Py Pd Features PdFacts PyFacts NumFacts UpdateFacts FeaturesFacts CleaningFacts.
Local Open Scope string_scope.
Local Open Scope Q_scope.

Lemma quantile_None col q : quantile col q = None <-> dropna col = [].
Proof.
  unfold quantile. split.
  - destruct (sort_values (dropna col)) as [|x xs] eqn:E; [|discriminate].
    intros _. apply (f_equal (@List.length Q)) in E.
    rewrite sort_values_length in E. now destruct (dropna col).
  - now intros ->.
Qed.

Lemma map_option_map_id {A : Type} (l : list (option A)) :
  map (option_map (fun x => x)) l = l.
Proof. induction l as [|[x|] l IH]; simpl; now rewrite ?IH. Qed.

Lemma winsorize_no_value col :
  dropna col = [] -> WinsorizeIQR.winsorize col = col.
Proof.
  intros H. unfold WinsorizeIQR.winsorize.
  rewrite (proj2 (quantile_None col (1 # 4)) H).
  rewrite (proj2 (quantile_None col (3 # 4)) H). simpl.
  apply map_option_map_id.
Qed.

(** One column through [winsorize]: what becomes of each cell. *)
Lemma winsorize_cells col Q1 Q3 :
  quantile col (1 # 4) = Some Q1 -> quantile col (3 # 4) = Some Q3 ->
  Q1 <= Q3
  /\ Forall2 (fun x y =>
                match x, y with
                | None, None => True
                | Some v, Some w =>
                    (v < Q1 - (3 # 2) * (Q3 - Q1) -> w = Q1 - (3 # 2) * (Q3 - Q1))
                    /\ (Q3 + (3 # 2) * (Q3 - Q1) < v -> w = Q3 + (3 # 2) * (Q3 - Q1))
                    /\ (Q1 - (3 # 2) * (Q3 - Q1) <= v <= Q3 + (3 # 2) * (Q3 - Q1)
                        -> w = v)
                | _, _ => False
                end) col (WinsorizeIQR.winsorize col).
Proof.
  intros H1 H3.
  assert (Hq : Q1 <= Q3) by (eapply (quantile_mono col (1 # 4) (3 # 4)); eauto; lra).
  split; [exact Hq|].
  unfold WinsorizeIQR.winsorize. rewrite H1, H3. simpl.
  set (lo := Q1 - (3 # 2) * (Q3 - Q1)). set (hi := Q3 + (3 # 2) * (Q3 - Q1)).
  assert (Hle : lo <= hi) by (unfold lo, hi; lra).
  unfold clip. assert (E : Qle_bool lo hi = true) by now apply Qle_bool_iff.
  rewrite E. clearbody lo hi. clear - Hle.
  induction col as [|[v|] col IH]; simpl; constructor; auto.
  destruct (Qlt_bool v lo) eqn:E1.
  - apply Qlt_bool_iff in E1. destruct (Qlt_bool hi lo) eqn:E2.
    + apply Qlt_bool_iff in E2. lra.
    + split; [|split]; intros; try reflexivity; exfalso; lra.
  - apply Qlt_bool_false in E1. destruct (Qlt_bool hi v) eqn:E2.
    + apply Qlt_bool_iff in E2. split; [|split]; intros; try reflexivity; exfalso; lra.
    + apply Qlt_bool_false in E2. split; [|split]; intros; try reflexivity; exfalso; lra.
Qed.

(** X5. The fifth stage moves outliers and nothing else, on a frame of
    small cells (missing, or integers at most 2^48 in magnitude, on which
    the quartiles and fences of binary64 are the exact ones). It leaves
    every column outside its list as it is. In a listed column a missing cell
    stays missing, a value below the lower fence [Q1 - 1.5 * IQR] becomes
    that fence, a value above the upper fence [Q3 + 1.5 * IQR] becomes
    that fence, and a value between the fences (which are in this order,
    as [Q1 <= Q3]) is unchanged; a listed column without any value is
    unchanged. *)
Theorem WinsorizeIQR_moves_only_outliers X X5 :
  small_frame X = true -> WinsorizeIQR.transform X = Ok X5 ->
  (forall label, ~ In label WinsorizeIQR.columns -> get_col label X5 = get_col label X)
  /\ forall label, In label WinsorizeIQR.columns ->
       exists col col5,
         get_col label X = Ok col /\ get_col label X5 = Ok col5
         /\ (dropna col = [] -> col5 = col)
         /\ forall Q1 Q3,
              quantile col (1 # 4) = Some Q1 -> quantile col (3 # 4) = Some Q3 ->
              Q1 <= Q3
              /\ Forall2 (fun x y =>
                   match x, y with
                   | None, None => True
                   | Some v, Some w =>
                       (v < Q1 - (3 # 2) * (Q3 - Q1)
                        -> w = Q1 - (3 # 2) * (Q3 - Q1))
                       /\ (Q3 + (3 # 2) * (Q3 - Q1) < v
                           -> w = Q3 + (3 # 2) * (Q3 - Q1))
                       /\ (Q1 - (3 # 2) * (Q3 - Q1) <= v <= Q3 + (3 # 2) * (Q3 - Q1)
                           -> w = v)
                   | _, _ => False
                   end) col col5.
Proof.
  intros _ H. split.
  - intros label Hl. now apply WinsorizeIQR_other.
  - intros label Hl. destruct (WinsorizeIQR_get _ _ _ H Hl) as (col & Hc & Hc5).
    exists col, (WinsorizeIQR.winsorize col).
    split; [exact Hc|]. split; [exact Hc5|]. split.
    + apply winsorize_no_value.
    + intros Q1 Q3. apply winsorize_cells.
Qed.

(** A column whose values all lie between its own fences goes through
    [winsorize] unchanged. *)
Lemma winsorize_inliers col Q1 Q3 :
  quantile col (1 # 4) = Some Q1 -> quantile col (3 # 4) = Some Q3 ->
  Forall (within (Q1 - (3 # 2) * (Q3 - Q1)) (Q3 + (3 # 2) * (Q3 - Q1))) col ->
  WinsorizeIQR.winsorize col = col.
Proof.
  intros H1 H3 Hall. destruct (winsorize_cells col Q1 Q3 H1 H3) as [_ H].
  revert H Hall. generalize (WinsorizeIQR.winsorize col) as col'.
  clear. intros col' H.
  induction H as [|x y col col' Hxy _ IH]; intros Hall; [reflexivity|].
  inversion Hall as [|? ? Hx Hall']; subst. f_equal; [|now apply IH].
  destruct x as [v|], y as [w|]; try contradiction; [|reflexivity].
  destruct Hxy as (_ & _ & Hin). f_equal. apply Hin. exact Hx.
Qed.

End WinsorizeFacts.

(* ===================================================================== *)
(** * A dataset that needs no cleaning *)
(* ===================================================================== *)

Module FixpointFacts.
Import Py Pd Features PdFacts PyFacts NumFacts UpdateFacts FeaturesFacts CleaningFacts.
Import IntegerFacts WinsorizeFacts.
Local Open Scope string_scope.

Lemma set_col_same {C : Type} l (c : C) (df : frame C) :
  get_col l df = Ok c -> set_col l c df = df.
Proof.
  induction df as [|[l0 c0] df IH]; simpl; [discriminate|].
  destruct (String.eqb l l0) eqn:E.
  - intros H. apply Ok_inj in H. now subst.
  - intros H. now rewrite IH.
Qed.

(** A loop of column updates, each of which returns its column as it
    found it, returns the frame as it found it. *)
Lemma foldM_update_id {C : Type}
      (rules : list (string * (frame C -> C -> result C))) (X : frame C) :
  Forall (fun r => exists c, get_col (fst r) X = Ok c /\ snd r X c = Ok c) rules ->
  foldM (fun df r => update_col (fst r) (snd r) df) rules X = Ok X.
Proof.
  induction 1 as [|r rules (c & Hc & Hg) _ IH]; simpl; [reflexivity|].
  unfold update_col at 1. rewrite Hc. simpl. rewrite Hg. simpl.
  now rewrite (set_col_same _ _ _ Hc).
Qed.

Lemma mapM_id {A : Type} (f : A -> result A) xs :
  Forall (fun x => f x = Ok x) xs -> mapM f xs = Ok xs.
Proof.
  induction 1 as [|x xs Hx _ IH]; simpl; [reflexivity|]. now rewrite Hx, IH.
Qed.

Lemma py_in_inject_Z z dom :
  FixInvalidValues.py_in (Some (inject_Z z)) dom = true <-> In z dom.
Proof.
  unfold FixInvalidValues.py_in. rewrite existsb_exists. split.
  - intros (k & Hk & E). apply Qeq_bool_iff in E.
    unfold Qeq in E. simpl in E. rewrite !Z.mul_1_r in E. now subst.
  - intros H. exists z. split; [exact H | apply Qeq_bool_iff; reflexivity].
Qed.

Lemma In_by_eqb z dom : existsb (Z.eqb z) dom = true -> In z dom.
Proof.
  intros H. apply existsb_exists in H as (k & Hk & E).
  apply Z.eqb_eq in E. now subst.
Qed.

Lemma dropna_map_Some (col : list Z) :
  dropna (map (fun z => Some (inject_Z z)) col) = map inject_Z col.
Proof. induction col; simpl; now rewrite ?IHcol. Qed.

Lemma fillna_map_Some v (col : list Z) :
  fillna v (map (fun z => Some (inject_Z z)) col)
  = map (fun z => Some (inject_Z z)) col.
Proof. unfold fillna. rewrite map_map. reflexivity. Qed.

Lemma round_astype_int_map_Some (col : list Z) :
  round_astype_int (map (fun z => Some (inject_Z z)) col) = Ok col.
Proof.
  unfold round_astype_int.
  induction col as [|z col IH]; simpl; [reflexivity|].
  now rewrite IH, round_half_even_inject_Z.
Qed.

(** X6. The pipeline returns a dataset that needs no cleaning as it is. When
    the first stage hands on integer columns [df] whose cells are at most
    2^48 in magnitude (so that their quartiles and fences are exact in
    binary64), in which every categorical column holds values of
    its domain only and no value of a column of the outlier list lies
    outside the fences of that column, the run succeeds and its result is
    [df] itself. *)
Theorem fit_transform_of_clean_dataset (X : frame series) (df : frame (list Z)) :
  DropColumns.transform X = Ok (as_raw df) ->
  Forall (fun lc => Forall (fun z => (Z.abs z <= 2 ^ 48)%Z) (snd lc)) df ->
  Forall (fun ld => exists col, get_col (fst ld) df = Ok col
                                /\ Forall (fun z => In z (snd ld)) col)
         (FixInvalidValues.zero_repaired ++ FixInvalidValues.mode_repaired) ->
  Forall (fun label =>
            exists col, get_col label df = Ok col
              /\ forall Q1 Q3,
                   quantile (map (fun z => Some (inject_Z z)) col) (1 # 4) = Some Q1 ->
                   quantile (map (fun z => Some (inject_Z z)) col) (3 # 4) = Some Q3 ->
                   Forall (fun z => Q1 - (3 # 2) * (Q3 - Q1) <= inject_Z z
                                    /\ inject_Z z <= Q3 + (3 # 2) * (Q3 - Q1))%Q col)
         WinsorizeIQR.columns ->
  fit_transform X = Ok df.
Proof.
  intros H1 Hb Hcat Hwin.
  set (X3 := map_columns (map (fun z => Some (inject_Z z))) df).
  assert (Hget : forall l col, get_col l df = Ok col ->
                   get_col l X3 = Ok (map (fun z => Some (inject_Z z)) col)).
  { intros l col Hc. unfold X3. rewrite get_col_map_columns, Hc. reflexivity. }
  assert (H4 : FixInvalidValues.transform X3 = Ok X3).
  { rewrite FixInvalidValues_as_rules. apply foldM_update_id.
    unfold FixInvalidValues.rules. apply Forall_app in Hcat as [Hz Hm].
    apply Forall_app. split; apply Forall_forall; intros r Hr;
      apply in_map_iff in Hr as ([l dom] & <- & Hin); simpl.
    - rewrite Forall_forall in Hz. destruct (Hz _ Hin) as (col & Hc & Hdom).
      simpl in Hc, Hdom. eexists. split; [exact (Hget _ _ Hc)|].
      apply mapM_id. apply Forall_forall. intros x Hx.
      apply in_map_iff in Hx as (z & <- & Hz'). rewrite Forall_forall in Hdom.
      now rewrite (proj2 (py_in_inject_Z z dom) (Hdom z Hz')).
    - rewrite Forall_forall in Hm. destruct (Hm _ Hin) as (col & Hc & Hdom).
      simpl in Hc, Hdom. eexists. split; [exact (Hget _ _ Hc)|].
      apply mapM_id. apply Forall_forall. intros x Hx.
      apply in_map_iff in Hx as (z & <- & Hz'). rewrite Forall_forall in Hdom.
      now rewrite (proj2 (py_in_inject_Z z dom) (Hdom z Hz')). }
  assert (H5 : WinsorizeIQR.transform X3 = Ok X3).
  { change (WinsorizeIQR.transform X3)
      with (foldM (fun df r => update_col (fst r) (snd r) df)
                  (map (fun l => (l, fun (_ : frame numcol) c =>
                                       Ok (WinsorizeIQR.winsorize c)))
                       WinsorizeIQR.columns) X3).
    apply foldM_update_id. apply Forall_forall. intros r Hr.
    apply in_map_iff in Hr as (l & <- & Hin). simpl.
    rewrite Forall_forall in Hwin. destruct (Hwin _ Hin) as (col & Hc & Hq).
    eexists. split; [exact (Hget _ _ Hc)|]. f_equal.
    set (c := map (fun z => Some (inject_Z z)) col) in *.
    destruct (quantile c (1 # 4)) as [Q1|] eqn:E1.
    - destruct (quantile c (3 # 4)) as [Q3|] eqn:E3.
      + apply (winsorize_inliers c Q1 Q3 E1 E3).
        specialize (Hq Q1 Q3 eq_refl eq_refl). unfold c.
        apply Forall_forall. intros x Hx. apply in_map_iff in Hx as (z & <- & Hz).
        rewrite Forall_forall in Hq. exact (Hq z Hz).
      + apply quantile_None in E3. apply (quantile_None c (1 # 4)) in E3. congruence.
    - apply winsorize_no_value. now apply quantile_None in E1. }
  assert (E2 : StripObjectColumns.transform (as_raw df) = Ok (as_raw df)).
  { unfold StripObjectColumns.transform, as_raw, map_columns. f_equal.
    rewrite map_map. simpl. reflexivity. }
  unfold fit_transform. rewrite H1. cbn [bind].
  assert (E3 : SafeRoundToInt.transform (as_raw df) = Ok X3).
  { unfold SafeRoundToInt.transform, as_raw, X3, map_columns. f_equal.
    rewrite map_map. apply map_ext_in. intros [l c] Hin. simpl fst. simpl snd.
    f_equal. apply safe_convert_ints.
    rewrite Forall_forall in Hb. specialize (Hb _ Hin). simpl in Hb.
    eapply Forall_impl; [|exact Hb]. intros z Hz. cbv beta in Hz.
    assert (2 ^ 48 <= 2 ^ 53)%Z by (apply Z.pow_le_mono_r; lia). lia. }
  rewrite E2. cbn [bind]. rewrite E3. cbn [bind].
  rewrite H4. cbn [bind]. rewrite H5. cbn [bind].
  unfold FillNaWithMedian.transform. cbn [bind].
  unfold FinalIntConversion.transform. apply mapM_columns_Forall2.
  unfold X3, map_columns. rewrite map_map. simpl.
  clear. induction df as [|[l c] df IH]; simpl; constructor; auto.
  simpl. split; [reflexivity|]. rewrite fillna_map_Some.
  apply round_astype_int_map_Some.
Qed.

End FixpointFacts.

(* ===================================================================== *)
(** * The categorical columns after the repair *)
(* ===================================================================== *)

Module DomainFacts.
Import Py Pd Features PdFacts PyFacts NumFacts UpdateFacts ModeFacts FeaturesFacts.
Import CleaningFacts FixpointFacts.
Local Open Scope string_scope.

Lemma Forall2_Forall_r {A B : Type} (P : A -> Prop) (R : A -> B -> Prop)
      (Q : B -> Prop) l l' :
  Forall P l -> Forall2 R l l' -> (forall a b, P a -> R a b -> Q b) -> Forall Q l'.
Proof.
  intros HP HR Himp. induction HR as [|a b l l' Hab _ IH]; constructor.
  - apply (Himp a b); [now inversion HP | exact Hab].
  - apply IH. now inversion HP.
Qed.

Lemma Forall2_In_r {A B : Type} (R : A -> B -> Prop) l l' b :
  Forall2 R l l' -> In b l' -> exists a, In a l /\ R a b.
Proof.
  induction 1 as [|a0 b0 l l' Hab _ IH]; intros Hin; [destruct Hin|].
  destruct Hin as [<-|Hin]; [exists a0; simpl; auto|].
  destruct (IH Hin) as (a & Ha & Hr). exists a; simpl; auto.
Qed.

Lemma zero_in_zero_repaired label dom :
  In (label, dom) FixInvalidValues.zero_repaired -> In 0%Z dom.
Proof.
  intros [H|[H|[]]]; injection H as _ <-; apply In_by_eqb; reflexivity.
Qed.

(** The cells of a categorical column after the fourth stage, when they
    were integers or missing before it: integers all of them, each in the
    domain or, in a column repaired with its mode, equal to that mode. *)
Lemma repaired_cells X3 X4 label dom :
  FixInvalidValues.transform X3 = Ok X4 ->
  (forall col, get_col label X3 = Ok col -> Forall integral col) ->
  In (label, dom) (FixInvalidValues.zero_repaired ++ FixInvalidValues.mode_repaired) ->
  exists col4 m,
    get_col label X4 = Ok col4
    /\ Forall (fun c => exists k, c = Some (inject_Z k) /\ (In k dom \/ k = m)) col4
    /\ (In (label, dom) FixInvalidValues.zero_repaired -> In m dom).
Proof.
  intros H4 Hint Hin.
  destruct (FixInvalidValues_repairs _ _ H4) as (Hz & Hm & _).
  assert (Hnd : In (label, dom) FixInvalidValues.zero_repaired ->
                ~ In (label, dom) FixInvalidValues.mode_repaired).
  { intros [H|[H|[]]]; injection H as <- <-; simpl; intros H;
      repeat (destruct H as [H|H]; [discriminate H|]); exact H. }
  apply in_app_or in Hin as [Hin|Hin].
  - destruct (Hz _ _ Hin) as (col & Hc & Hc4).
    eexists. exists 0%Z. split; [exact Hc4|]. split.
    + apply Forall_forall. intros c Hc'. apply in_map_iff in Hc' as (x & <- & Hx).
      pose proof (Hint _ Hc) as Hi. rewrite Forall_forall in Hi. specialize (Hi x Hx).
      destruct (FixInvalidValues.py_in x dom) eqn:E.
      * destruct x as [q|]; [|discriminate E]. destruct Hi as (z & ->).
        exists z. split; [reflexivity|]. left. now apply py_in_inject_Z.
      * exists 0%Z. split; [reflexivity|]. now right.
    + intros _. eapply zero_in_zero_repaired; eauto.
  - destruct (Hm _ _ Hin) as (col & col4 & Hc & Hc4 & HR).
    pose proof (Hint _ Hc) as Hi.
    exists col4.
    exists (match mode_first col with Ok m => round_half_even m | Raise _ => 0%Z end).
    split; [exact Hc4|]. split.
    + apply (Forall2_Forall_r _ _ _ _ _ Hi HR). intros x x' Hx Hxx'. cbv beta in Hxx'.
      destruct (FixInvalidValues.py_in x dom) eqn:E.
      * subst x'. destruct x as [q|]; [|discriminate E]. destruct Hx as (z & ->).
        exists z. split; [reflexivity|]. left. now apply py_in_inject_Z.
      * destruct Hxx' as (m & Hmf & Him & ->). rewrite Hmf.
        destruct Him as [Hmin _]. apply dropna_In in Hmin.
        rewrite Forall_forall in Hi. destruct (Hi _ Hmin) as (z & ->).
        exists z. split; [reflexivity|]. right.
        now rewrite round_half_even_inject_Z.
    + intros Hz'. now apply Hnd in Hz'.
Qed.

(** A categorical column of a processed dataset: its values lie in the
    domain, but for one value [m] at most, which itself lies in the domain
    in the two columns repaired with 0. *)
Lemma processed_categorical_values X X' label dom :
  fit_transform X = Ok X' ->
  In (label, dom) (FixInvalidValues.zero_repaired ++ FixInvalidValues.mode_repaired) ->
  exists col' m, get_col label X' = Ok col'
                 /\ Forall (fun z => In z dom \/ z = m) col'
                 /\ (In (label, dom) FixInvalidValues.zero_repaired -> In m dom).
Proof.
  intros H Hin. apply fit_transform_inv in H as (X1 & X4 & X5 & H1 & H4 & H5 & H7).
  set (X3 := map_columns
               (fun col => map SafeRoundToInt.safe_convert (values col))
               (map_columns
                  (fun col => match col with
                              | SObject xs =>
                                  SObject (map StripObjectColumns.astype_str_strip xs)
                              | _ => col
                              end) X1)) in *.
  assert (H3 : stages_1_3 X = Ok X3).
  { unfold stages_1_3. rewrite H1. reflexivity. }
  destruct (repaired_cells X3 X4 label dom H4) as (col4 & m & Hc4 & Hcells & Hm).
  - intros col Hc. exact (stages_1_3_integral _ _ _ _ H3 Hc).
  - exact Hin.
  - assert (Hlab : In label (map fst (FixInvalidValues.zero_repaired
                                        ++ FixInvalidValues.mode_repaired))).
    { exact (in_map fst _ _ Hin). }
    destruct (categorical_column_after_stage_4 _ _ _ _ _ H5 H7 Hlab Hc4)
      as (col' & Hc' & Hr).
    exists col', m. split; [exact Hc'|]. split; [|exact Hm].
    assert (Hcells' : Forall (fun c => exists k, c = Some (inject_Z k)
                                                 /\ (In k dom \/ k = m))
                             (map (fun c => match c with
                                            | None => median col4
                                            | Some x => Some x
                                            end) col4)).
    { apply Forall_forall. intros c Hc. apply in_map_iff in Hc as (c0 & <- & Hc0).
      rewrite Forall_forall in Hcells. destruct (Hcells _ Hc0) as (k & -> & Hk).
      eauto. }
    apply (Forall2_Forall_r _ _ _ _ _ Hcells' Hr).
    intros c z (k & -> & Hk) Hz. apply Ok_inj in Hz.
    rewrite round_half_even_inject_Z in Hz. now subst.
Qed.

Lemma Forall2_right {A B : Type} (Q : B -> Prop) (l : list A) (l' : list B) :
  Forall2 (fun _ b => Q b) l l' -> Forall Q l'.
Proof. induction 1; constructor; auto. Qed.

Lemma is_mode_unique (a b : Z) col :
  is_mode (inject_Z a) col -> is_mode (inject_Z b) col -> a = b.
Proof.
  intros [Ha Hamax] [Hb Hbmax].
  destruct (Hamax _ Hb) as [H1 H1'], (Hbmax _ Ha) as [H2 H2'].
  assert (Hab : (inject_Z a <= inject_Z b)%Q) by (apply H1'; lia).
  assert (Hba : (inject_Z b <= inject_Z a)%Q) by (apply H2'; lia).
  rewrite <- Zle_Qle in Hab, Hba. lia.
Qed.

(** X7. Where the values of the categorical columns of a dataset processed
    from a plain raw dataset (its texts ASCII, its numbers at most 2^48 in
    magnitude) lie. [Reason for absence] and [Month of absence] hold
    values of their domains only (0 to 28, 0 to 12). Each of the six other
    categorical columns holds values of its domain and at most one value
    besides: the mode of the column as it entered the fourth stage, which
    the repair takes whether or not it is in the domain. *)
Theorem processed_categorical_domains X X' :
  plain X = true -> fit_transform X = Ok X' ->
  (forall label dom, In (label, dom) FixInvalidValues.zero_repaired ->
     exists col', get_col label X' = Ok col' /\ Forall (fun z => In z dom) col')
  /\ (forall label dom, In (label, dom) FixInvalidValues.mode_repaired ->
        exists X3 col3 col',
          stages_1_3 X = Ok X3 /\ get_col label X3 = Ok col3
          /\ get_col label X' = Ok col'
          /\ Forall (fun z => In z dom \/ is_mode (inject_Z z) col3) col'
          /\ forall z1 z2, is_mode (inject_Z z1) col3 -> is_mode (inject_Z z2) col3 ->
                           z1 = z2).
Proof.
  intros _ H. split.
  - intros label dom Hin.
    destruct (processed_categorical_values X X' label dom H
                (in_or_app _ _ _ (or_introl Hin))) as (col' & m & Hc' & Hf & Hm).
    exists col'. split; [exact Hc'|].
    eapply Forall_impl; [|exact Hf]. intros z [Hz| ->]; auto.
  - intros label dom Hld.
    apply fit_transform_inv in H as (X1 & X4 & X5 & H1 & H4 & H5 & H7).
    set (X3 := map_columns
                 (fun col => map SafeRoundToInt.safe_convert (values col))
                 (map_columns
                    (fun col => match col with
                                | SObject xs =>
                                    SObject (map StripObjectColumns.astype_str_strip xs)
                                | _ => col
                                end) X1)) in *.
    assert (H3 : stages_1_3 X = Ok X3).
    { unfold stages_1_3. rewrite H1. reflexivity. }
    destruct (FixInvalidValues_repairs _ _ H4) as (_ & Hmode & _).
    destruct (Hmode label dom Hld) as (col3 & col4 & Hc3 & Hc4 & HR).
    pose proof (stages_1_3_integral _ _ _ _ H3 Hc3) as Hint.
    assert (Hlab : In label (map fst (FixInvalidValues.zero_repaired
                                        ++ FixInvalidValues.mode_repaired))).
    { rewrite map_app, in_app_iff. right. exact (in_map fst _ _ Hld). }
    destruct (categorical_column_after_stage_4 _ _ _ _ _ H5 H7 Hlab Hc4)
      as (col' & Hc' & Hr).
    exists X3, col3, col'. split; [exact H3|]. split; [exact Hc3|].
    split; [exact Hc'|]. split; [|intros z1 z2; apply is_mode_unique].
    assert (HT : Forall2 (fun (x : option Q) z =>
                            In z dom \/ is_mode (inject_Z z) col3) col3 col').
    { eapply (Forall2_chain _ _ _ _ col3); [exact HR | exact Hr |].
      intros a b c Hin Hab Hs. cbv beta in Hab.
      rewrite Forall_forall in Hint.
      destruct (FixInvalidValues.py_in a dom) eqn:E.
      - subst b. pose proof (Hint a Hin) as Ha.
        destruct a as [x|]; [|discriminate E]. destruct Ha as (z & ->).
        simpl in Hs. apply Ok_inj in Hs. rewrite round_half_even_inject_Z in Hs.
        subst c. left. now apply py_in_inject_Z.
      - destruct Hab as (m & Hm & Him & ->).
        pose proof Him as [Hmin _]. apply dropna_In in Hmin.
        destruct (Hint _ Hmin) as (z & ->).
        simpl in Hs. apply Ok_inj in Hs. rewrite round_half_even_inject_Z in Hs.
        subst c. now right. }
    exact (Forall2_right _ _ _ HT).
Qed.

End DomainFacts.

(* ===================================================================== *)
(** * The repair of a repaired dataset *)
(* ===================================================================== *)

Module RepairFacts.
Import Py Pd Features PdFacts PyFacts NumFacts UpdateFacts ModeFacts FeaturesFacts.
Import CleaningFacts FixpointFacts DomainFacts.
Local Open Scope string_scope.

Lemma py_in_Qeq a b dom :
  Qeq_bool a b = true ->
  FixInvalidValues.py_in (Some a) dom = FixInvalidValues.py_in (Some b) dom.
Proof.
  intros E. apply Qeq_bool_iff in E. unfold FixInvalidValues.py_in.
  induction dom as [|k dom IH]; simpl; [reflexivity|]. rewrite IH. f_equal.
  destruct (Qeq_bool a (inject_Z k)) eqn:Ea, (Qeq_bool b (inject_Z k)) eqn:Eb;
    try reflexivity.
  - apply Qeq_bool_iff in Ea.
    assert (H : (b == inject_Z k)%Q) by (rewrite <- E; exact Ea).
    apply Qeq_bool_iff in H. congruence.
  - apply Qeq_bool_iff in Eb.
    assert (H : (a == inject_Z k)%Q) by (rewrite E; exact Eb).
    apply Qeq_bool_iff in H. congruence.
Qed.

Lemma dropna_cons_Some q col : dropna (Some q :: col) = q :: dropna col.
Proof. reflexivity. Qed.

Lemma dropna_cons_None col : dropna (None :: col) = dropna col.
Proof. reflexivity. Qed.

Lemma count_eq_cons v q xs :
  count_eq v (q :: xs) = ((if Qeq_bool v q then 1 else 0) + count_eq v xs)%nat.
Proof. unfold count_eq. simpl. now destruct (Qeq_bool v q). Qed.

Lemma Qeq_bool_refl q : Qeq_bool q q = true.
Proof. apply Qeq_bool_iff. reflexivity. Qed.

Section Repaired.
(** A column and what the repair with [m] makes of it, for a value [m]
    outside the domain. *)
Variable dom : list Z.
Variable m : Q.
Hypothesis m_outside : FixInvalidValues.py_in (Some m) dom = false.

Let repaired (x x' : option Q) : Prop :=
  if FixInvalidValues.py_in x dom then x' = x else x' = Some m.

Lemma outside_not_inside v q :
  FixInvalidValues.py_in (Some v) dom = true ->
  FixInvalidValues.py_in (Some q) dom = false -> Qeq_bool v q = false.
Proof.
  intros Hv Hq. destruct (Qeq_bool v q) eqn:E; [|reflexivity].
  rewrite (py_in_Qeq _ _ dom E) in Hv. congruence.
Qed.

Lemma count_inside col col' v :
  Forall2 repaired col col' -> FixInvalidValues.py_in (Some v) dom = true ->
  count_eq v (dropna col') = count_eq v (dropna col).
Proof.
  intros H Hv. induction H as [|x x' col col' Hxx' _ IH]; [reflexivity|].
  unfold repaired in Hxx'. destruct x as [q|].
  - destruct (FixInvalidValues.py_in (Some q) dom) eqn:E; subst x'.
    + rewrite !dropna_cons_Some, !count_eq_cons, IH. reflexivity.
    + rewrite !dropna_cons_Some, !count_eq_cons, IH.
      rewrite (outside_not_inside v m Hv m_outside).
      rewrite (outside_not_inside v q Hv E). reflexivity.
  - simpl in Hxx'. subst x'.
    rewrite dropna_cons_Some, dropna_cons_None, count_eq_cons, IH.
    now rewrite (outside_not_inside v m Hv m_outside).
Qed.

Lemma count_outside col col' :
  Forall2 repaired col col' ->
  (count_eq m (dropna col) <= count_eq m (dropna col'))%nat.
Proof.
  intros H. induction H as [|x x' col col' Hxx' _ IH]; [apply Nat.le_refl|].
  unfold repaired in Hxx'. destruct x as [q|].
  - destruct (FixInvalidValues.py_in (Some q) dom) eqn:E; subst x'.
    + rewrite !dropna_cons_Some, !count_eq_cons. lia.
    + rewrite !dropna_cons_Some, !count_eq_cons, Qeq_bool_refl.
      destruct (Qeq_bool m q); lia.
  - simpl in Hxx'. subst x'.
    rewrite dropna_cons_Some, dropna_cons_None, count_eq_cons. lia.
Qed.

Lemma repaired_In col col' v :
  Forall2 repaired col col' -> In (Some v) col' ->
  v = m \/ (FixInvalidValues.py_in (Some v) dom = true /\ In (Some v) col).
Proof.
  intros H Hin. destruct (Forall2_In_r _ _ _ _ H Hin) as (x & Hx & Hxx').
  unfold repaired in Hxx'.
  destruct (FixInvalidValues.py_in x dom) eqn:E.
  - subst x. right. auto.
  - left. congruence.
Qed.

Lemma repaired_keeps_m col col' :
  Forall2 repaired col col' -> In (Some m) col -> In (Some m) col'.
Proof.
  induction 1 as [|x x' col col' Hxx' _ IH]; intros Hin; [destruct Hin|].
  destruct Hin as [->|Hin]; [|right; auto].
  unfold repaired in Hxx'. rewrite m_outside in Hxx'. left. congruence.
Qed.

(** The mode of the repaired column is the mode it was repaired with. *)
Lemma mode_first_repaired col col' :
  Forall2 repaired col col' -> mode_first col = Ok m -> mode_first col' = Ok m.
Proof.
  intros H Hm. pose proof (mode_first_is_mode _ _ Hm) as [Hin Hmax].
  assert (Hin' : In m (dropna col')).
  { apply dropna_In. apply (repaired_keeps_m col); [exact H|]. now apply dropna_In. }
  destruct (mode_first col') as [m'|e] eqn:Em'.
  2:{ apply mode_first_Raise in Em'. rewrite Em' in Hin'. destruct Hin'. }
  pose proof (mode_first_is_mode _ _ Em') as [Hm'in Hm'max].
  apply dropna_In in Hm'in.
  destruct (repaired_In col col' m' H Hm'in) as [->|[Hdom Hcol]]; [reflexivity|].
  exfalso.
  pose proof (count_inside col col' m' H Hdom) as HA.
  pose proof (count_outside col col' H) as HB.
  destruct (Hmax m' (proj2 (dropna_In _ _) Hcol)) as [H1 H1'].
  destruct (Hm'max m Hin') as [H2 H2'].
  assert (E1 : count_eq m' (dropna col) = count_eq m (dropna col)) by lia.
  assert (E2 : count_eq m (dropna col') = count_eq m' (dropna col')) by lia.
  specialize (H1' E1). specialize (H2' E2).
  assert (E : Qeq_bool m m' = true).
  { apply Qeq_bool_iff. apply Qle_antisym; assumption. }
  rewrite (py_in_Qeq _ _ dom E) in m_outside. congruence.
Qed.

End Repaired.

(** X8. The fourth stage is idempotent: on the frame it returns it succeeds
    and returns that frame again. The value a column was repaired with,
    0 or the mode, is the value the second repair would take, also when
    the mode lies outside the domain. *)
Theorem FixInvalidValues_idempotent X X' :
  FixInvalidValues.transform X = Ok X' -> FixInvalidValues.transform X' = Ok X'.
Proof.
  intros H. destruct (FixInvalidValues_repairs _ _ H) as (Hz & Hm & _).
  rewrite FixInvalidValues_as_rules. apply foldM_update_id.
  unfold FixInvalidValues.rules. apply Forall_app.
  split; apply Forall_forall; intros r Hr;
    apply in_map_iff in Hr as ([l dom] & <- & Hin); simpl.
  - destruct (Hz _ _ Hin) as (col & Hc & Hc').
    eexists. split; [exact Hc'|]. rewrite mapM_pure. apply f_equal.
    rewrite map_map. apply map_ext. intros x.
    destruct (FixInvalidValues.py_in x dom) eqn:E; [now rewrite E|].
    change (Some 0%Q) with (Some (inject_Z 0)).
    rewrite (proj2 (py_in_inject_Z 0 dom) (zero_in_zero_repaired _ _ Hin)).
    reflexivity.
  - destruct (Hm _ _ Hin) as (col & col' & Hc & Hc' & HR).
    exists col'. split; [exact Hc'|]. apply mapM_id. apply Forall_forall.
    intros x' Hx'. destruct (FixInvalidValues.py_in x' dom) eqn:E; [reflexivity|].
    destruct (Forall2_In_r _ _ _ _ HR Hx') as (x & Hx & Hxx'). cbv beta in Hxx'.
    destruct (FixInvalidValues.py_in x dom) eqn:Ex; [subst; congruence|].
    destruct Hxx' as (m & Hmf & _ & ->).
    unfold FixInvalidValues.mode0. rewrite Hc'. simpl.
    rewrite (mode_first_repaired dom m E col col'); [reflexivity| |exact Hmf].
    eapply Forall2_impl; [|exact HR]. intros a b Hab. cbv beta in Hab.
    destruct (FixInvalidValues.py_in a dom); [exact Hab|].
    destruct Hab as (m0 & Hm0 & _ & ->). congruence.
Qed.

End RepairFacts.

(* ===================================================================== *)
(** * The second stage: text cells without surrounding white space *)
(* ===================================================================== *)

Module StripFacts.
Import Py Pd Features PdFacts.
Local Open Scope string_scope.
Local Open Scope list_scope.

Section Strip.
Variable sp : ascii -> bool.

Lemma lstrip_hd l c : hd_error (lstrip sp l) = Some c -> sp c = false.
Proof.
  induction l as [|a l IH]; simpl; [discriminate|].
  destruct (sp a) eqn:E; [exact IH|]. simpl. intros H. now injection H as <-.
Qed.

Lemma lstrip_suffix l : exists p, l = p ++ lstrip sp l.
Proof.
  induction l as [|a l (p & IH)]; simpl; [now exists []|].
  destruct (sp a).
  - exists (a :: p). simpl. now rewrite <- IH.
  - now exists [].
Qed.

Lemma lstrip_fix l :
  (forall c, hd_error l = Some c -> sp c = false) -> lstrip sp l = l.
Proof.
  destruct l as [|a l]; simpl; [reflexivity|]. intros H.
  now rewrite (H a eq_refl).
Qed.

Lemma strip_with_first l c :
  hd_error (strip_with sp l) = Some c -> sp c = false.
Proof.
  unfold strip_with. intros H.
  destruct (lstrip_suffix (rev (lstrip sp l))) as (p & Hp).
  apply (f_equal (@rev ascii)) in Hp. rewrite rev_involutive, rev_app_distr in Hp.
  destruct (rev (lstrip sp (rev (lstrip sp l)))) as [|a u]; [discriminate|].
  simpl in H. injection H as ->. apply (lstrip_hd l). rewrite Hp. reflexivity.
Qed.

Lemma strip_with_last l c :
  hd_error (rev (strip_with sp l)) = Some c -> sp c = false.
Proof. unfold strip_with. rewrite rev_involutive. apply lstrip_hd. Qed.

Lemma strip_with_idempotent l : strip_with sp (strip_with sp l) = strip_with sp l.
Proof.
  unfold strip_with at 1.
  rewrite (lstrip_fix (strip_with sp l)) by apply strip_with_first.
  rewrite (lstrip_fix (rev (strip_with sp l))) by apply strip_with_last.
  apply rev_involutive.
Qed.
End Strip.

Lemma str_strip_idempotent s : str_strip (str_strip s) = str_strip s.
Proof.
  unfold str_strip. rewrite list_ascii_of_string_of_list_ascii.
  now rewrite strip_with_idempotent.
Qed.

Lemma astype_str_strip_idempotent c :
  StripObjectColumns.astype_str_strip (StripObjectColumns.astype_str_strip c)
  = StripObjectColumns.astype_str_strip c.
Proof.
  destruct c as [s|]; simpl; [|reflexivity]. now rewrite str_strip_idempotent.
Qed.

(** X9. On a frame whose texts are ASCII, the second stage never fails and
    touches text columns only. Integer
    and float columns are returned as they are. In a text column every
    cell holds text afterwards: the text it held without the white space
    around it, so that neither its first nor its last character is white
    space, and the text [nan] where the cell was missing. A second pass
    changes nothing. *)
Theorem StripObjectColumns_strips (X : frame series) :
  ascii_frame X = true ->
  exists X1,
    StripObjectColumns.transform X = Ok X1
    /\ StripObjectColumns.transform X1 = Ok X1
    /\ Forall2
         (fun c c1 =>
            fst c = fst c1
            /\ match snd c, snd c1 with
               | SInt xs, SInt ys => ys = xs
               | SFloat xs, SFloat ys => ys = xs
               | SObject xs, SObject ys =>
                   Forall2
                     (fun x y =>
                        exists s,
                          y = Some s
                          /\ s = match x with
                                 | Some t => str_strip t
                                 | None => "nan"%string
                                 end
                          /\ (forall a, hd_error (list_ascii_of_string s) = Some a ->
                                        is_pyspace a = false)
                          /\ (forall a, hd_error (rev (list_ascii_of_string s)) = Some a ->
                                        is_pyspace a = false)) xs ys
               | _, _ => False
               end) X X1.
Proof.
  intros _.
  unfold StripObjectColumns.transform. eexists. split; [reflexivity|]. split.
  - f_equal. unfold map_columns. rewrite map_map. apply map_ext.
    intros [l [xs|xs|xs]]; simpl; try reflexivity.
    do 2 f_equal. rewrite map_map. apply map_ext.
    apply astype_str_strip_idempotent.
  - unfold map_columns. induction X as [|[l c] X IH]; simpl; constructor; auto.
    simpl. split; [reflexivity|]. destruct c as [xs|xs|xs]; try reflexivity.
    induction xs as [|x xs IHxs]; simpl; constructor; auto.
    destruct x as [t|]; simpl.
    + exists (str_strip t). repeat split.
      * unfold str_strip. rewrite list_ascii_of_string_of_list_ascii.
        apply strip_with_first.
      * unfold str_strip. rewrite list_ascii_of_string_of_list_ascii.
        apply strip_with_last.
    + exists "nan"%string. repeat split; intros a H; vm_compute in H;
        injection H as <-; reflexivity.
Qed.

End StripFacts.

(* ===================================================================== *)
(** * Training: the columns, the files, and a run without a best model *)
(* ===================================================================== *)

Module FeatureColumnFacts.
Import Py Pd Train PdFacts RowFacts DedupFacts TrainFacts.
Local Open Scope string_scope.
Local Open Scope list_scope.

(** X10. [prepare_features] raises exactly when the target column is absent.
    Otherwise the features are the columns of the dataset other than the
    target, in their order; the categorical columns are the candidates
    among them, in the order of the list of candidates, and the numeric
    columns all the others, in the order of the dataset: every feature
    column is in exactly one of the two lists, and the lists hold nothing
    else. *)
Theorem prepare_features_splits_columns (df : dataset) (target : string) :
  (has_col target df = false -> prepare_features df target = Raise ValueError)
  /\ (has_col target df = true ->
      exists X y cat_cols num_cols,
        prepare_features df target = Ok (X, y, cat_cols, num_cols)
        /\ columns X = filter (fun l => negb (String.eqb l target)) (columns df)
        /\ has_col target X = false
        /\ cat_cols = filter (fun c => has_col c X) categorical_candidates
        /\ num_cols = filter (fun l => negb (existsb (String.eqb l)
                                                     categorical_candidates))
                             (columns X)
        /\ (forall l, In l cat_cols \/ In l num_cols <-> In l (columns X))
        /\ (forall l, ~ (In l cat_cols /\ In l num_cols))).
Proof.
  split; intros Hhas; [unfold prepare_features; now rewrite Hhas|].
  set (dd := drop_duplicates 0%Z Z.eqb df).
  assert (Hcols : columns dd = columns df).
  { unfold dd, drop_duplicates. apply columns_map_columns. }
  assert (Hhas' : has_col target dd = true).
  { unfold has_col. now rewrite Hcols. }
  destruct (has_col_get _ _ _ Hhas') as (y & Hy).
  destruct (drop [target] dd) as [X|e] eqn:HX.
  2:{ unfold drop in HX. simpl in HX. rewrite Hhas' in HX. discriminate. }
  assert (HcX : columns X = filter (fun l => negb (String.eqb l target)) (columns df)).
  { rewrite (drop_Ok_columns _ _ _ _ HX), Hcols. apply filter_ext. intros l. simpl.
    now rewrite orb_false_r. }
  assert (Hmem : forall c, existsb (String.eqb c)
                             (filter (fun c => has_col c X) categorical_candidates)
                           = existsb (String.eqb c) categorical_candidates
                             && has_col c X).
  { intros c. apply eq_true_iff_eq.
    rewrite andb_true_iff, !existsb_exists. split.
    - intros (x & Hx & E). apply String.eqb_eq in E. subst x.
      apply filter_In in Hx as [Hx Hc]. split; [|exact Hc].
      exists c. split; [exact Hx | apply String.eqb_refl].
    - intros [(x & Hx & E) Hc]. apply String.eqb_eq in E. subst x.
      exists c. split; [|apply String.eqb_refl]. apply filter_In. auto. }
  assert (Hnum : filter (fun c => negb (existsb (String.eqb c)
                            (filter (fun c => has_col c X) categorical_candidates)))
                        (columns X)
                 = filter (fun l => negb (existsb (String.eqb l) categorical_candidates))
                          (columns X)).
  { apply filter_ext_in. intros l Hl. rewrite Hmem.
    rewrite (proj2 (has_col_In _ _ _) Hl). now rewrite andb_true_r. }
  exists X, y, (filter (fun c => has_col c X) categorical_candidates),
    (filter (fun c => negb (existsb (String.eqb c)
                          (filter (fun c => has_col c X) categorical_candidates)))
            (columns X)).
  split.
  { unfold prepare_features. rewrite Hhas. cbn [negb]. fold dd. rewrite HX.
    cbn [bind]. rewrite Hy. reflexivity. }
  split; [exact HcX|]. split.
  { apply not_true_is_false. intros H. apply has_col_In in H. rewrite HcX in H.
    apply filter_In in H as [_ H]. now rewrite String.eqb_refl in H. }
  split; [reflexivity|]. split; [exact Hnum|]. rewrite Hnum. split.
  - intros l. rewrite !filter_In. split.
    + intros [[_ H]|[H _]]; [now apply has_col_In in H | exact H].
    + intros H. destruct (existsb (String.eqb l) categorical_candidates) eqn:E.
      * left. split; [|now apply has_col_In].
        apply existsb_exists in E as (x & Hx & E). apply String.eqb_eq in E. now subst.
      * right. auto.
  - intros l [H1 H2]. apply filter_In in H1 as [H1 _], H2 as [_ H2].
    apply negb_true_iff in H2.
    assert (existsb (String.eqb l) categorical_candidates = true); [|congruence].
    apply existsb_exists. exists l. split; [exact H1 | apply String.eqb_refl].
Qed.

End FeatureColumnFacts.

Module TrainingRunFacts.
Import Py Pd Train PdFacts SelectionFacts.
Local Open Scope string_scope.
Local Open Scope list_scope.

Section Run.
Variable Regressor : Type.
Variable Fitted : Type.
Variable train_test_split :
  dataset -> list Z -> Q -> Z -> result (dataset * dataset * list Z * list Z).
Variable Pipeline_fit :
  Preprocessor -> Regressor -> dataset -> list Z -> result Fitted.
Variable Pipeline_predict : Fitted -> dataset -> result (list pyfloat).
Variable mean_absolute_error : list Z -> list pyfloat -> result pyfloat.
Variable mean_squared_error : list Z -> list pyfloat -> result pyfloat.
Variable r2_score : list Z -> list pyfloat -> result pyfloat.
Variable np_sqrt : pyfloat -> pyfloat.
Variable log_to_mlflow :
  ModelResult Regressor Fitted -> string -> dataset -> list Z ->
  files Fitted -> files Fitted.

Let Result := ModelResult Regressor Fitted.
Let rmse (r : Result) : pyfloat := test_rmse (metrics r).
Let path_of (r : Result) : string :=
  MODELS_DIR ++ "/" ++ replace_space (str_lower (name r)) ++ "_model.joblib".
Let best_model_path : string := MODELS_DIR ++ "/" ++ "best_model.joblib".
Let run (df : dataset) (models : list (string * Regressor)) (fs : files Fitted) :=
  main train_test_split Pipeline_fit Pipeline_predict mean_absolute_error
       mean_squared_error r2_score np_sqrt log_to_mlflow df models fs.

(** MLflow keeps to its own directory: what it is given to log, it writes
    nothing under [models/]. *)
Let logs_elsewhere : Prop :=
  forall (r : Result) model_path X y (fs : files Fitted) p,
    String.prefix "models/" p = true ->
    joblib_load p (log_to_mlflow r model_path X y fs) = joblib_load p fs.

Lemma prefix_append s t : String.prefix s (s ++ t)%string = true.
Proof.
  induction s as [|a s IH]; simpl; [now destruct t|].
  destruct (ascii_dec a a); [exact IH | contradiction].
Qed.

Lemma path_of_under_models (r : Result) : String.prefix "models/" (path_of r) = true.
Proof.
  change (path_of r)
    with ("models/" ++ (replace_space (str_lower (name r)) ++ "_model.joblib"))%string.
  apply prefix_append.
Qed.

Section Turns.
Variables X_train : dataset.
Variables y_train : list Z.

Let turn := loop_turn log_to_mlflow X_train y_train.

(** The file a turn writes, and the files under [models/] it leaves. *)
Lemma turn_disk st (r : Result) p :
  logs_elsewhere -> String.prefix "models/" p = true ->
  joblib_load p (disk (turn st r))
  = if String.eqb p (path_of r) then Some (pipeline r) else joblib_load p (disk st).
Proof.
  intros Hlog Hp. unfold turn, loop_turn.
  destruct (float_ltb _ _); cbn [save_model disk]; rewrite (Hlog _ _ _ _ _ _ Hp);
    reflexivity.
Qed.

Lemma turns_disk_other trained p : forall st,
  logs_elsewhere -> String.prefix "models/" p = true ->
  ~ In p (map path_of trained) ->
  joblib_load p (disk (fold_left turn trained st)) = joblib_load p (disk st).
Proof.
  induction trained as [|r trained IH]; intros st Hlog Hp Hnot; simpl;
    [reflexivity|].
  simpl in Hnot. rewrite IH by tauto. rewrite (turn_disk _ _ _ Hlog Hp).
  destruct (String.eqb p (path_of r)) eqn:E; [|reflexivity].
  apply String.eqb_eq in E. exfalso. apply Hnot. left. now rewrite E.
Qed.

Lemma turns_disk_last before (r : Result) after st :
  logs_elsewhere -> ~ In (path_of r) (map path_of after) ->
  joblib_load (path_of r) (disk (fold_left turn (before ++ r :: after) st))
  = Some (pipeline r).
Proof.
  intros Hlog Hnot. rewrite fold_left_app. simpl.
  rewrite (turns_disk_other _ _ _ Hlog (path_of_under_models r) Hnot).
  rewrite (turn_disk _ _ _ Hlog (path_of_under_models r)).
  now rewrite String.eqb_refl.
Qed.
End Turns.

(** X25. When the features are prepared, the split is made, every model
    trains and at least one test RMSE is below [+inf], [main] returns one
    result per model, in the order of the list, writes the report of their
    metrics, and the pipeline it stores under [models/best_model.joblib]
    is that of the result with the lowest test RMSE: every result before
    it is strictly worse and no result after it is better (results whose
    test RMSE is NaN apart, which compare with none), so that among equal
    lowest ones the first is stored. *)
Theorem main_persists_first_lowest
        (df : dataset) (models : list (string * Regressor)) (fs : files Fitted)
        X y cat_cols num_cols X_train X_test y_train y_test
        (trained : list Result) :
  prepare_features df TARGET_COLUMN = Ok (X, y, cat_cols, num_cols) ->
  train_test_split X y TEST_SIZE RANDOM_STATE
  = Ok (X_train, X_test, y_train, y_test) ->
  mapM (fun nm => train_model Pipeline_fit Pipeline_predict mean_absolute_error
                              mean_squared_error r2_score np_sqrt (fst nm) (snd nm)
                              (create_preprocessor num_cols cat_cols)
                              X_train X_test y_train y_test) models = Ok trained ->
  Exists (fun r => float_ltb (rmse r) (FInf false) = true) trained ->
  exists best,
    returned (run df models fs) = Ok trained
    /\ first_lowest best trained
    /\ joblib_load "models/best_model.joblib" (disk_after (run df models fs))
       = Some (pipeline best)
    /\ report (run df models fs) = Some (save_metrics trained).
Proof.
  intros Hprep Hsplit Htrain Hex. unfold run.
  rewrite (main_trained _ _ _ _ _ _ _ _ _ _ _ _ _ _ _ _ _ _ _ _ _ _
             Hprep Hsplit Htrain).
  destruct (loop_chooses _ _ log_to_mlflow X_train y_train fs trained) as [_ Hch].
  destruct (best_model _) as [best|].
  - exists best. destruct Hch as [_ Hfl]. repeat split; try reflexivity. exact Hfl.
  - exfalso. apply Exists_exists in Hex as (r & Hr & Hlt).
    rewrite Forall_forall in Hch. specialize (Hch r Hr). cbv beta in Hch.
    unfold rmse in Hlt. congruence.
Qed.


(** X12. The files a successful run leaves, as long as MLflow keeps to its
    own directory. [main] returns one result per model, in the order of
    the list, and has written the report of their metrics. Each result is
    stored under [models/<name>_model.joblib], the name in lower case with
    its spaces replaced: loading that path gives the pipeline of the
    result, unless a later model has the same path or the path is that of
    the best model, which is written last. Every other path under
    [models/] holds what it held before the run. *)
Theorem main_saves_every_model
        (df : dataset) (models : list (string * Regressor)) (fs : files Fitted)
        (rs : list Result) :
  logs_elsewhere ->
  returned (run df models fs) = Ok rs ->
  map (@name Regressor Fitted) rs = map fst models
  /\ report (run df models fs) = Some (save_metrics rs)
  /\ (forall before r after,
        rs = before ++ r :: after ->
        ~ In (path_of r) (map path_of after) ->
        path_of r <> best_model_path ->
        joblib_load (path_of r) (disk_after (run df models fs)) = Some (pipeline r))
  /\ (forall p, String.prefix "models/" p = true ->
                ~ In p (map path_of rs) -> p <> best_model_path ->
                joblib_load p (disk_after (run df models fs)) = joblib_load p fs).
Proof.
  intros Hlog H. unfold run in *.
  destruct (main_returned _ _ _ _ _ _ _ _ _ _ _ _ _ _ H)
    as (X & y & cat_cols & num_cols & X_train & X_test & y_train & y_test & best
        & Hprep & Hsplit & Htrain & Hbest).
  rewrite (main_trained _ _ _ _ _ _ _ _ _ _ _ _ _ _ _ _ _ _ _ _ _ _
             Hprep Hsplit Htrain).
  rewrite Hbest. cbn [returned report disk_after].
  assert (Hother : forall p st, p <> best_model_path ->
            joblib_load p (joblib_dump (pipeline best) "models/best_model.joblib" st)
            = joblib_load p st).
  { intros p st Hp. unfold joblib_dump. simpl.
    apply String.eqb_neq in Hp. unfold best_model_path in Hp. simpl in Hp.
    now rewrite Hp. }
  split; [|split; [reflexivity|split]].
  - clear - Htrain. revert rs Htrain.
    induction models as [|[n m] models IH]; intros rs Htrain; simpl in Htrain.
    + apply Ok_inj in Htrain. now subst.
    + apply bind_Ok_inv in Htrain as (r & Hr & Htrain).
      apply bind_Ok_inv in Htrain as (rs' & Hrs' & Htrain).
      apply Ok_inj in Htrain. subst rs. simpl. f_equal; [|now apply IH].
      unfold train_model in Hr.
      repeat (apply bind_Ok_inv in Hr as (? & _ & Hr)).
      apply Ok_inj in Hr. now subst r.
  - intros before r after -> Hlast Hp. rewrite (Hother _ _ Hp).
    now apply turns_disk_last.
  - intros p Hp Hnot Hb. rewrite (Hother _ _ Hb).
    now apply turns_disk_other.
Qed.

(** X26. A model that fails to train ends the run. When the features are
    prepared, the split is made, the models before [nm] train and
    [train_model] raises on [nm], [main] raises that exception: the
    models after [nm] are not trained, the report of the metrics and the
    best model are not written, and the files are those the turns of the
    models before [nm] left. As long as MLflow keeps to its own directory,
    the file of each of these models is there (unless a later one of them
    has the same path), and every other path under [models/],
    [models/best_model.joblib] among them when no model is called
    [best], holds what it held before the run. *)
Theorem main_stops_when_training_fails
        (df : dataset) (fs : files Fitted)
        X y cat_cols num_cols X_train X_test y_train y_test
        (done : list (string * Regressor)) (nm : string * Regressor)
        (rest : list (string * Regressor)) (trained : list Result) (e : exn) :
  prepare_features df TARGET_COLUMN = Ok (X, y, cat_cols, num_cols) ->
  train_test_split X y TEST_SIZE RANDOM_STATE
  = Ok (X_train, X_test, y_train, y_test) ->
  mapM (fun nm => train_model Pipeline_fit Pipeline_predict mean_absolute_error
                              mean_squared_error r2_score np_sqrt (fst nm) (snd nm)
                              (create_preprocessor num_cols cat_cols)
                              X_train X_test y_train y_test) done = Ok trained ->
  train_model Pipeline_fit Pipeline_predict mean_absolute_error mean_squared_error
              r2_score np_sqrt (fst nm) (snd nm)
              (create_preprocessor num_cols cat_cols)
              X_train X_test y_train y_test = Raise e ->
  returned (run df (done ++ nm :: rest) fs) = Raise e
  /\ report (run df (done ++ nm :: rest) fs) = None
  /\ disk_after (run df (done ++ nm :: rest) fs)
     = disk (fold_left (loop_turn log_to_mlflow X_train y_train) trained
                       {| results := []; best_model := None;
                          best_score := FInf false; disk := fs |})
  /\ (logs_elsewhere ->
      (forall before r after,
         trained = before ++ r :: after ->
         ~ In (path_of r) (map path_of after) ->
         joblib_load (path_of r) (disk_after (run df (done ++ nm :: rest) fs))
         = Some (pipeline r))
      /\ (forall p, String.prefix "models/" p = true ->
                    ~ In p (map path_of trained) ->
                    joblib_load p (disk_after (run df (done ++ nm :: rest) fs))
                    = joblib_load p fs)).
Proof.
  intros Hprep Hsplit Htrain Hfail.
  assert (E : run df (done ++ nm :: rest) fs
              = {| returned := Raise e;
                   disk_after :=
                     disk (fold_left (loop_turn log_to_mlflow X_train y_train) trained
                                     {| results := []; best_model := None;
                                        best_score := FInf false; disk := fs |});
                   report := None |}).
  { unfold run, main. rewrite Hprep, Hsplit. cbv beta iota zeta.
    rewrite (for_in_stopped _ _ _ _ _ _ _ _ _ _ _ _ _ _ _ _ _ _ _ _
               Htrain Hfail).
    reflexivity. }
  rewrite E. cbn [returned report disk_after].
  split; [reflexivity|]. split; [reflexivity|]. split; [reflexivity|].
  intros Hlog. split.
  - intros before r after -> Hlast. now apply turns_disk_last.
  - intros p Hp Hnot. now apply turns_disk_other.
Qed.

End Run.

End TrainingRunFacts.

(* ===================================================================== *)
(** * The service: what the two endpoints answer, and when they fail *)
(* ===================================================================== *)

Module EndpointFacts.
Import Py Pd Api FloatFacts ConcatFacts ApiFacts.
Local Open Scope string_scope.
Local Open Scope list_scope.

(** X13. [predict] answers or fails with one of two statuses, and nothing
    else escapes it. It answers exactly when a model is loaded and returns
    at least one value for the record. It fails with 503 exactly when no
    model is loaded, and with 400 exactly when the loaded model raises or
    returns no value. *)
Theorem predict_answers_or_fails (model : option Model) (DEFAULT_MODEL_exists : bool)
        (r : AbsenteeismInput) :
  match predict model DEFAULT_MODEL_exists r with
  | Ok resp =>
      exists m p rest,
        model = Some m
        /\ model_predict m (input_to_dataframe r) = Ok (p :: rest)
        /\ resp = {| predicted_absenteeism_hours := round_ndigits (max0 p) 2;
                     model_version := version DEFAULT_MODEL_exists |}
  | Raise e =>
      (e = HTTPException 503 /\ model = None)
      \/ (e = HTTPException 400
          /\ exists m, model = Some m
               /\ (model_predict m (input_to_dataframe r) = Ok []
                   \/ exists e', model_predict m (input_to_dataframe r) = Raise e'))
  end.
Proof.
  unfold predict. destruct model as [m|]; [|left; auto].
  destruct (model_predict m (input_to_dataframe r)) as [[|p rest]|e'] eqn:E; simpl.
  - right. split; [reflexivity|]. exists m. auto.
  - exists m, p, rest. auto.
  - right. split; [reflexivity|]. exists m. split; [reflexivity|]. right. eauto.
Qed.

(** X14. [predict_batch] answers or fails with one of two statuses. It answers
    exactly when a model is loaded, the batch is not empty and the model
    returns its values for the frame of the batch; the answer holds one
    prediction per value the model returned, in their order, and [total]
    is the number of these values, whatever the number of records. It
    fails with 503 exactly when no model is loaded, and with 400 exactly
    when the batch is empty or the loaded model raises. *)
Theorem predict_batch_answers_or_fails (model : option Model)
        (DEFAULT_MODEL_exists : bool) (inputs : list AbsenteeismInput) :
  match predict_batch model DEFAULT_MODEL_exists inputs with
  | Ok b =>
      exists m df ps,
        model = Some m /\ inputs <> []
        /\ concat (map input_to_dataframe inputs) = Ok df
        /\ model_predict m df = Ok ps
        /\ map predicted_absenteeism_hours (predictions b)
           = map (fun p => round_ndigits (np_maximum0 p) 2) ps
        /\ Forall (fun pr => model_version pr = version DEFAULT_MODEL_exists)
                  (predictions b)
        /\ total b = Z.of_nat (List.length ps)
  | Raise e =>
      (e = HTTPException 503 /\ model = None)
      \/ (e = HTTPException 400
          /\ exists m, model = Some m
               /\ (inputs = []
                   \/ exists df e', concat (map input_to_dataframe inputs) = Ok df
                                    /\ model_predict m df = Raise e'))
  end.
Proof.
  unfold predict_batch. destruct model as [m|]; [|left; auto].
  destruct inputs as [|r inputs].
  { simpl. right. split; [reflexivity|]. exists m. auto. }
  assert (Ec : exists df, concat (map input_to_dataframe (r :: inputs)) = Ok df)
    by (simpl; eauto).
  destruct Ec as (df & Ec). rewrite Ec. cbn [bind].
  destruct (model_predict m df) as [ps|e'] eqn:E; simpl.
  - exists m, df, ps. split; [reflexivity|]. split; [discriminate|].
    split; [reflexivity|]. split; [exact E|]. split; [|split].
    + rewrite !map_map. reflexivity.
    + apply Forall_forall. intros pr Hpr. apply in_map_iff in Hpr as (p & <- & _).
      reflexivity.
    + now rewrite length_map.
  - right. split; [reflexivity|]. exists m. split; [reflexivity|]. right. eauto.
Qed.

(** X15. Where the two endpoints differ. When the model returns NaN for a
    record, [predict] answers 0 hours, as the built-in [max] keeps its
    first argument against a NaN, and [predict_batch] on that record alone
    answers NaN, as [np.maximum] hands a NaN on. *)
Theorem nan_prediction_single_and_batch (m : Model) (DEFAULT_MODEL_exists : bool)
        (r : AbsenteeismInput) (rest : list pyfloat) :
  model_predict m (input_to_dataframe r) = Ok (FNan :: rest) ->
  exists resp b,
    predict (Some m) DEFAULT_MODEL_exists r = Ok resp
    /\ predicted_absenteeism_hours resp = FFin 0
    /\ predict_batch (Some m) DEFAULT_MODEL_exists [r] = Ok b
    /\ option_map predicted_absenteeism_hours (hd_error (predictions b)) = Some FNan.
Proof.
  intros Hm. unfold predict, predict_batch. simpl. rewrite Hm. simpl.
  eexists. eexists. split; [reflexivity|]. split; [reflexivity|].
  split; reflexivity.
Qed.

End EndpointFacts.

(* ===================================================================== *)
(** * The request and the cleaning pipeline *)
(* ===================================================================== *)

Module RequestFacts.
Import Py Pd Features Api.
Local Open Scope string_scope.
Local Open Scope list_scope.

Lemma In_range lo hi z :
  In z (FixInvalidValues.range lo hi) <-> (lo <= z < hi)%Z.
Proof.
  unfold FixInvalidValues.range. rewrite in_map_iff. split.
  - intros (i & <- & Hi). apply in_seq in Hi. lia.
  - intros H. exists (Z.to_nat (z - lo)). split; [lia|]. apply in_seq. lia.
Qed.

Lemma ge_le_spec lo hi x : ge_le lo hi x = true <-> (lo <= x <= hi)%Z.
Proof. unfold ge_le. rewrite andb_true_iff, !Z.leb_le. tauto. Qed.

(** X16. The request and the pipeline agree on the table. The frame built
    from a record has one row and nineteen columns: the eight categorical
    columns and the eleven columns of the outlier list other than the
    target, each once. A record that passes the validation of the request
    holds, in each categorical field, a code of the domain the fourth
    stage of the pipeline keeps. *)
Theorem request_matches_the_pipeline (r : AbsenteeismInput) :
  Forall (fun lc => List.length (snd lc) = 1%nat) (input_to_dataframe r)
  /\ NoDup (columns (input_to_dataframe r))
  /\ (forall l, In l (columns (input_to_dataframe r))
                <-> (In l (map fst (FixInvalidValues.zero_repaired
                                      ++ FixInvalidValues.mode_repaired)
                           ++ WinsorizeIQR.columns)
                     /\ l <> Train.TARGET_COLUMN))
  /\ (valid r = true ->
      forall label dom,
        In (label, dom) (FixInvalidValues.zero_repaired
                           ++ FixInvalidValues.mode_repaired) ->
        exists z, get_col label (input_to_dataframe r) = Ok [VInt z] /\ In z dom).
Proof.
  split; [repeat constructor|]. split.
  { simpl. repeat constructor; simpl; intros H;
      repeat (destruct H as [H|H]; [discriminate H|]); exact H. }
  split.
  { intros l. simpl. split.
    - intros H. repeat (destruct H as [<-|H]; [split; [tauto | discriminate]|]).
      destruct H.
    - intros [H Hne].
      repeat (destruct H as [<-|H]; [first [tauto | now elim Hne]|]).
      destruct H. }
  intros Hv label dom Hin. unfold valid in Hv.
  repeat (apply andb_true_iff in Hv as [Hv ?]).
  repeat match goal with
         | H : ge_le _ _ _ = true |- _ => apply ge_le_spec in H
         end.
  simpl in Hin.
  repeat (destruct Hin as [Hin|Hin];
          [injection Hin as <- <-; eexists; split; [reflexivity|];
           first [apply In_range; lia | simpl; lia]|]).
  destruct Hin.
Qed.

End RequestFacts.

(* ===================================================================== *)
(** * From the cleaning pipeline to the training *)
(* ===================================================================== *)

Module HandoverFacts.
Import Py Pd Features Train PdFacts FeaturesFacts CleaningFacts ShapeFacts FailureFacts.
Import RowFacts DedupFacts.
Local Open Scope string_scope.
Local Open Scope list_scope.

Lemma filter_all {A : Type} (p : A -> bool) l :
  (forall x, In x l -> p x = true) -> filter p l = l.
Proof.
  induction l as [|a l IH]; intros H; simpl; [reflexivity|].
  rewrite (H a (or_introl eq_refl)). f_equal. apply IH. intros x Hx. apply H. now right.
Qed.

(** The columns the stages name are columns of the processed dataset,
    the two removed ones apart. *)
Lemma processed_has_columns X X' label :
  fit_transform X = Ok X' ->
  In label (map fst (FixInvalidValues.zero_repaired ++ FixInvalidValues.mode_repaired)
              ++ WinsorizeIQR.columns) ->
  has_col label X' = true.
Proof.
  intros H Hin. pose proof (fit_transform_columns _ _ H) as Hcols.
  apply fit_transform_inv in H as (X1 & X4 & X5 & H1 & H4 & H5 & H7).
  apply has_col_In. rewrite Hcols. apply filter_In. split.
  - apply has_col_In.
    apply (stages_Ok_have_columns X X1 X4 X5 label H1 H4 H5).
    apply in_or_app. now right.
  - simpl in Hin.
    repeat (destruct Hin as [<-|Hin]; [reflexivity|]). destruct Hin.
Qed.

Lemma same_shape_wf {A B : Type} (d : A) (d' : B) (df : frame (list A))
      (df' : frame (list B)) n :
  Forall (fun lc => List.length (snd lc) = n) df -> same_shape df df' ->
  wf_frame df'.
Proof.
  intros Hn Hs. unfold wf_frame.
  assert (Hn' : Forall (fun lc => List.length (snd lc) = n) df').
  { revert Hn. induction Hs as [|c c' df df' [_ Hlen] _ IH]; intros Hn; constructor.
    - inversion Hn; subst. congruence.
    - apply IH. now inversion Hn. }
  destruct df' as [|[l c] df']; [constructor|].
  simpl. inversion Hn' as [|? ? Hc Hrest]; subst. simpl in *.
  constructor; [reflexivity|]. exact Hrest.
Qed.

(** X17. What the pipeline produces, the training accepts. On a processed
    dataset [prepare_features] finds the target column, so that it does
    not raise; all eight candidates are there, so that the categorical
    columns are the eight candidates in the order of their list, and the
    numeric columns are the other features. When the columns of the raw
    dataset have one length, so have those of the processed dataset. *)
Theorem processed_dataset_is_accepted X X' :
  fit_transform X = Ok X' ->
  (exists Xf y num_cols,
     prepare_features X' TARGET_COLUMN = Ok (Xf, y, categorical_candidates, num_cols)
     /\ columns Xf = filter (fun l => negb (String.eqb l TARGET_COLUMN)) (columns X')
     /\ num_cols = filter (fun l => negb (existsb (String.eqb l)
                                                  categorical_candidates))
                          (columns Xf))
  /\ forall n, Forall (fun lc => List.length (values (snd lc)) = n) X ->
               wf_frame X'.
Proof.
  intros H. split.
  - assert (Htarget : has_col TARGET_COLUMN X' = true).
    { apply (processed_has_columns X X' _ H). apply in_or_app. right.
      unfold WinsorizeIQR.columns. simpl. do 11 right. now left. }
    set (dd := drop_duplicates 0%Z Z.eqb X').
    assert (Hcols : columns dd = columns X').
    { unfold dd, drop_duplicates. apply columns_map_columns. }
    assert (Hhas' : has_col TARGET_COLUMN dd = true).
    { unfold has_col. now rewrite Hcols. }
    destruct (has_col_get _ _ _ Hhas') as (y & Hy).
    destruct (drop [TARGET_COLUMN] dd) as [Xf|e] eqn:HX.
    2:{ unfold drop in HX. simpl in HX. rewrite Hhas' in HX. discriminate. }
    assert (HcX : columns Xf
                  = filter (fun l => negb (String.eqb l TARGET_COLUMN)) (columns X')).
    { rewrite (drop_Ok_columns _ _ _ _ HX), Hcols. apply filter_ext. intros l. simpl.
      now rewrite orb_false_r. }
    assert (Hcat : filter (fun c => has_col c Xf) categorical_candidates
                   = categorical_candidates).
    { apply filter_all. intros c Hc. apply has_col_In. rewrite HcX.
      apply filter_In. split.
      - apply has_col_In. apply (processed_has_columns X X' _ H).
        apply in_or_app. left. simpl in Hc |- *.
        repeat (destruct Hc as [<-|Hc]; [tauto|]). destruct Hc.
      - simpl in Hc. repeat (destruct Hc as [<-|Hc]; [reflexivity|]). destruct Hc. }
    exists Xf, y,
      (filter (fun l => negb (existsb (String.eqb l) categorical_candidates))
              (columns Xf)).
    split; [|split; [exact HcX | reflexivity]].
    unfold prepare_features. rewrite Htarget. cbn [negb]. fold dd. rewrite HX.
    cbn [bind]. rewrite Hy. cbn [bind]. rewrite Hcat. reflexivity.
  - intros n Hn.
    apply fit_transform_inv in H as (X1 & X4 & X5 & H1 & H4 & H5 & H7).
    pose proof (stages_keep_shape X1 X4 X5 X' H4 H5 H7) as Hshape.
    pose proof (drop_Ok_filter _ _ _ H1) as HX1.
    apply (same_shape_wf (VInt 0) 0%Z _ _ n) in Hshape; [exact Hshape|].
    subst X1. unfold map_columns. apply Forall_forall. intros lc Hlc.
    apply in_map_iff in Hlc as (lc0 & <- & Hlc0). simpl.
    apply filter_In in Hlc0 as [Hlc0 _].
    rewrite Forall_forall in Hn. exact (Hn _ Hlc0).
Qed.

End HandoverFacts.

(* ===================================================================== *)
(** * The cleaner: from the raw file to the processed file *)
(* ===================================================================== *)

Module DatasetFacts.
Import Py Pd Features Os Config Dataset.
Local Open Scope string_scope.
Local Open Scope list_scope.

Lemma drop_until_sep_none s :
  existsb is_sep s = false -> drop_until_sep s = [].
Proof.
  induction s as [|c s IH]; simpl; [reflexivity|].
  destruct (is_sep c); simpl; [discriminate | exact IH].
Qed.

Lemma existsb_rev {A : Type} (p : A -> bool) l : existsb p (rev l) = existsb p l.
Proof.
  induction l as [|a l IH]; simpl; [reflexivity|].
  rewrite existsb_app, IH. simpl. rewrite orb_false_r. apply orb_comm.
Qed.

(** A path without any [/] has no directory part. *)
Lemma dirname_of_bare_name p :
  existsb is_sep (list_ascii_of_string p) = false -> dirname p = "".
Proof.
  intros H. unfold dirname.
  rewrite drop_until_sep_none by now rewrite existsb_rev. reflexivity.
Qed.

Section Csv.
Variable csv : Type.
Variable read_csv : csv -> result (frame series).
Variable to_csv : frame (list Z) -> csv.

(** X19. The processed path needs a directory. With a processed path that is
    a bare file name, [os.path.dirname] gives the empty name, which
    [os.makedirs] cannot make: [run] raises, after the cleaning at the
    latest, and writes nothing. *)
Theorem run_needs_a_directory (self : AbsenteeismCleaner) (fs : disk csv) :
  existsb is_sep (list_ascii_of_string (processed_path self)) = false ->
  exists e, run read_csv to_csv self fs = (Raised e, fs).
Proof.
  intros H. unfold run, load_data, clean_data, save_data.
  rewrite (dirname_of_bare_name _ H). simpl.
  destruct (read_file (raw_path self) fs) as [text|]; [|eauto].
  destruct (read_csv text) as [df_raw|e0]; [|eauto].
  destruct (fit_transform df_raw) as [df_clean|e0]; eauto.
Qed.

End Csv.

End DatasetFacts.

(* ===================================================================== *)
(** * The service: loading the model *)
(* ===================================================================== *)

Module StartupFacts.
Import Py Pd Api Os ApiStartup.
Local Open Scope string_scope.
Local Open Scope list_scope.

Section Startup.
Variable Fitted : Type.
Variable unpickle : Fitted -> result Model.
Variable fs : Train.files Fitted.

Lemma startup_event_value (model0 : option Model) :
  startup_event unpickle fs model0
  = match Train.joblib_load DEFAULT_MODEL fs with
    | Some file =>
        match unpickle file with
        | Ok m => Some m
        | Raise _ => None
        end
    | None => None
    end.
Proof.
  unfold startup_event, exists_, load_model.
  destruct (Train.joblib_load DEFAULT_MODEL fs) as [file|]; [|reflexivity].
  destruct (unpickle file); reflexivity.
Qed.

(** X21. The service after its start. Whatever the global [model] held before,
    [startup_event] leaves it loaded exactly when the file
    [models/best_model.joblib] is there and [joblib.load] returns a model
    for it; a missing file and a file that does not load both leave no
    model and raise nothing. [health] reports [healthy] and
    [model_loaded] exactly in that case, and [predict] and
    [predict_batch] answer 503 exactly in the other. *)
Theorem service_after_startup (model0 : option Model) (DEFAULT_MODEL_exists : bool)
        (r : AbsenteeismInput) (inputs : list AbsenteeismInput) :
  let model := startup_event unpickle fs model0 in
  (model_loaded (health model) = true
   <-> exists file m, Train.joblib_load DEFAULT_MODEL fs = Some file
                      /\ unpickle file = Ok m /\ model = Some m)
  /\ (status (health model) = "healthy" <-> model_loaded (health model) = true)
  /\ (model_loaded (health model) = false
      <-> predict model DEFAULT_MODEL_exists r = Raise (HTTPException 503))
  /\ (model_loaded (health model) = false
      <-> predict_batch model DEFAULT_MODEL_exists inputs
          = Raise (HTTPException 503)).
Proof.
  intros model. unfold model. rewrite startup_event_value. clear model.
  destruct (Train.joblib_load DEFAULT_MODEL fs) as [file|] eqn:Ef;
    [destruct (unpickle file) as [m|e] eqn:Eu|]; simpl.
  - split; [split; [intros _; eauto | reflexivity]|].
    split; [split; reflexivity|].
    split; (split; [discriminate|]).
    + unfold predict.
      destruct (model_predict m (input_to_dataframe r)) as [[|p ps]|e];
        simpl; discriminate.
    + unfold predict_batch. destruct (Pd.concat _) as [df|e]; simpl; [|discriminate].
      destruct (model_predict m df); simpl; discriminate.
  - split; [split; [discriminate | intros (f & m & H & Hu & Hm); discriminate]|].
    split; [split; discriminate|]. split; split; reflexivity.
  - split; [split; [discriminate | intros (f & m & H & Hu & Hm); discriminate]|].
    split; [split; discriminate|]. split; split; reflexivity.
Qed.
End Startup.

End StartupFacts.

(* ===================================================================== *)
(** * From the training to the service *)
(* ===================================================================== *)

Module DeploymentFacts.
Import Py Pd Train Api ApiStartup SelectionFacts StartupFacts.
Local Open Scope string_scope.
Local Open Scope list_scope.

Section Run.
Variable Regressor : Type.
Variable Fitted : Type.
Variable train_test_split :
  dataset -> list Z -> Q -> Z -> result (dataset * dataset * list Z * list Z).
Variable Pipeline_fit :
  Preprocessor -> Regressor -> dataset -> list Z -> result Fitted.
Variable Pipeline_predict : Fitted -> dataset -> result (list pyfloat).
Variable mean_absolute_error : list Z -> list pyfloat -> result pyfloat.
Variable mean_squared_error : list Z -> list pyfloat -> result pyfloat.
Variable r2_score : list Z -> list pyfloat -> result pyfloat.
Variable np_sqrt : pyfloat -> pyfloat.
Variable log_to_mlflow :
  ModelResult Regressor Fitted -> string -> dataset -> list Z ->
  files Fitted -> files Fitted.

Let run (df : dataset) (models : list (string * Regressor)) (fs : files Fitted) :=
  main train_test_split Pipeline_fit Pipeline_predict mean_absolute_error
       mean_squared_error r2_score np_sqrt log_to_mlflow df models fs.

(** X22. What the training stores is what the service loads. After a [main]
    that returns, the file [models/best_model.joblib] the service reads
    at its start is the pipeline of the best of the results [main]
    returned: the first of those with the lowest test RMSE (results
    whose test RMSE is NaN apart, which compare with none). When
    [joblib.load] returns a model for it, the service starts with that
    model; when it raises, the service starts without a model. *)
Theorem service_loads_the_best_model
        (df : dataset) (models : list (string * Regressor)) (fs : files Fitted)
        (rs : list (ModelResult Regressor Fitted)) :
  returned (run df models fs) = Ok rs ->
  exists best,
    first_lowest best rs
    /\ joblib_load DEFAULT_MODEL (disk_after (run df models fs))
       = Some (pipeline best)
    /\ forall (unpickle : Fitted -> result Model) (model0 : option Model),
         startup_event unpickle (disk_after (run df models fs)) model0
         = match unpickle (pipeline best) with
           | Ok m => Some m
           | Raise _ => None
           end.
Proof.
  intros H. unfold run in *.
  destruct (main_returned _ _ _ _ _ _ _ _ _ _ _ _ _ _ H)
    as (X & y & cat_cols & num_cols & X_train & X_test & y_train & y_test & best
        & Hprep & Hsplit & Htrain & Hbest).
  rewrite (main_trained _ _ _ _ _ _ _ _ _ _ _ _ _ _ _ _ _ _ _ _ _ _
             Hprep Hsplit Htrain).
  destruct (loop_chooses _ _ log_to_mlflow X_train y_train fs rs) as [_ Hch].
  rewrite Hbest in Hch |- *. destruct Hch as [_ Hfl]. cbn [disk_after].
  assert (Hload : joblib_load DEFAULT_MODEL
                    (joblib_dump (pipeline best) "models/best_model.joblib"
                       (disk (fold_left (loop_turn log_to_mlflow X_train y_train) rs
                                {| results := []; best_model := None;
                                   best_score := FInf false; disk := fs |})))
                  = Some (pipeline best)) by reflexivity.
  exists best. split; [exact Hfl|]. split; [exact Hload|].
  intros unpickle model0. rewrite startup_event_value. now rewrite Hload.
Qed.

End Run.

End DeploymentFacts.

(* ===================================================================== *)
(** * The prediction script *)
(* ===================================================================== *)

Module PredictFacts.
Import Py Pd Api Predict.
Local Open Scope string_scope.
Local Open Scope list_scope.

Lemma np_maximum0_cases p :
  (p = FNan -> np_maximum0 p = FNan)
  /\ (float_ltb p (FFin 0) = true -> np_maximum0 p = FFin 0)
  /\ (float_leb (FFin 0) p = true -> np_maximum0 p = p).
Proof.
  split; [now intros ->|]. split.
  - intros H. destruct p as [|neg|q]; simpl in *; [discriminate| |now rewrite H].
    destruct neg; [reflexivity | discriminate].
  - intros H. destruct p as [|neg|q]; simpl in *; [discriminate| |].
    + now destruct neg.
    + unfold Qlt_bool. destruct (Qle_bool 0 q) eqn:E; [reflexivity|].
      simpl in H. congruence.
Qed.

Lemma np_maximum0_nonneg p :
  np_maximum0 p = FNan \/ float_leb (FFin 0) (np_maximum0 p) = true.
Proof.
  destruct p as [|neg|q]; simpl; [now left| |].
  - right. now destruct neg.
  - right. destruct (Qle_bool 0 q) eqn:E; simpl; [exact E | reflexivity].
Qed.

(** X23. [predict] of the prediction script returns the values of the model
    clamped at zero, or raises. It returns exactly when the model returns
    at least one value: then it returns as many values, in the same
    order, each of them NaN where the model's is NaN, 0 where the model's
    is negative, and the model's value otherwise, so that none is below
    zero. When the model returns no value it raises [ValueError], where
    it prints the minimum of an empty array; what the model raises, it
    raises. *)
Theorem predict_clamps_or_raises (model : Model) (X : frame (list pyval)) :
  match predict model X with
  | Ok predictions =>
      exists p ps,
        model_predict model X = Ok (p :: ps)
        /\ predictions = map np_maximum0 (p :: ps)
        /\ Forall2 (fun p p' =>
                      (p = FNan -> p' = FNan)
                      /\ (float_ltb p (FFin 0) = true -> p' = FFin 0)
                      /\ (float_leb (FFin 0) p = true -> p' = p))
                   (p :: ps) predictions
        /\ Forall (fun p' => p' = FNan \/ float_leb (FFin 0) p' = true) predictions
  | Raise e =>
      model_predict model X = Raise e
      \/ (model_predict model X = Ok [] /\ e = ValueError)
  end.
Proof.
  unfold predict. destruct (model_predict model X) as [[|p ps]|e]; simpl.
  - right. auto.
  - exists p, ps. split; [reflexivity|]. split; [reflexivity|]. split.
    + constructor; [apply np_maximum0_cases|].
      induction ps as [|a ps IH]; simpl; constructor; auto.
      apply np_maximum0_cases.
    + constructor; [apply np_maximum0_nonneg|].
      apply Forall_forall. intros p' Hp'. apply in_map_iff in Hp' as (a & <- & _).
      apply np_maximum0_nonneg.
  - left. reflexivity.
Qed.

End PredictFacts.

(* ===================================================================== *)
(** * From the cleaning pipeline to the visualizer *)
(* ===================================================================== *)

Module PlotsFacts.
Import Py Pd Features Config Plots PdFacts UpdateFacts FeaturesFacts CleaningFacts.
Import FixpointFacts DomainFacts HandoverFacts.
Local Open Scope string_scope.
Local Open Scope list_scope.

(** A loop of column updates over distinct labels succeeds when every
    listed column is there and its update succeeds on it. *)
Lemma foldM_update_Ok {C : Type}
      (rules : list (string * (frame C -> C -> result C))) :
  NoDup (map fst rules) ->
  forall X,
    Forall (fun r => exists c, get_col (fst r) X = Ok c
                               /\ forall df, exists c', snd r df c = Ok c') rules ->
    exists X', foldM (fun df r => update_col (fst r) (snd r) df) rules X = Ok X'.
Proof.
  induction rules as [|[l0 g0] rules IH]; intros Hnd X Hall; simpl; [eauto|].
  inversion Hnd as [|? ? Hnotin Hnd']; subst.
  inversion Hall as [|? ? (c & Hc & Hg) Hall']; subst. simpl in Hc, Hg.
  destruct (Hg X) as (c' & Hc').
  unfold update_col at 1. rewrite Hc. simpl. rewrite Hc'. simpl.
  apply IH; [exact Hnd'|].
  apply Forall_forall. intros r Hr. rewrite Forall_forall in Hall'.
  destruct (Hall' r Hr) as (c1 & Hc1 & Hg1). exists c1. split; [|exact Hg1].
  rewrite get_set_other; [exact Hc1|].
  intros E. apply Hnotin. rewrite <- E. now apply in_map.
Qed.

Lemma body_mass_category_cutoffs z :
  body_mass_category z
  = if (z <=? 18)%Z then "Underweight"
    else if (z <=? 24)%Z then "Normal"
    else if (z <=? 29)%Z then "Overweight"
    else "Obese".
Proof.
  unfold body_mass_category, Qlt_bool.
  assert (H : forall (n d : Z) (p : positive),
             Qle_bool (n # p) (inject_Z z) = (n <=? z * Zpos p)%Z).
  { intros n d p. unfold Qle_bool. simpl. now rewrite Z.mul_1_r. }
  rewrite !H by exact 0%Z.
  repeat match goal with
         | |- context [(?a <=? ?b)%Z] => destruct (Z.leb_spec a b)
         end; try reflexivity; lia.
Qed.

Lemma prepare_rules_NoDup : NoDup (map fst prepare_rules).
Proof.
  simpl. repeat constructor; simpl; intros H;
    repeat (destruct H as [H|H]; [discriminate H|]); exact H.
Qed.

(** X24. What the pipeline produces, the visualizer can label. On the frame
    read from a processed dataset [_prepare_data] succeeds. Each of the
    seven columns it maps holds the names its dictionary gives to the
    codes of the processed column; in [Month of absence] every cell gets
    a name, as the processed codes lie between 0 and 12. [Body mass
    index] holds the category of each value, by the cuts 18, 24 and 29 on
    integers. The other columns, [Reason for absence] among them, keep
    their integers. *)
Theorem processed_dataset_is_labelled X X' :
  fit_transform X = Ok X' ->
  exists V,
    _prepare_data (read_processed X') = Ok V
    /\ (forall label d,
          In (label, d) [ ("Month of absence", MONTHS); ("Day of the week", DAYS);
                          ("Seasons", SEASONS); ("Disciplinary failure", YES_NO);
                          ("Education", EDUCATION); ("Social drinker", YES_NO);
                          ("Social smoker", YES_NO) ] ->
          exists col', get_col label X' = Ok col'
                       /\ get_col label V = Ok (Names (map (dict_get d) col')))
    /\ (exists col', get_col "Month of absence" X' = Ok col'
                     /\ Forall (fun z => dict_get MONTHS z <> None) col')
    /\ (exists col',
          get_col "Body mass index" X' = Ok col'
          /\ get_col "Body mass index" V
             = Ok (Names (map (fun z => Some (if (z <=? 18)%Z then "Underweight"
                                              else if (z <=? 24)%Z then "Normal"
                                              else if (z <=? 29)%Z then "Overweight"
                                              else "Obese")) col')))
    /\ (forall label, ~ In label (map fst prepare_rules) ->
          get_col label V = (c <- get_col label X' ;; Ok (Ints c))).
Proof.
  intros H.
  assert (Hhas : forall label, In label (map fst prepare_rules) ->
                   exists col', get_col label X' = Ok col'
                                /\ get_col label (read_processed X') = Ok (Ints col')).
  { intros label Hl.
    assert (Hc : has_col label X' = true).
    { apply (processed_has_columns X X' label H). simpl in Hl |- *.
      repeat (destruct Hl as [<-|Hl]; [tauto|]). destruct Hl. }
    destruct (has_col_get _ _ _ Hc) as (col' & Hcol'). exists col'.
    split; [exact Hcol'|]. unfold read_processed.
    rewrite get_col_map_columns, Hcol'. reflexivity. }
  destruct (foldM_update_Ok prepare_rules prepare_rules_NoDup (read_processed X'))
    as (V & HV).
  { apply Forall_forall. intros r Hr.
    destruct (Hhas (fst r) (in_map fst _ _ Hr)) as (col' & _ & Hc).
    exists (Ints col'). split; [exact Hc|]. intros df.
    simpl in Hr. repeat (destruct Hr as [<-|Hr]; [simpl; eauto|]). destruct Hr. }
  exists V. split; [exact HV|].
  assert (Hloc : Forall (fun r => forall (df1 df2 : frame column) c,
                           get_col (fst r) df1 = get_col (fst r) df2 ->
                           snd r df1 c = snd r df2 c) prepare_rules).
  { apply Forall_forall. intros r Hr df1 df2 c _.
    simpl in Hr. repeat (destruct Hr as [<-|Hr]; [reflexivity|]). destruct Hr. }
  destruct (foldM_update_get prepare_rules prepare_rules_NoDup Hloc _ _ HV)
    as [Hin Hout].
  assert (Hmap : forall label d,
             In (label, fun (_ : frame column) col => Ok (series_map d col))
                prepare_rules ->
             exists col', get_col label X' = Ok col'
                          /\ get_col label V = Ok (Names (map (dict_get d) col'))).
  { intros label d Hr. destruct (Hin _ _ Hr) as (c & c' & Hc & Hg & Hc').
    destruct (Hhas label (in_map fst _ _ Hr)) as (col' & Hcol' & Hc0).
    rewrite Hc0 in Hc. apply Ok_inj in Hc. subst c. simpl in Hg.
    apply Ok_inj in Hg. subst c'. eauto. }
  split; [|split; [|split]].
  - intros label d Hl. apply Hmap. simpl in Hl |- *.
    repeat (destruct Hl as [Hl|Hl]; [injection Hl as <- <-; tauto|]). destruct Hl.
  - destruct (processed_categorical_values X X' "Month of absence"
                (FixInvalidValues.range 0 13) H) as (col' & m & Hc' & Hf & Hm).
    { simpl. tauto. }
    exists col'. split; [exact Hc'|].
    eapply Forall_impl; [|exact Hf]. intros z Hz.
    assert (Hz' : In z (FixInvalidValues.range 0 13)).
    { destruct Hz as [Hz| ->]; [exact Hz|]. apply Hm. simpl. tauto. }
    clear - Hz'. revert z Hz'. apply Forall_forall.
    repeat constructor; discriminate.
  - destruct (Hin "Body mass index" (fun _ col => series_apply_bmi col))
      as (c & c' & Hc & Hg & Hc').
    { simpl. tauto. }
    destruct (Hhas "Body mass index") as (col' & Hcol' & Hc0); [simpl; tauto|].
    rewrite Hc0 in Hc. apply Ok_inj in Hc. subst c. simpl in Hg.
    apply Ok_inj in Hg. subst c'. exists col'. split; [exact Hcol'|].
    rewrite Hc'. do 2 f_equal. apply map_ext. intros z.
    now rewrite body_mass_category_cutoffs.
  - intros label Hl. rewrite (Hout label Hl). unfold read_processed.
    apply get_col_map_columns.
Qed.

End PlotsFacts.

(* ===================================================================== *)
(** * The facts above on the samples *)
(* ===================================================================== *)

Module PipelineExamples.
Import Py Pd Features PdFacts CleaningFacts ShapeFacts FailureFacts IntegerFacts.
Import WinsorizeFacts FixpointFacts DomainFacts RepairFacts StripFacts.
Local Open Scope string_scope.
Local Open Scope list_scope.

(** The sample raw dataset keeps its twenty columns and its four rows. *)
Lemma fit_transform_keeps_shape_sample :
  fit_transform sample_raw = Ok sample_processed
  /\ exists X1,
       DropColumns.transform sample_raw = Ok X1
       /\ X1 = filter (fun lc => negb (existsb (String.eqb (fst lc))
                                               ["ID"; "mixed_type_col"])) sample_raw
       /\ same_shape (map_columns values X1) sample_processed.
Proof.
  split; [vm_compute; reflexivity|].
  apply (fit_transform_keeps_shape sample_raw sample_processed).
  vm_compute. reflexivity.
Defined.

(** The sample raw dataset without its column [Pet] is not cleaned. *)
Lemma fit_transform_requires_columns_sample :
  In "Pet" (["ID"; "mixed_type_col"]
              ++ map fst (FixInvalidValues.zero_repaired
                            ++ FixInvalidValues.mode_repaired)
              ++ WinsorizeIQR.columns)
  /\ has_col "Pet" (filter (fun lc => negb (String.eqb (fst lc) "Pet")) sample_raw)
     = false
  /\ exists l,
       fit_transform (filter (fun lc => negb (String.eqb (fst lc) "Pet")) sample_raw)
       = Raise (KeyError l).
Proof.
  assert (Hin : In "Pet" (["ID"; "mixed_type_col"]
              ++ map fst (FixInvalidValues.zero_repaired
                            ++ FixInvalidValues.mode_repaired)
              ++ WinsorizeIQR.columns)).
  { simpl. do 17 right. left. reflexivity. }
  split; [exact Hin|]. split; [reflexivity|].
  apply (fit_transform_requires_columns _ "Pet" Hin). reflexivity.
Defined.

(** The sample raw dataset with a column [Pet] that holds no number is
    not cleaned. *)
Lemma all_missing_column_is_rejected_sample :
  plain (set_col "Pet" (SObject [Some "?"; Some "n/a"; None; Some ""]) sample_raw)
  = true
  /\ exists X5,
    stages_1_5 (set_col "Pet" (SObject [Some "?"; Some "n/a"; None; Some ""])
                        sample_raw) = Ok X5
    /\ In ("Pet", [None; None; None; None]) X5
    /\ fit_transform (set_col "Pet" (SObject [Some "?"; Some "n/a"; None; Some ""])
                              sample_raw)
       = Raise ValueError.
Proof.
  assert (H : exists X5,
             stages_1_5 (set_col "Pet" (SObject [Some "?"; Some "n/a"; None; Some ""])
                                 sample_raw) = Ok X5
             /\ In ("Pet", [None; None; None; None]) X5).
  { eexists. split; [vm_compute; reflexivity|].
    repeat (first [left; reflexivity | right]). }
  assert (Hp : plain (set_col "Pet" (SObject [Some "?"; Some "n/a"; None; Some ""])
                              sample_raw) = true) by (vm_compute; reflexivity).
  split; [exact Hp|].
  destruct H as (X5 & H5 & Hin). exists X5. split; [exact H5|]. split; [exact Hin|].
  apply (all_missing_column_is_rejected _ X5 "Pet" [None; None; None; None] Hp H5 Hin).
  - discriminate.
  - reflexivity.
Defined.

(** The clean sample goes through the third stage as it is. *)
Lemma SafeRoundToInt_keeps_integers_sample :
  Forall (fun lc => Forall (fun z => (Z.abs z <= 2 ^ 53)%Z) (snd lc)) sample_clean
  /\ SafeRoundToInt.transform (as_raw sample_clean)
     = Ok (map_columns (map (fun z => Some (inject_Z z))) sample_clean).
Proof.
  assert (H : Forall (fun lc => Forall (fun z => (Z.abs z <= 2 ^ 53)%Z) (snd lc))
                     sample_clean)
    by (repeat constructor; simpl; lia).
  split; [exact H|]. apply (SafeRoundToInt_keeps_integers sample_clean H).
Defined.

(** The fifth stage on the sample raw dataset, as its fourth stage leaves
    it: in [Transportation expense] the quartiles are 75 and 100, the lower
    fence is 37.5, and the value 0 below it becomes 37.5. *)
Lemma WinsorizeIQR_moves_only_outliers_sample :
  exists X4 X5,
    stages_1_4 sample_raw = Ok X4
    /\ small_frame X4 = true
    /\ WinsorizeIQR.transform X4 = Ok X5
    /\ get_col "Transportation expense" X4 = Ok [Some 0; Some 100; Some 100; Some 100]%Q
    /\ (exists w, get_col "Transportation expense" X5
                   = Ok [Some w; Some 100; Some 100; Some 100]%Q
                   /\ (w == 75 # 2)%Q)
    /\ (forall label, ~ In label WinsorizeIQR.columns ->
          get_col label X5 = get_col label X4)
    /\ forall label, In label WinsorizeIQR.columns ->
         exists col col5,
           get_col label X4 = Ok col /\ get_col label X5 = Ok col5
           /\ (dropna col = [] -> col5 = col)
           /\ forall Q1 Q3,
                quantile col (1 # 4) = Some Q1 -> quantile col (3 # 4) = Some Q3 ->
                (Q1 <= Q3)%Q
                /\ Forall2 (fun x y =>
                     match x, y with
                     | None, None => True
                     | Some v, Some w =>
                         (v < Q1 - (3 # 2) * (Q3 - Q1)
                          -> w = Q1 - (3 # 2) * (Q3 - Q1))%Q
                         /\ (Q3 + (3 # 2) * (Q3 - Q1) < v
                             -> w = Q3 + (3 # 2) * (Q3 - Q1))%Q
                         /\ (Q1 - (3 # 2) * (Q3 - Q1) <= v <= Q3 + (3 # 2) * (Q3 - Q1)
                             -> w = v)%Q
                     | _, _ => False
                     end) col col5.
Proof.
  assert (H : exists X4 X5,
             stages_1_4 sample_raw = Ok X4 /\ small_frame X4 = true
             /\ WinsorizeIQR.transform X4 = Ok X5
             /\ get_col "Transportation expense" X4
                = Ok [Some 0; Some 100; Some 100; Some 100]%Q
             /\ (exists w, get_col "Transportation expense" X5
                            = Ok [Some w; Some 100; Some 100; Some 100]%Q
                            /\ (w == 75 # 2)%Q)).
  { eexists. eexists. split; [vm_compute; reflexivity|].
    split; [vm_compute; reflexivity|].
    split; [vm_compute; reflexivity|]. split; [reflexivity|].
    eexists. split; reflexivity. }
  destruct H as (X4 & X5 & H4 & Hs & H5 & Hc4 & Hc5). exists X4, X5.
  split; [exact H4|]. split; [exact Hs|]. split; [exact H5|].
  split; [exact Hc4|]. split; [exact Hc5|].
  apply (WinsorizeIQR_moves_only_outliers X4 X5 Hs H5).
Defined.

(** The clean sample: the run on [sample_clean_raw] returns
    [sample_clean]. *)
Lemma fit_transform_of_clean_dataset_sample :
  DropColumns.transform sample_clean_raw = Ok (as_raw sample_clean)
  /\ fit_transform sample_clean_raw = Ok sample_clean.
Proof.
  assert (H1 : DropColumns.transform sample_clean_raw = Ok (as_raw sample_clean))
    by reflexivity.
  split; [exact H1|].
  apply (fit_transform_of_clean_dataset sample_clean_raw sample_clean H1).
  - repeat constructor; simpl; lia.
  - repeat (apply Forall_cons;
      [eexists; split; [reflexivity|];
       repeat (apply Forall_cons; [apply In_by_eqb; reflexivity|]);
       apply Forall_nil|]);
    apply Forall_nil.
  - repeat (apply Forall_cons;
      [eexists; split; [reflexivity|];
       intros Q1 Q3 E1 E3; apply Some_inj in E1, E3; subst Q1 Q3;
       repeat (apply Forall_cons; [split; vm_compute; discriminate|]);
       apply Forall_nil|]);
    apply Forall_nil.
Defined.

(** The categorical columns of the processed sample. *)
Lemma processed_categorical_domains_sample :
  plain sample_raw = true
  /\ fit_transform sample_raw = Ok sample_processed
  /\ (forall label dom, In (label, dom) FixInvalidValues.zero_repaired ->
        exists col', get_col label sample_processed = Ok col'
                     /\ Forall (fun z => In z dom) col')
  /\ (forall label dom, In (label, dom) FixInvalidValues.mode_repaired ->
        exists X3 col3 col',
          stages_1_3 sample_raw = Ok X3 /\ get_col label X3 = Ok col3
          /\ get_col label sample_processed = Ok col'
          /\ Forall (fun z => In z dom \/ is_mode (inject_Z z) col3) col'
          /\ forall z1 z2, is_mode (inject_Z z1) col3 -> is_mode (inject_Z z2) col3 ->
                           z1 = z2).
Proof.
  split; [vm_compute; reflexivity|]. split; [vm_compute; reflexivity|].
  apply (processed_categorical_domains sample_raw sample_processed);
    vm_compute; reflexivity.
Defined.

(** The second stage on the sample, whose texts are ASCII: the padded
    text of the month 7 loses its blanks. *)
Lemma StripObjectColumns_strips_sample :
  ascii_frame sample_raw = true
  /\ exists X1,
       StripObjectColumns.transform sample_raw = Ok X1
       /\ StripObjectColumns.transform X1 = Ok X1
       /\ get_col "Month of absence" X1
          = Ok (SObject [Some "7"; Some "x"; Some "nan"; Some "13"]).
Proof.
  split; [reflexivity|].
  destruct (StripFacts.StripObjectColumns_strips sample_raw) as (X1 & H1 & H2 & _);
    [reflexivity|].
  exists X1. split; [exact H1|]. split; [exact H2|].
  vm_compute in H1. apply Ok_inj in H1. subst X1. reflexivity.
Defined.

(** The repaired sample is repaired into itself. *)
Lemma FixInvalidValues_idempotent_sample :
  FixInvalidValues.transform sample_categorical = Ok sample_categorical_repaired
  /\ FixInvalidValues.transform sample_categorical_repaired
     = Ok sample_categorical_repaired.
Proof.
  split; [vm_compute; reflexivity|].
  apply (FixInvalidValues_idempotent sample_categorical sample_categorical_repaired).
  vm_compute. reflexivity.
Defined.

(** A mode outside the domain: the days 9, 9, 9 and 3 are repaired into
    themselves, and a second repair finds them so. *)
Example repair_with_a_mode_outside_the_domain :
  exists X',
    FixInvalidValues.transform
      (set_col "Day of the week" [Some 9; Some 9; Some 9; Some 3]%Q sample_categorical)
    = Ok X'
    /\ get_col "Day of the week" X' = Ok [Some 9; Some 9; Some 9; Some 3]%Q
    /\ FixInvalidValues.transform X' = Ok X'.
Proof. eexists. split; [vm_compute; reflexivity|]. split; vm_compute; reflexivity. Qed.

End PipelineExamples.

Module RunExamples.
Import Py Pd Features Train Api Os Config Dataset ApiStartup Plots.
Import SelectionFacts FeatureColumnFacts TrainingRunFacts EndpointFacts HandoverFacts.
Import DatasetFacts.
Import StartupFacts DeploymentFacts PlotsFacts.
Local Open Scope string_scope.
Local Open Scope list_scope.

(** MLflow's stand-in writes under [mlruns/] only. *)
Lemma toy_log_elsewhere :
  forall (r : ModelResult (Q * string) (Q * string)) model_path X y
         (fs : files (Q * string)) p,
    String.prefix "models/" p = true ->
    joblib_load p (toy_log r model_path X y fs) = joblib_load p fs.
Proof.
  intros r model_path X y fs p Hp. unfold toy_log, joblib_dump.
  cbn [joblib_load].
  destruct (String.eqb p ("mlruns/" ++ model_path)) eqn:E; [|reflexivity].
  apply String.eqb_eq in E. subst p. cbv in Hp. discriminate Hp.
Qed.

(** The run on the three toy models: the second has the lowest score and
    is the one stored as the best model. *)
Lemma main_persists_first_lowest_sample :
  let run := Train.main toy_split toy_fit toy_predict toy_error toy_error toy_error
                        toy_sqrt toy_log sample_dataset toy_models [] in
  exists trained best,
    mapM (fun nm => train_model toy_fit toy_predict toy_error toy_error toy_error
                                toy_sqrt (fst nm) (snd nm)
                                (create_preprocessor ["Age"; "Son"] [])
                                [("Age", [33; 41]); ("Son", [2; 1])]%Z
                                [("Age", [33; 41]); ("Son", [2; 1])]%Z
                                [4; 8]%Z [4; 8]%Z) toy_models = Ok trained
    /\ Exists (fun r => float_ltb (test_rmse (metrics r)) (FInf false) = true) trained
    /\ returned run = Ok trained
    /\ first_lowest best trained
    /\ joblib_load "models/best_model.joblib" (disk_after run) = Some (pipeline best)
    /\ report run = Some (save_metrics trained)
    /\ pipeline best = (6%Q, "lgbm").
Proof.
  intros run.
  assert (H : exists trained,
             mapM (fun nm => train_model toy_fit toy_predict toy_error toy_error
                                         toy_error toy_sqrt (fst nm) (snd nm)
                                         (create_preprocessor ["Age"; "Son"] [])
                                         [("Age", [33; 41]); ("Son", [2; 1])]%Z
                                         [("Age", [33; 41]); ("Son", [2; 1])]%Z
                                         [4; 8]%Z [4; 8]%Z) toy_models = Ok trained
             /\ Exists (fun r => float_ltb (test_rmse (metrics r)) (FInf false) = true)
                       trained).
  { eexists. split; [vm_compute; reflexivity|]. apply Exists_cons_hd. reflexivity. }
  destruct H as (trained & Htrain & Hex). exists trained.
  destruct (main_persists_first_lowest _ _ toy_split toy_fit toy_predict toy_error
              toy_error toy_error toy_sqrt toy_log sample_dataset toy_models []
              [("Age", [33; 41]); ("Son", [2; 1])]%Z [4; 8]%Z [] ["Age"; "Son"]
              [("Age", [33; 41]); ("Son", [2; 1])]%Z
              [("Age", [33; 41]); ("Son", [2; 1])]%Z [4; 8]%Z [4; 8]%Z trained
              eq_refl eq_refl Htrain Hex)
    as (best & Hret & Hfl & Hload & Hrep).
  exists best. split; [exact Htrain|]. split; [exact Hex|]. split; [exact Hret|].
  split; [exact Hfl|]. split; [exact Hload|]. split; [exact Hrep|].
  assert (E : joblib_load "models/best_model.joblib" (disk_after run)
              = Some (6%Q, "lgbm")) by (vm_compute; reflexivity).
  pose proof (eq_trans (eq_sym Hload) E) as E'. congruence.
Defined.


(** The files of the run on the three toy models. *)
Lemma main_saves_every_model_sample :
  let run := Train.main toy_split toy_fit toy_predict toy_error toy_error toy_error
                        toy_sqrt toy_log sample_dataset toy_models [] in
  exists rs,
    returned run = Ok rs
    /\ map (@name (Q * string) (Q * string)) rs = map fst toy_models
    /\ report run = Some (save_metrics rs)
    /\ joblib_load "models/randomforest_model.joblib" (disk_after run)
       = Some (3%Q, "forest")
    /\ joblib_load "models/lightgbm_model.joblib" (disk_after run) = Some (6%Q, "lgbm")
    /\ joblib_load "models/catboost_model.joblib" (disk_after run)
       = Some (6%Q, "catboost")
    /\ joblib_load "models/other_model.joblib" (disk_after run) = None.
Proof.
  intros run.
  assert (H : exists rs, returned run = Ok rs) by (eexists; vm_compute; reflexivity).
  destruct H as (rs & H). exists rs. split; [exact H|].
  pose proof (main_saves_every_model _ _ toy_split toy_fit toy_predict toy_error
                toy_error toy_error toy_sqrt toy_log sample_dataset toy_models [] rs
                toy_log_elsewhere H)
    as (Hnames & Hrep & Hsaved & Hother).
  split; [exact Hnames|]. split; [exact Hrep|].
  repeat split; vm_compute; reflexivity.
Defined.

(** The second of the three toy models fails to fit: the first model's
    file is all the run leaves under [models/]. *)
Lemma main_stops_when_training_fails_sample :
  let fit := fun (p : Preprocessor) (model : Q * string) (X : dataset) (y : list Z) =>
               if String.eqb (snd model) "lgbm" then Raise ValueError else Ok model in
  let run := Train.main toy_split fit toy_predict toy_error toy_error toy_error
                        toy_sqrt toy_log sample_dataset toy_models [] in
  returned run = Raise ValueError
  /\ report run = None
  /\ joblib_load "models/randomforest_model.joblib" (disk_after run)
     = Some (3%Q, "forest")
  /\ joblib_load "models/lightgbm_model.joblib" (disk_after run) = None
  /\ joblib_load "models/catboost_model.joblib" (disk_after run) = None
  /\ joblib_load "models/best_model.joblib" (disk_after run) = None.
Proof.
  intros fit run.
  assert (H : exists trained,
             mapM (fun nm => train_model fit toy_predict toy_error toy_error toy_error
                                         toy_sqrt (fst nm) (snd nm)
                                         (create_preprocessor ["Age"; "Son"] [])
                                         [("Age", [33; 41]); ("Son", [2; 1])]%Z
                                         [("Age", [33; 41]); ("Son", [2; 1])]%Z
                                         [4; 8]%Z [4; 8]%Z)
                  [("RandomForest", (3%Q, "forest"))] = Ok trained).
  { eexists. vm_compute. reflexivity. }
  destruct H as (trained & Htrain).
  destruct (main_stops_when_training_fails _ _ toy_split fit toy_predict toy_error
              toy_error toy_error toy_sqrt toy_log sample_dataset []
              [("Age", [33; 41]); ("Son", [2; 1])]%Z [4; 8]%Z
              [] ["Age"; "Son"]
              [("Age", [33; 41]); ("Son", [2; 1])]%Z
              [("Age", [33; 41]); ("Son", [2; 1])]%Z
              [4; 8]%Z [4; 8]%Z
              [("RandomForest", (3%Q, "forest"))] ("LightGBM", (6%Q, "lgbm"))
              [("CatBoost", (6%Q, "catboost"))] trained ValueError
              eq_refl eq_refl Htrain eq_refl)
    as (Hret & Hrep & _ & Hfiles).
  split; [exact Hret|]. split; [exact Hrep|].
  repeat split; vm_compute; reflexivity.
Defined.

(** A model that returns NaN: 0 hours for the record, NaN for the batch
    of that record. *)
Lemma nan_prediction_single_and_batch_sample :
  model_predict {| model_predict := fun _ => Ok [FNan] |}
                (input_to_dataframe example_input) = Ok [FNan]
  /\ exists resp b,
       predict (Some {| model_predict := fun _ => Ok [FNan] |}) true example_input
       = Ok resp
       /\ predicted_absenteeism_hours resp = FFin 0
       /\ predict_batch (Some {| model_predict := fun _ => Ok [FNan] |}) true
                        [example_input] = Ok b
       /\ option_map predicted_absenteeism_hours (hd_error (predictions b))
          = Some FNan.
Proof.
  split; [reflexivity|].
  apply (nan_prediction_single_and_batch {| model_predict := fun _ => Ok [FNan] |}
           true example_input []).
  reflexivity.
Defined.

(** The processed sample is accepted by the training. *)
Lemma processed_dataset_is_accepted_sample :
  fit_transform sample_raw = Ok sample_processed
  /\ (exists Xf y num_cols,
        prepare_features sample_processed TARGET_COLUMN
        = Ok (Xf, y, categorical_candidates, num_cols)
        /\ columns Xf = filter (fun l => negb (String.eqb l TARGET_COLUMN))
                               (columns sample_processed)
        /\ num_cols = filter (fun l => negb (existsb (String.eqb l)
                                                     categorical_candidates))
                             (columns Xf))
  /\ forall n, Forall (fun lc => List.length (values (snd lc)) = n) sample_raw ->
               wf_frame sample_processed.
Proof.
  split; [vm_compute; reflexivity|].
  apply (processed_dataset_is_accepted sample_raw sample_processed).
  vm_compute. reflexivity.
Defined.

(** A cleaner that is to write [out.csv]: nothing is written. *)
Lemma run_needs_a_directory_sample :
  existsb is_sep (list_ascii_of_string "out.csv") = false
  /\ exists e,
       run (fun _ : unit => Ok sample_raw) (fun _ => tt)
           {| raw_path := "raw.csv"; processed_path := "out.csv" |}
           [("raw.csv", tt)]
       = (Raised e, [("raw.csv", tt)]).
Proof.
  split; [reflexivity|].
  apply (run_needs_a_directory unit (fun _ : unit => Ok sample_raw) (fun _ => tt)
           {| raw_path := "raw.csv"; processed_path := "out.csv" |}
           [("raw.csv", tt)]).
  reflexivity.
Defined.

(** The service started on the files of the run on the toy models loads
    the pipeline of the second model. *)
Lemma service_loads_the_best_model_sample :
  let run := Train.main toy_split toy_fit toy_predict toy_error toy_error toy_error
                        toy_sqrt toy_log sample_dataset toy_models [] in
  exists rs,
    returned run = Ok rs
    /\ exists best,
         first_lowest best rs
         /\ joblib_load DEFAULT_MODEL (disk_after run) = Some (pipeline best)
         /\ pipeline best = (6%Q, "lgbm")
         /\ forall (unpickle : Q * string -> result Model) (model0 : option Model),
              startup_event unpickle (disk_after run) model0
              = match unpickle (pipeline best) with
                | Ok m => Some m
                | Raise _ => None
                end.
Proof.
  intros run.
  assert (H : exists rs, returned run = Ok rs) by (eexists; vm_compute; reflexivity).
  destruct H as (rs & H). exists rs. split; [exact H|].
  destruct (service_loads_the_best_model _ _ toy_split toy_fit toy_predict toy_error
              toy_error toy_error toy_sqrt toy_log sample_dataset toy_models [] rs H)
    as (best & Hfl & Hload & Hstart).
  exists best. split; [exact Hfl|]. split; [exact Hload|]. split; [|exact Hstart].
  assert (E : joblib_load DEFAULT_MODEL (disk_after run) = Some (6%Q, "lgbm"))
    by (vm_compute; reflexivity).
  pose proof (eq_trans (eq_sym Hload) E) as E'. congruence.
Defined.

(** The processed sample is labelled: its months are July and three
    times [Unknown]. *)
Lemma processed_dataset_is_labelled_sample :
  fit_transform sample_raw = Ok sample_processed
  /\ exists V,
       _prepare_data (read_processed sample_processed) = Ok V
       /\ get_col "Month of absence" V
          = Ok (Names [Some "July"; Some "Unknown"; Some "Unknown"; Some "Unknown"])
       /\ get_col "Body mass index" V
          = Ok (Names [Some "Obese"; Some "Obese"; Some "Obese"; Some "Obese"])
       /\ get_col "Reason for absence" V = Ok (Ints [5; 5; 0; 26]%Z).
Proof.
  split; [vm_compute; reflexivity|].
  destruct (processed_dataset_is_labelled sample_raw sample_processed)
    as (V & HV & _); [vm_compute; reflexivity|].
  exists V. split; [exact HV|]. vm_compute in HV. apply Ok_inj in HV. subst V.
  repeat split.
Defined.

End RunExamples.
